(* ===================================================================== *)
(* gke-mcp: the cluster tools, the Cursor installer and the logging      *)
(* tools.                                                                *)
(*                                                                       *)
(* A shallow embedding of handlers.getKubeconfig (pkg/tools/cluster):    *)
(* the kubeconfig data model, the append-or-update loops over clusters,  *)
(* contexts and users, the read of ~/.kube/config, and the write back;   *)
(* of getCluster and listClusters beside it; of CursorMCPExtension       *)
(* (pkg/install); and of get_sample_queries and list_logs                *)
(* (pkg/tools/logging).                                                  *)
(* The GKE and logging clients, the YAML and JSON codecs and the         *)
(* operating system are the environment: clients and codecs are          *)
(* parameters, the file system is a tree of nodes with the behaviour     *)
(* Go's package os documents.                                            *)
(* ===================================================================== *)

From stdpp Require Import gmap strings list fin_maps.
From Stdlib Require Import NArith.

Local Open Scope string_scope.
Local Open Scope stdpp_scope.
Local Open Scope list_scope.

(* --------------------------------------------------------------------- *)
(* 1. Data model (the types declared next to getKubeconfig)              *)
(* --------------------------------------------------------------------- *)

(* A Go []byte. *)
Definition bytes := list Byte.byte.

(* type Cluster struct *)
Module Cluster.
Record t := mk {
  CertificateAuthorityData : string;
  Server : string
}.
End Cluster.

(* type NamedCluster struct *)
Module NamedCluster.
Record t := mk {
  Name : string;
  Cluster : Cluster.t
}.
End NamedCluster.

(* type Context struct *)
Module Context.
Record t := mk {
  Cluster : string;
  User : string
}.
End Context.

(* type NamedContext struct *)
Module NamedContext.
Record t := mk {
  Name : string;
  Context : Context.t
}.
End NamedContext.

(* type ExecConfig struct *)
Module ExecConfig.
Record t := mk {
  APIVersion : string;
  Command : string;
  InstallHint : string;
  ProvideClusterInfo : bool
}.
End ExecConfig.

(* type AuthInfo struct; Exec is a *ExecConfig, nil is None. *)
Module AuthInfo.
Record t := mk {
  Exec : option ExecConfig.t
}.
End AuthInfo.

(* type NamedAuthInfo struct *)
Module NamedAuthInfo.
Record t := mk {
  Name : string;
  User : AuthInfo.t
}.
End NamedAuthInfo.

(* type Kubeconfig struct.  A slice is the list of its elements (a nil
   slice and an empty one are both []), Preferences is a finite map whose
   values, Go's interface{}, are of a type [Value] left open. *)
Module Kubeconfig.
Record t (Value : Type) := mk {
  APIVersion : string;
  Clusters : list NamedCluster.t;
  Contexts : list NamedContext.t;
  CurrentContext : string;
  Kind : string;
  Preferences : gmap string Value;
  Users : list NamedAuthInfo.t
}.
Arguments mk {Value}.
Arguments APIVersion {Value}.
Arguments Clusters {Value}.
Arguments Contexts {Value}.
Arguments CurrentContext {Value}.
Arguments Kind {Value}.
Arguments Preferences {Value}.
Arguments Users {Value}.
End Kubeconfig.

(* type getKubeconfigArgs struct *)
Module getKubeconfigArgs.
Record t := mk {
  ProjectID : string;
  Location : string;
  Name : string
}.
End getKubeconfigArgs.

(* --------------------------------------------------------------------- *)
(* 2. Building the three entries and merging them (pure part)            *)
(* --------------------------------------------------------------------- *)

(* strings.HasPrefix(s, p) *)
Definition HasPrefix (s p : string) : bool := String.prefix p s.

(* if !strings.HasPrefix(endpoint, "https://") { endpoint = "https://" + endpoint } *)
Definition ensureHTTPS (endpoint : string) : string :=
  if negb (HasPrefix endpoint "https://") then "https://" +:+ endpoint
  else endpoint.

(* fmt.Sprintf("gke_%s_%s_%s", args.ProjectID, args.Location, args.Name) *)
Definition gkeName (projectID location name : string) : string :=
  "gke_" +:+ projectID +:+ "_" +:+ location +:+ "_" +:+ name.

(* "Create new cluster, context, and user entries" *)
Definition newCluster (newClusterName clusterCaCertificate endpoint : string)
  : NamedCluster.t :=
  {| NamedCluster.Name := newClusterName;
     NamedCluster.Cluster :=
       {| Cluster.CertificateAuthorityData := clusterCaCertificate;
          Cluster.Server := endpoint |} |}.

Definition newContext (newClusterName : string) : NamedContext.t :=
  {| NamedContext.Name := newClusterName;
     NamedContext.Context :=
       {| Context.Cluster := newClusterName;
          Context.User := newClusterName |} |}.

Definition newUser (newClusterName : string) : NamedAuthInfo.t :=
  {| NamedAuthInfo.Name := newClusterName;
     NamedAuthInfo.User :=
       {| AuthInfo.Exec := Some
            {| ExecConfig.APIVersion := "client.authentication.k8s.io/v1beta1";
               ExecConfig.Command := "gke-gcloud-auth-plugin";
               ExecConfig.InstallHint :=
                 "Install gke-gcloud-auth-plugin for use with kubectl by following https://cloud.google.com/kubernetes-engine/docs/how-to/cluster-access-for-kubectl#install_plugin";
               ExecConfig.ProvideClusterInfo := true |} |} |}.

(* The append-or-update loop, written three times in getKubeconfig (for
   Clusters, Contexts and Users):

     found := false
     for i, c := range xs {
       if c.Name == newClusterName { xs[i] = new; found = true; break }
     }
     if !found { xs = append(xs, new) }

   [list_find] yields the first index whose element has the name, which is
   where the loop assigns and breaks. *)
Definition upsert {A} (name : A → string) (newClusterName : string)
    (new : A) (xs : list A) : list A :=
  match list_find (λ c, name c = newClusterName) xs with
  | Some (i, _) => <[i:=new]> xs
  | None => xs ++ [new]
  end.

(* "Append or update cluster", "Append or update context", "Append or
   update user" and "Set current context": the three loops, each with the
   entry built for it, and the assignment of CurrentContext.  The fields
   that are not assigned keep their values. *)
Definition mergeKubeconfig {Value} (newClusterName clusterCaCertificate endpoint : string)
    (existingKubeconfig : Kubeconfig.t Value) : Kubeconfig.t Value :=
  {| Kubeconfig.APIVersion := Kubeconfig.APIVersion existingKubeconfig;
     Kubeconfig.Clusters :=
       upsert NamedCluster.Name newClusterName
         (newCluster newClusterName clusterCaCertificate endpoint)
         (Kubeconfig.Clusters existingKubeconfig);
     Kubeconfig.Contexts :=
       upsert NamedContext.Name newClusterName (newContext newClusterName)
         (Kubeconfig.Contexts existingKubeconfig);
     Kubeconfig.CurrentContext := newClusterName;
     Kubeconfig.Kind := Kubeconfig.Kind existingKubeconfig;
     Kubeconfig.Preferences := Kubeconfig.Preferences existingKubeconfig;
     Kubeconfig.Users :=
       upsert NamedAuthInfo.Name newClusterName (newUser newClusterName)
         (Kubeconfig.Users existingKubeconfig) |}.

(* --------------------------------------------------------------------- *)
(* 3. The environment: file system, home directory, client, codec        *)
(* --------------------------------------------------------------------- *)

(* A cleaned absolute path is the list of its components below the root;
   filepath.Join appends components, filepath.Dir drops the last one. *)
Abbreviation path := (list string).

Definition filepath_Join (dir : path) (elems : list string) : path := dir ++ elems.
Definition filepath_Dir (p : path) : path := removelast p.

(* Permission bits (os.FileMode), octal in the source. *)
Definition FileMode := N.
Definition mode_0755 : FileMode := 0x1ed%N.   (* 0755: rwxr-xr-x *)
Definition mode_0600 : FileMode := 0x180%N.   (* 0600: rw------- *)
Definition mode_0077 : FileMode := 0x3f%N.    (* 0077: the group and other bits *)

(* No permission for group or others. *)
Definition owner_only (m : FileMode) : Prop := N.land m mode_0077 = 0%N.

(* A node of the file tree: a file with its content and mode, or a
   directory with its mode and its entries by name. *)
#[warning="-register-all"]
Inductive node :=
| File (data : bytes) (perm : FileMode)
| Dir (perm : FileMode) (entries : gmap string node).

(* The errors of the file system calls: no such file or directory, not a
   directory, is a directory, read-only file system. *)
Inductive errno := ENOENT | ENOTDIR | EISDIR | EROFS.

(* The state outside the process that getKubeconfig reads and writes:
   the file tree from its root, the process's umask, $HOME (None when
   unset), and whether the file system refuses every change, as one
   mounted read-only does.  The calls below fail the way the shape of the
   tree makes them fail (ENOENT, ENOTDIR, EISDIR), or, when they would
   change a file system that refuses changes, with EROFS; permissions are
   recorded, not enforced. *)
Record world := mkWorld {
  root : node;
  umask : FileMode;
  HOME : option path;
  readOnly : bool
}.

(* Path resolution below node [t]: a missing component is ENOENT, a file
   used as a directory is ENOTDIR. *)
Fixpoint lookupPath (t : node) (p : path) : errno + node :=
  match p with
  | [] => inr t
  | name :: rest =>
      match t with
      | File _ _ => inl ENOTDIR
      | Dir _ entries =>
          match entries !! name with
          | None => inl ENOENT
          | Some child => lookupPath child rest
          end
      end
  end.

(* os.Stat *)
Definition os_Stat (w : world) (p : path) : errno + node :=
  lookupPath (root w) p.

(* os.IsNotExist *)
Definition os_IsNotExist (e : errno) : bool :=
  match e with ENOENT => true | _ => false end.

(* os.ReadFile *)
Definition os_ReadFile (w : world) (p : path) : errno + bytes :=
  match os_Stat w p with
  | inr (File data _) => inr data
  | inr (Dir _ _) => inl EISDIR
  | inl e => inl e
  end.

(* os.MkdirAll(path, perm) below node [t]: every component that is
   missing is created as a directory with mode perm less the umask [u];
   a component that is a file is ENOTDIR; directories that exist are kept
   as they are. *)
Fixpoint mkdirAll (u perm : FileMode) (t : node) (p : path) : errno + node :=
  match p with
  | [] =>
      match t with
      | Dir _ _ => inr t
      | File _ _ => inl ENOTDIR
      end
  | name :: rest =>
      match t with
      | File _ _ => inl ENOTDIR
      | Dir m entries =>
          let child :=
            match entries !! name with
            | Some child => child
            | None => Dir (N.ldiff perm u) ∅
            end in
          match mkdirAll u perm child rest with
          | inl e => inl e
          | inr child' => inr (Dir m (<[name := child']> entries))
          end
      end
  end.

(* MkdirAll first asks Stat: a directory that exists is left alone. *)
Definition os_MkdirAll (w : world) (p : path) (perm : FileMode) : errno + world :=
  match os_Stat w p with
  | inr (Dir _ _) => inr w
  | inr (File _ _) => inl ENOTDIR
  | inl _ =>
      match mkdirAll (umask w) perm (root w) p with
      | inl e => inl e
      | inr t =>
          if readOnly w then inl EROFS
          else inr (mkWorld t (umask w) (HOME w) (readOnly w))
      end
  end.

(* os.WriteFile(name, data, perm) below node [t]: the file is created with
   mode perm less the umask [u] if it does not exist; a file that exists
   is truncated and written, its mode unchanged. *)
Fixpoint writeFile (u perm : FileMode) (data : bytes) (t : node) (p : path)
  : errno + node :=
  match p with
  | [] =>
      match t with
      | File _ old => inr (File data old)
      | Dir _ _ => inl EISDIR
      end
  | name :: rest =>
      match t with
      | File _ _ => inl ENOTDIR
      | Dir m entries =>
          match entries !! name with
          | Some child =>
              match writeFile u perm data child rest with
              | inl e => inl e
              | inr child' => inr (Dir m (<[name := child']> entries))
              end
          | None =>
              match rest with
              | [] => inr (Dir m (<[name := File data (N.ldiff perm u)]> entries))
              | _ :: _ => inl ENOENT
              end
          end
      end
  end.

Definition os_WriteFile (w : world) (name : path) (data : bytes) (perm : FileMode)
  : errno + world :=
  match writeFile (umask w) perm data (root w) name with
  | inl e => inl e
  | inr t =>
      if readOnly w then inl EROFS
      else inr (mkWorld t (umask w) (HOME w) (readOnly w))
  end.

(* os.UserHomeDir *)
Definition os_UserHomeDir (w : world) : option path := HOME w.

(* The path as printed in messages. *)
Definition pathString (p : path) : string :=
  "/" +:+ String.concat "/" p.

(* config.Config, through the two getters getKubeconfig calls. *)
Module Config.
Record t := mk {
  DefaultProjectID : string;
  DefaultLocation : string
}.
End Config.

(* containerpb.Cluster, through the getters getKubeconfig calls:
   GetMasterAuth().GetClusterCaCertificate() and GetEndpoint(). *)
Module containerpb.
Record Cluster := mkCluster {
  GetClusterCaCertificate : string;
  GetEndpoint : string
}.
End containerpb.

(* container.ClusterManagerClient: GetCluster maps the request's Name to a
   cluster or to the error of the call. *)
Module ClusterManagerClient.
Record t := mk {
  GetCluster : string → string + containerpb.Cluster
}.
End ClusterManagerClient.

(* type handlers struct *)
Record handlers := mkHandlers {
  c : Config.t;
  cmClient : ClusterManagerClient.t
}.

(* The errors getKubeconfig returns, one constructor per fmt.Errorf. *)
Inductive error :=
| ErrNameEmpty
    (* "name argument cannot be empty" *)
| ErrGetCluster (name cause : string)
    (* "failed to get cluster %s: %w" *)
| ErrNoClusterCaCertificate (name : string)
    (* "clusterCaCertificate not found for cluster %s" *)
| ErrNoEndpoint (name : string)
    (* "endpoint not found for cluster %s" *)
| ErrUserHomeDir
    (* "failed to get user home directory: %w" *)
| ErrReadFile (kubeconfigPath : path) (cause : errno)
    (* "failed to read existing kubeconfig file %s: %w" *)
| ErrUnmarshal (kubeconfigPath : path) (cause : string)
    (* "failed to unmarshal existing kubeconfig file %s: %w" *)
| ErrMarshal (cause : string)
    (* "failed to marshal updated kubeconfig: %w" *)
| ErrMkdirAll (kubeDir : path) (cause : errno)
    (* "failed to create directory %s: %w" *)
| ErrWriteFile (kubeconfigPath : path) (cause : errno).
    (* "failed to write kubeconfig to %s: %w" *)

(* A computation that reads and writes the world and may stop with an
   error; the world it returns is the one left behind, also on error. *)
Definition M (A : Type) : Type := world → (error + A) * world.

Definition ret {A} (a : A) : M A := λ w, (inr a, w).
Definition fail {A} (e : error) : M A := λ w, (inl e, w).
Definition bind {A B} (m : M A) (k : A → M B) : M B :=
  λ w, match m w with
       | (inl e, w') => (inl e, w')
       | (inr a, w') => k a w'
       end.
(* A call that only looks at the world. *)
Definition ask {A} (f : world → A) : M A := λ w, (inr (f w), w).
(* A call that changes the world or fails with an errno. *)
Definition act (f : world → errno + world) (wrap : errno → error) : M unit :=
  λ w, match f w with
       | inl e => (inl (wrap e), w)
       | inr w' => (inr tt, w')
       end.

Notation "x <- m ;; k" := (bind m (λ x, k))
  (at level 100, m at next level, right associativity).
Notation "m ;;; k" := (bind m (λ _, k))
  (at level 100, right associativity).

(* --------------------------------------------------------------------- *)
(* 4. getKubeconfig                                                      *)
(* --------------------------------------------------------------------- *)

Section GetKubeconfig.

(* The values of the Preferences map. *)
Context {Value : Type}.

(* sigs.k8s.io/yaml: Unmarshal into a zero Kubeconfig, and Marshal. *)
Variable yaml_Unmarshal : bytes → string + Kubeconfig.t Value.
Variable yaml_Marshal : Kubeconfig.t Value → string + bytes.

(* Kubeconfig{APIVersion: "v1", Kind: "Config", Preferences: make(...)} *)
Definition emptyKubeconfig : Kubeconfig.t Value :=
  {| Kubeconfig.APIVersion := "v1";
     Kubeconfig.Clusters := [];
     Kubeconfig.Contexts := [];
     Kubeconfig.CurrentContext := "";
     Kubeconfig.Kind := "Config";
     Kubeconfig.Preferences := ∅;
     Kubeconfig.Users := [] |}.

(* After a successful Unmarshal: nil slices become empty slices and a nil
   map an empty map (no change on lists and finite maps), an empty
   APIVersion becomes "v1" and an empty Kind "Config". *)
Definition fillDefaults (k : Kubeconfig.t Value) : Kubeconfig.t Value :=
  {| Kubeconfig.APIVersion :=
       if decide (Kubeconfig.APIVersion k = "") then "v1"
       else Kubeconfig.APIVersion k;
     Kubeconfig.Clusters := Kubeconfig.Clusters k;
     Kubeconfig.Contexts := Kubeconfig.Contexts k;
     Kubeconfig.CurrentContext := Kubeconfig.CurrentContext k;
     Kubeconfig.Kind :=
       if decide (Kubeconfig.Kind k = "") then "Config"
       else Kubeconfig.Kind k;
     Kubeconfig.Preferences := Kubeconfig.Preferences k;
     Kubeconfig.Users := Kubeconfig.Users k |}.

(* "Read existing kubeconfig file if it exists" *)
Definition loadKubeconfig (kubeconfigPath : path) : M (Kubeconfig.t Value) :=
  r <- ask (λ w, os_ReadFile w kubeconfigPath) ;;
  match r with
  | inl err =>
      if negb (os_IsNotExist err) then fail (ErrReadFile kubeconfigPath err)
      else ret emptyKubeconfig
  | inr kubeconfigBytes =>
      match yaml_Unmarshal kubeconfigBytes with
      | inl err => fail (ErrUnmarshal kubeconfigPath err)
      | inr existingKubeconfig => ret (fillDefaults existingKubeconfig)
      end
  end.

(* "Ensure .kube directory exists", then "Write the updated kubeconfig
   to file". *)
Definition writeKubeconfig (kubeconfigPath : path) (updatedKubeconfigBytes : bytes)
  : M unit :=
  let kubeDir := filepath_Dir kubeconfigPath in
  st <- ask (λ w, os_Stat w kubeDir) ;;
  (match st with
   | inl err =>
       if os_IsNotExist err
       then act (λ w, os_MkdirAll w kubeDir mode_0755) (ErrMkdirAll kubeDir)
       else ret tt
   | inr _ => ret tt
   end) ;;;
  act (λ w, os_WriteFile w kubeconfigPath updatedKubeconfigBytes mode_0600)
      (ErrWriteFile kubeconfigPath).

(* if args.ProjectID == "" { args.ProjectID = h.c.DefaultProjectID() }
   if args.Location == "" { args.Location = h.c.DefaultLocation() } *)
Definition withDefaults (h : handlers) (args : getKubeconfigArgs.t)
  : getKubeconfigArgs.t :=
  {| getKubeconfigArgs.ProjectID :=
       if decide (getKubeconfigArgs.ProjectID args = "")
       then Config.DefaultProjectID (c h)
       else getKubeconfigArgs.ProjectID args;
     getKubeconfigArgs.Location :=
       if decide (getKubeconfigArgs.Location args = "")
       then Config.DefaultLocation (c h)
       else getKubeconfigArgs.Location args;
     getKubeconfigArgs.Name := getKubeconfigArgs.Name args |}.

(* fmt.Sprintf("projects/%s/locations/%s/clusters/%s", ...) *)
Definition requestName (args : getKubeconfigArgs.t) : string :=
  "projects/" +:+ getKubeconfigArgs.ProjectID args
    +:+ "/locations/" +:+ getKubeconfigArgs.Location args
    +:+ "/clusters/" +:+ getKubeconfigArgs.Name args.

(* newClusterName := fmt.Sprintf("gke_%s_%s_%s", ...) *)
Definition newClusterNameOf (args : getKubeconfigArgs.t) : string :=
  gkeName (getKubeconfigArgs.ProjectID args) (getKubeconfigArgs.Location args)
    (getKubeconfigArgs.Name args).

(* kubeconfigPath := filepath.Join(homeDir, ".kube", "config") *)
Definition kubeconfigPathOf (homeDir : path) : path :=
  filepath_Join homeDir [".kube"; "config"].

(* The text of the result. *)
Definition successText (args : getKubeconfigArgs.t) (kubeconfigPath : path)
    (newClusterName : string) : string :=
  "Kubeconfig for cluster " +:+ getKubeconfigArgs.Name args
    +:+ " (Project: " +:+ getKubeconfigArgs.ProjectID args
    +:+ ", Location: " +:+ getKubeconfigArgs.Location args
    +:+ ") successfully appended/updated in " +:+ pathString kubeconfigPath
    +:+ ". Current context set to " +:+ newClusterName +:+ ".".

(* func (h *handlers) getKubeconfig(ctx, _, args): the result is the text
   of the tool result, or the error. *)
Definition getKubeconfig (h : handlers) (args : getKubeconfigArgs.t) : M string :=
  let args := withDefaults h args in
  if decide (getKubeconfigArgs.Name args = "") then fail ErrNameEmpty else
  match ClusterManagerClient.GetCluster (cmClient h) (requestName args) with
  | inl err => fail (ErrGetCluster (getKubeconfigArgs.Name args) err)
  | inr resp =>
      let clusterCaCertificate := containerpb.GetClusterCaCertificate resp in
      let endpoint := containerpb.GetEndpoint resp in
      if decide (clusterCaCertificate = "")
      then fail (ErrNoClusterCaCertificate (getKubeconfigArgs.Name args)) else
      if decide (endpoint = "")
      then fail (ErrNoEndpoint (getKubeconfigArgs.Name args)) else
      let endpoint := ensureHTTPS endpoint in
      let newClusterName := newClusterNameOf args in
      home <- ask os_UserHomeDir ;;
      match home with
      | None => fail ErrUserHomeDir
      | Some homeDir =>
          let kubeconfigPath := kubeconfigPathOf homeDir in
          existingKubeconfig <- loadKubeconfig kubeconfigPath ;;
          let existingKubeconfig :=
            mergeKubeconfig newClusterName clusterCaCertificate endpoint
              existingKubeconfig in
          match yaml_Marshal existingKubeconfig with
          | inl err => fail (ErrMarshal err)
          | inr updatedKubeconfigBytes =>
              writeKubeconfig kubeconfigPath updatedKubeconfigBytes ;;;
              ret (successText args kubeconfigPath newClusterName)
          end
      end
  end.

End GetKubeconfig.

(* --------------------------------------------------------------------- *)
(* 4a. Paths, names and worlds: notions for what the code leaves alone    *)
(* --------------------------------------------------------------------- *)

(* Two paths part ways: at the first component where they differ, both
   still have one (neither is a prefix of the other). *)
Fixpoint diverges (p q : path) : bool :=
  match p, q with
  | a :: p', b :: q' => if decide (a = b) then diverges p' q' else true
  | _, _ => false
  end.

(* The string has the character. *)
Fixpoint hasChar (c : Ascii.ascii) (s : string) : bool :=
  match s with
  | EmptyString => false
  | String c' s' => if decide (c = c') then true else hasChar c s'
  end.

(* The separator fmt.Sprintf("gke_%s_%s_%s", ...) puts between the parts. *)
Definition underscore : Ascii.ascii := Ascii.ascii_of_nat 95.

(* What no call of the file system changes: the umask, $HOME, and whether
   the file system refuses changes. *)
Definition sameEnv (w w' : world) : Prop :=
  umask w' = umask w ∧ HOME w' = HOME w ∧ readOnly w' = readOnly w.

(* The path is a directory. *)
Definition isDir (w : world) (p : path) : Prop :=
  ∃ m entries, os_Stat w p = inr (Dir m entries).

(* The path is a file with this content and mode. *)
Definition isFile (w : world) (p : path) (data : bytes) (m : FileMode) : Prop :=
  os_Stat w p = inr (File data m).

(* x is the first entry of the list named n. *)
Definition firstNamed {A} (name : A → string) (n : string) (x : A) (ys : list A)
  : Prop :=
  ∃ pre post, ys = pre ++ x :: post ∧ Forall (λ y, name y ≠ n) pre.

(* --------------------------------------------------------------------- *)
(* 4b. get_cluster and list_clusters                                     *)
(* --------------------------------------------------------------------- *)

(* type listClustersArgs struct *)
Module listClustersArgs.
Record t := mk {
  ProjectID : string;
  Location : string
}.
End listClustersArgs.

(* type getClustersArgs struct *)
Module getClustersArgs.
Record t := mk {
  ProjectID : string;
  Location : string;
  Name : string
}.
End getClustersArgs.

(* The errors of listClusters and getCluster. *)
Inductive toolError :=
| ErrNameArgument
    (* "name argument cannot be empty" *)
| ErrClient (err : string).
    (* the error of the client's call, returned as it is *)

Section ClusterTools.

(* containerpb.ListClustersResponse *)
Context {ListClustersResponse : Type}.

(* h.cmClient.ListClusters, from the request's Parent. *)
Variable ListClusters : string → string + ListClustersResponse.

(* protojson.Format, on the two messages. *)
Variable protojson_Format_clusters : ListClustersResponse → string.
Variable protojson_Format_cluster : containerpb.Cluster → string.

(* fmt.Sprintf("projects/%s/locations/%s", ...) *)
Definition requestParent (args : listClustersArgs.t) : string :=
  "projects/" +:+ listClustersArgs.ProjectID args
    +:+ "/locations/" +:+ listClustersArgs.Location args.

(* func (h *handlers) listClusters(ctx, _, args): the text of the result,
   or the error. *)
Definition listClusters (h : handlers) (args : listClustersArgs.t)
  : toolError + string :=
  let args :=
    {| listClustersArgs.ProjectID :=
         if decide (listClustersArgs.ProjectID args = "")
         then Config.DefaultProjectID (c h)
         else listClustersArgs.ProjectID args;
       listClustersArgs.Location :=
         if decide (listClustersArgs.Location args = "")
         then "-"
         else listClustersArgs.Location args |} in
  match ListClusters (requestParent args) with
  | inl err => inl (ErrClient err)
  | inr resp => inr (protojson_Format_clusters resp)
  end.

(* func (h *handlers) getCluster(ctx, _, args) *)
Definition getCluster (h : handlers) (args : getClustersArgs.t)
  : toolError + string :=
  let args :=
    {| getClustersArgs.ProjectID :=
         if decide (getClustersArgs.ProjectID args = "")
         then Config.DefaultProjectID (c h)
         else getClustersArgs.ProjectID args;
       getClustersArgs.Location :=
         if decide (getClustersArgs.Location args = "")
         then Config.DefaultLocation (c h)
         else getClustersArgs.Location args;
       getClustersArgs.Name := getClustersArgs.Name args |} in
  if decide (getClustersArgs.Name args = "") then inl ErrNameArgument else
  match
    ClusterManagerClient.GetCluster (cmClient h)
      ("projects/" +:+ getClustersArgs.ProjectID args
         +:+ "/locations/" +:+ getClustersArgs.Location args
         +:+ "/clusters/" +:+ getClustersArgs.Name args)
  with
  | inl err => inl (ErrClient err)
  | inr resp => inr (protojson_Format_cluster resp)
  end.

End ClusterTools.

(* The arguments of get_kubeconfig, given to get_cluster. *)
Definition sameCluster (args : getKubeconfigArgs.t) : getClustersArgs.t :=
  {| getClustersArgs.ProjectID := getKubeconfigArgs.ProjectID args;
     getClustersArgs.Location := getKubeconfigArgs.Location args;
     getClustersArgs.Name := getKubeconfigArgs.Name args |}.

(* --------------------------------------------------------------------- *)
(* 4c. Installing into Cursor (pkg/install/install_cursor.go)            *)
(* --------------------------------------------------------------------- *)

Definition mode_0644 : FileMode := 0x1a4%N.   (* 0644: rw-r--r-- *)

(* type CursorMCPServer struct; the field Type is Type_ here. *)
Module CursorMCPServer.
Record t := mk {
  Command : string;
  Type_ : string
}.
End CursorMCPServer.

(* type CursorMCPConfig struct; MCPServers is a Go map, None the nil map. *)
Module CursorMCPConfig.
Record t := mk {
  MCPServers : option (gmap string CursorMCPServer.t)
}.
End CursorMCPConfig.

(* How CursorMCPExtension ends when it does not return nil: the errors it
   returns, one constructor per fmt.Errorf, and the panic of the run time
   on an assignment to an entry of a nil map. *)
Inductive installFailure :=
| ErrHomeDirectory
    (* "could not determine home directory: %w" *)
| ErrCursorDirectory (mcpDir : path) (cause : errno)
    (* "could not create Cursor directory at %s: %w" *)
| ErrReadConfiguration (cause : errno)
    (* "could not read existing MCP configuration: %w" *)
| ErrParseConfiguration (cause : string)
    (* "could not parse existing MCP configuration: %w" *)
| ErrMarshalConfiguration (cause : string)
    (* "could not marshal MCP configuration: %w" *)
| ErrWriteConfiguration (cause : errno)
    (* "could not write MCP configuration: %w" *)
| ErrRulesDirectory (cause : errno)
    (* "could not create rules directory: %w" *)
| ErrReadGemini (cause : errno)
    (* "could not read GEMINI.md file: %w" *)
| ErrWriteRule (cause : errno)
    (* "could not write gke-mcp rule file: %w" *)
| PanicNilMap.
    (* panic: assignment to entry in nil map *)

(* The heading of the rule file, before the content of GEMINI.md. *)
Definition ruleHeading : string :=
"---
name: GKE MCP Instructions
description: Provides guidance for using the gke-mcp tool with Cursor.
alwaysApply: true
---

# GKE MCP Tool Instructions

This rule provides context for using the gke-mcp tool within Cursor.

".

Section CursorInstall.

(* encoding/json: Unmarshal(data, &config) into the configuration that
   holds an empty map, and MarshalIndent(config, [], [  ]). *)
Variable json_Unmarshal : bytes → CursorMCPConfig.t → string + CursorMCPConfig.t.
Variable json_MarshalIndent : CursorMCPConfig.t → string + bytes.

(* The directory of the configuration: global below $HOME, or below the
   project. *)
Definition mcpDirOf (homeDir baseDir : path) (projectOnlyMode : bool) : path :=
  if negb projectOnlyMode
  then filepath_Join homeDir [".cursor"]
  else filepath_Join baseDir [".cursor"].

(* CursorMCPServer{Command: exePath, Type: [stdio]} *)
Definition gkeServer (exePath : string) : CursorMCPServer.t :=
  {| CursorMCPServer.Command := exePath; CursorMCPServer.Type_ := "stdio" |}.

(* "Read existing configuration if it exists": the servers of the
   configuration after it, fallibly; None is the nil map. *)
Definition readConfiguration (mcpPath : path) (w : world)
  : installFailure + option (gmap string CursorMCPServer.t) :=
  let config := {| CursorMCPConfig.MCPServers := Some ∅ |} in
  match os_Stat w mcpPath with
  | inr _ =>
      match os_ReadFile w mcpPath with
      | inl err => inl (ErrReadConfiguration err)
      | inr data =>
          match json_Unmarshal data config with
          | inl err => inl (ErrParseConfiguration err)
          | inr config => inr (CursorMCPConfig.MCPServers config)
          end
      end
  | inl _ => inr (CursorMCPConfig.MCPServers config)
  end.

(* "Create the rules directory and gke-mcp.mdc file", from the world the
   configuration was written to. *)
Definition writeRule (baseDir mcpDir : path) (w : world)
  : (installFailure + unit) * world :=
  let rulesDir := filepath_Join mcpDir ["rules"] in
  match os_MkdirAll w rulesDir mode_0755 with
  | inl err => (inl (ErrRulesDirectory err), w)
  | inr w =>
      match os_ReadFile w (filepath_Join baseDir ["pkg"; "install"; "GEMINI.md"]) with
      | inl err => (inl (ErrReadGemini err), w)
      | inr geminiContent =>
          let ruleContent := String.list_byte_of_string ruleHeading ++ geminiContent in
          let rulePath := filepath_Join rulesDir ["gke-mcp.mdc"] in
          match os_WriteFile w rulePath ruleContent mode_0644 with
          | inl err => (inl (ErrWriteRule err), w)
          | inr w => (inr tt, w)
          end
      end
  end.

(* func CursorMCPExtension(baseDir, exePath string, projectOnlyMode bool)
   error: the world left behind, with nil (inr tt) or the failure. *)
Definition CursorMCPExtension (baseDir : path) (exePath : string)
    (projectOnlyMode : bool) (w : world) : (installFailure + unit) * world :=
  match os_UserHomeDir w with
  | None => (inl ErrHomeDirectory, w)
  | Some homeDir =>
      let mcpDir := mcpDirOf homeDir baseDir projectOnlyMode in
      match os_MkdirAll w mcpDir mode_0755 with
      | inl err => (inl (ErrCursorDirectory mcpDir err), w)
      | inr w =>
          let mcpPath := filepath_Join mcpDir ["mcp.json"] in
          match readConfiguration mcpPath w with
          | inl failure => (inl failure, w)
          | inr None => (inl PanicNilMap, w)
          | inr (Some servers) =>
              let config :=
                {| CursorMCPConfig.MCPServers :=
                     Some (<["gke-mcp" := gkeServer exePath]> servers) |} in
              match json_MarshalIndent config with
              | inl err => (inl (ErrMarshalConfiguration err), w)
              | inr data =>
                  match os_WriteFile w mcpPath data mode_0644 with
                  | inl err => (inl (ErrWriteConfiguration err), w)
                  | inr w => writeRule baseDir mcpDir w
                  end
              end
          end
      end
  end.

End CursorInstall.

(* The three paths of CursorMCPExtension below the configuration
   directory, and the file it reads below the base directory. *)
Definition mcpPathOf (mcpDir : path) : path := filepath_Join mcpDir ["mcp.json"].
Definition rulesDirOf (mcpDir : path) : path := filepath_Join mcpDir ["rules"].
Definition rulePathOf (mcpDir : path) : path :=
  filepath_Join (rulesDirOf mcpDir) ["gke-mcp.mdc"].
Definition geminiPathOf (baseDir : path) : path :=
  filepath_Join baseDir ["pkg"; "install"; "GEMINI.md"].

(* The configuration with the gke-mcp server added to these servers. *)
Definition withGkeServer (exePath : string) (servers : gmap string CursorMCPServer.t)
  : CursorMCPConfig.t :=
  {| CursorMCPConfig.MCPServers := Some (<["gke-mcp" := gkeServer exePath]> servers) |}.

(* The content of the rule file. *)
Definition ruleContentOf (geminiContent : bytes) : bytes :=
  String.list_byte_of_string ruleHeading ++ geminiContent.

(* --------------------------------------------------------------------- *)
(* 4d. get_sample_queries (pkg/tools/logging/samples.go)                 *)
(* --------------------------------------------------------------------- *)

(* The quotation mark. *)
Definition quote : string := String (Ascii.ascii_of_nat 34) EmptyString.

(* A query of the catalog, from the pieces between its quotation marks. *)
Definition lql (pieces : list string) : string := String.concat quote pieces.

(* type SampleQuery struct *)
Module SampleQuery.
Record t := mk {
  Name : string;
  Description : string;
  Query : string;
  Category : string
}.
End SampleQuery.

(* type GetSampleQueriesRequest struct *)
Module GetSampleQueriesRequest.
Record t := mk {
  Category : string
}.
End GetSampleQueriesRequest.

(* var sampleQueries = []SampleQuery{...} *)
Definition sampleQueries : list SampleQuery.t := [
  {| SampleQuery.Name := "Cluster Activity";
     SampleQuery.Description := "General cluster activity logs";
     SampleQuery.Query :=
       lql [
         "resource.type="; "gke_cluster"; " AND log_id(";
         "cloudaudit.googleapis.com/activity"; ")" ];
     SampleQuery.Category := "Cluster" |};
  {| SampleQuery.Name := "Cluster Creation";
     SampleQuery.Description := "Logs for cluster creation events";
     SampleQuery.Query :=
       lql [
         "resource.type="; "gke_cluster"; " AND log_id(";
         "cloudaudit.googleapis.com/activity"; ") AND protoPayload.methodName=";
         "google.container.v1.ClusterManager.CreateCluster"; "" ];
     SampleQuery.Category := "Cluster" |};
  {| SampleQuery.Name := "Deployments";
     SampleQuery.Description := "Logs related to deployments";
     SampleQuery.Query :=
       lql [
         "resource.type="; "k8s_cluster"; " AND log_id(";
         "cloudaudit.googleapis.com/activity"; ") AND protoPayload.methodName:";
         "deployments"; "" ];
     SampleQuery.Category := "Cluster" |};
  {| SampleQuery.Name := "Anonymous Access";
     SampleQuery.Description := "Logs for actions performed by system:anonymous";
     SampleQuery.Query :=
       lql [
         "resource.type="; "k8s_cluster"; " AND log_id(";
         "cloudaudit.googleapis.com/activity";
         ") AND protoPayload.authenticationInfo.principalEmail="; "system:anonymous";
         "" ];
     SampleQuery.Category := "Cluster" |};
  {| SampleQuery.Name := "Location Filter";
     SampleQuery.Description := "Logs filtered by location (example: us-central1-b)";
     SampleQuery.Query :=
       lql [
         "resource.type="; "k8s_cluster"; " AND resource.labels.location=";
         "us-central1-b"; "" ];
     SampleQuery.Category := "Cluster" |};
  {| SampleQuery.Name := "User Pod Access";
     SampleQuery.Description := "Logs for pod access by a specific user";
     SampleQuery.Query :=
       lql [
         "resource.type="; "k8s_cluster"; " AND log_id(";
         "cloudaudit.googleapis.com/activity"; ") AND protoPayload.methodName:";
         "io.k8s.core.v1.pods"; " AND protoPayload.authenticationInfo.principalEmail=";
         "USER_EMAIL"; "" ];
     SampleQuery.Category := "Cluster" |};
  {| SampleQuery.Name := "Cluster Events";
     SampleQuery.Description := "General cluster events";
     SampleQuery.Query :=
       lql [
         "resource.type="; "k8s_cluster"; " AND log_id("; "events"; ")" ];
     SampleQuery.Category := "Cluster" |};
  {| SampleQuery.Name := "Endpoint Changes";
     SampleQuery.Description := "Logs for changes to Endpoints";
     SampleQuery.Query :=
       lql [
         "resource.type="; "k8s_cluster"; " AND log_id(";
         "cloudaudit.googleapis.com/activity"; ") AND protoPayload.request.kind=";
         "Endpoints"; "" ];
     SampleQuery.Category := "Cluster" |};
  {| SampleQuery.Name := "K8s Service Activity";
     SampleQuery.Description := "Logs for k8s.io service activity";
     SampleQuery.Query :=
       lql [
         "resource.type="; "k8s_cluster"; " AND log_id(";
         "cloudaudit.googleapis.com/activity"; ") AND protoPayload.serviceName=";
         "k8s.io"; "" ];
     SampleQuery.Category := "Cluster" |};
  {| SampleQuery.Name := "Container Service Activity";
     SampleQuery.Description := "Logs for container.googleapis.com service activity";
     SampleQuery.Query :=
       lql [
         "resource.type="; "k8s_cluster"; " AND log_id(";
         "cloudaudit.googleapis.com/activity"; ") AND protoPayload.serviceName=";
         "container.googleapis.com"; "" ];
     SampleQuery.Category := "Cluster" |};
  {| SampleQuery.Name := "Pod Create/Delete";
     SampleQuery.Description := "Logs for pod creation and deletion";
     SampleQuery.Query :=
       lql [
         "resource.type="; "k8s_cluster"; " AND log_id(";
         "cloudaudit.googleapis.com/activity"; ") AND protoPayload.methodName=~";
         "io\.k8s\.core\.v1\.pods\.(create|delete)"; "" ];
     SampleQuery.Category := "Cluster" |};
  {| SampleQuery.Name := "Pod Resource Activity";
     SampleQuery.Description := "Logs for specific pod resource activity";
     SampleQuery.Query :=
       lql [
         "resource.type="; "k8s_cluster"; " AND resource.labels.location=";
         "CLUSTER_LOCATION"; " AND resource.labels.cluster_name="; "CLUSTER_NAME";
         " AND log_id("; "cloudaudit.googleapis.com/activity";
         ") AND protoPayload.resourceName=";
         "core/v1/namespaces/POD_NAMESPACE/pods/POD_NAME"; "" ];
     SampleQuery.Category := "Cluster" |};
  {| SampleQuery.Name := "Pod Eviction";
     SampleQuery.Description := "Logs for pod eviction creation";
     SampleQuery.Query :=
       lql [
         "resource.type="; "k8s_cluster"; " AND resource.labels.location=";
         "CLUSTER_LOCATION"; " AND resource.labels.cluster_name="; "CLUSTER_NAME";
         " AND log_id("; "cloudaudit.googleapis.com/activity";
         ") AND protoPayload.methodName="; "io.k8s.core.v1.pods.eviction.create"; "" ];
     SampleQuery.Category := "Cluster" |};
  {| SampleQuery.Name := "Node Activity";
     SampleQuery.Description := "Logs for node activity";
     SampleQuery.Query :=
       lql [
         "resource.type="; "k8s_cluster"; " AND resource.labels.location=";
         "CLUSTER_LOCATION"; " AND resource.labels.cluster_name="; "CLUSTER_NAME";
         " AND log_id("; "cloudaudit.googleapis.com/activity";
         ") AND protoPayload.methodName:"; "io.k8s.core.v1.nodes"; "" ];
     SampleQuery.Category := "Cluster" |};
  {| SampleQuery.Name := "Addon Manager Activity";
     SampleQuery.Description := "Logs for actions performed by system:addon-manager";
     SampleQuery.Query :=
       lql [
         "resource.type="; "k8s_cluster"; " AND resource.labels.location=";
         "CLUSTER_LOCATION"; " AND resource.labels.cluster_name="; "CLUSTER_NAME";
         " AND log_id("; "cloudaudit.googleapis.com/activity";
         ") AND protoPayload.authenticationInfo.principalEmail=";
         "system:addon-manager"; "" ];
     SampleQuery.Category := "Cluster" |};
  {| SampleQuery.Name := "Non-Conflict Errors";
     SampleQuery.Description := "Logs for errors that are not conflicts";
     SampleQuery.Query :=
       lql [
         "resource.type="; "k8s_cluster"; " AND resource.labels.location=";
         "CLUSTER_LOCATION"; " AND resource.labels.cluster_name="; "CLUSTER_NAME";
         " AND log_id("; "cloudaudit.googleapis.com/activity";
         ") AND protoPayload.status.message!="; "Conflict";
         " AND protoPayload.status.code!=0" ];
     SampleQuery.Category := "Cluster" |};
  {| SampleQuery.Name := "LoadBalancer Controller Events";
     SampleQuery.Description := "Events from the loadbalancer controller";
     SampleQuery.Query :=
       lql [
         "resource.type="; "k8s_cluster"; " AND resource.labels.location=";
         "CLUSTER_LOCATION"; " AND resource.labels.cluster_name="; "CLUSTER_NAME";
         " AND log_id("; "events"; ") AND jsonPayload.source.component=";
         "loadbalancer-controller"; "" ];
     SampleQuery.Category := "Cluster" |};
  {| SampleQuery.Name := "Service Controller Events";
     SampleQuery.Description := "Events from the service controller";
     SampleQuery.Query :=
       lql [
         "resource.type="; "k8s_cluster"; " AND resource.labels.location=";
         "CLUSTER_LOCATION"; " AND resource.labels.cluster_name="; "CLUSTER_NAME";
         " AND log_id("; "events"; ") AND jsonPayload.source.component=";
         "service-controller"; "" ];
     SampleQuery.Category := "Cluster" |};
  {| SampleQuery.Name := "Cluster Autoscaler Events";
     SampleQuery.Description := "Events from the cluster autoscaler";
     SampleQuery.Query :=
       lql [
         "resource.type="; "k8s_cluster"; " AND resource.labels.location=";
         "CLUSTER_LOCATION"; " AND resource.labels.cluster_name="; "CLUSTER_NAME";
         " AND log_id("; "events"; ") AND jsonPayload.source.component=";
         "cluster-autoscaler"; "" ];
     SampleQuery.Category := "Cluster" |};
  {| SampleQuery.Name := "Pod Events";
     SampleQuery.Description := "Events for a specific pod";
     SampleQuery.Query :=
       lql [
         "resource.type="; "k8s_pod"; " AND resource.labels.pod_name="; "POD_NAME";
         " AND log_id("; "events"; ")" ];
     SampleQuery.Category := "Pod" |};
  {| SampleQuery.Name := "Pod Evicted";
     SampleQuery.Description := "Logs for evicted pods";
     SampleQuery.Query :=
       lql [
         "resource.type="; "k8s_pod"; " AND log_id("; "events";
         ") AND jsonPayload.reason="; "Evicted"; "" ];
     SampleQuery.Category := "Pod" |};
  {| SampleQuery.Name := "Scheduler Events";
     SampleQuery.Description := "Events from the default scheduler";
     SampleQuery.Query :=
       lql [
         "resource.type="; "k8s_pod"; " AND resource.labels.location=";
         "CLUSTER_LOCATION"; " AND resource.labels.cluster_name="; "CLUSTER_NAME";
         " AND log_id("; "events"; ") AND jsonPayload.source.component=";
         "default-scheduler"; "" ];
     SampleQuery.Category := "Pod" |};
  {| SampleQuery.Name := "Preempted Pods";
     SampleQuery.Description := "Logs for preempted pods";
     SampleQuery.Query :=
       lql [
         "resource.type="; "k8s_pod"; " AND resource.labels.location=";
         "CLUSTER_LOCATION"; " AND resource.labels.cluster_name="; "CLUSTER_NAME";
         " AND log_id("; "events"; ") AND jsonPayload.source.component=";
         "default-scheduler"; " AND jsonPayload.reason="; "Preempted"; "" ];
     SampleQuery.Category := "Pod" |};
  {| SampleQuery.Name := "Node Events";
     SampleQuery.Description := "Events for nodes";
     SampleQuery.Query :=
       lql [
         "resource.type="; "k8s_node"; " AND log_id("; "events"; ")" ];
     SampleQuery.Category := "Node" |};
  {| SampleQuery.Name := "Kube Proxy Logs";
     SampleQuery.Description := "Logs from kube-proxy";
     SampleQuery.Query :=
       lql [
         "resource.type="; "k8s_node"; " AND log_id("; "kube-proxy"; ")" ];
     SampleQuery.Category := "Node" |};
  {| SampleQuery.Name := "Container Runtime Logs";
     SampleQuery.Description := "Logs from container runtime";
     SampleQuery.Query :=
       lql [
         "resource.type="; "k8s_node"; " AND log_id("; "container-runtime"; ")" ];
     SampleQuery.Category := "Node" |};
  {| SampleQuery.Name := "Kubelet Errors";
     SampleQuery.Description := "Error or fail logs from kubelet";
     SampleQuery.Query :=
       lql [
         "resource.type="; "k8s_node"; " AND log_id("; "kubelet";
         ") AND jsonPayload.MESSAGE:("; "error"; " OR "; "fail"; ")" ];
     SampleQuery.Category := "Node" |};
  {| SampleQuery.Name := "Node Logs Collection";
     SampleQuery.Description := "Collection of various node-related logs";
     SampleQuery.Query :=
       lql [
         "resource.type = "; "k8s_node"; " logName:( "; "logs/container-runtime";
         " OR "; "logs/docker"; " OR "; "logs/kube-container-runtime-monitor"; " OR ";
         "logs/kube-logrotate"; " OR "; "logs/kube-node-configuration"; " OR ";
         "logs/kube-node-installation"; " OR "; "logs/kubelet"; " OR ";
         "logs/kubelet-monitor"; " OR "; "logs/node-journal"; " OR ";
         "logs/node-problem-detector"; ")" ];
     SampleQuery.Category := "Node" |};
  {| SampleQuery.Name := "System Namespaces";
     SampleQuery.Description := "Logs from system namespaces";
     SampleQuery.Query :=
       lql [
         "resource.type = ("; "k8s_container"; " OR "; "k8s_pod";
         ") resource.labels.namespace_name = ( "; "cnrm-system"; " OR ";
         "config-management-system"; " OR "; "gatekeeper-system"; " OR ";
         "gke-connect"; " OR "; "gke-system"; " OR "; "istio-system"; " OR ";
         "knative-serving"; " OR "; "monitoring-system"; " OR "; "kube-system"; ")" ];
     SampleQuery.Category := "Namespace" |};
  {| SampleQuery.Name := "Container Stdout";
     SampleQuery.Description := "Stdout logs from containers";
     SampleQuery.Query :=
       lql [
         "resource.type="; "k8s_container"; " AND log_id("; "stdout"; ")" ];
     SampleQuery.Category := "Container" |};
  {| SampleQuery.Name := "Container Errors";
     SampleQuery.Description := "Stderr error logs from containers";
     SampleQuery.Query :=
       lql [
         "resource.type="; "k8s_container"; " AND log_id("; "stderr";
         ") AND severity=ERROR" ];
     SampleQuery.Category := "Container" |};
  {| SampleQuery.Name := "Pod Container Errors";
     SampleQuery.Description := "Error logs for a specific pod";
     SampleQuery.Query :=
       lql [
         "resource.type="; "k8s_container"; " AND resource.labels.pod_name=";
         "POD_NAME"; " AND severity=ERROR" ];
     SampleQuery.Category := "Container" |};
  {| SampleQuery.Name := "Specific Container Errors";
     SampleQuery.Description := "Error logs for a specific container in a pod";
     SampleQuery.Query :=
       lql [
         "resource.type="; "k8s_container"; " AND resource.labels.pod_name=";
         "POD_NAME"; " AND resource.labels.container_name="; "server";
         " AND severity=ERROR" ];
     SampleQuery.Category := "Container" |};
  {| SampleQuery.Name := "Istio Egress Gateway Errors";
     SampleQuery.Description := "Error logs for Istio egress gateway";
     SampleQuery.Query :=
       lql [
         "resource.type="; "k8s_container"; " AND resource.labels.namespace_name=";
         "istio-system"; " AND resource.labels.container_name="; "egressgateway";
         " AND severity=ERROR" ];
     SampleQuery.Category := "Container" |};
  {| SampleQuery.Name := "LoadGenerator Errors";
     SampleQuery.Description := "Error logs for loadgenerator app";
     SampleQuery.Query :=
       lql [
         "resource.type="; "k8s_container"; " AND labels."; "k8s-pod/app"; "=";
         "loadgenerator"; " AND severity=ERROR" ];
     SampleQuery.Category := "Container" |};
  {| SampleQuery.Name := "Node Container Errors";
     SampleQuery.Description := "Error logs for containers on a specific node";
     SampleQuery.Query :=
       lql [
         "resource.type="; "k8s_container"; " AND labels.";
         "compute.googleapis.com/resource_name"; "=NODE_NAME AND severity=ERROR" ];
     SampleQuery.Category := "Container" |};
  {| SampleQuery.Name := "Skaffold Run Errors";
     SampleQuery.Description := "Error logs for a specific Skaffold run";
     SampleQuery.Query :=
       lql [
         "resource.type="; "k8s_container"; " AND labels."; "k8s-pod/app"; "=";
         "loadgenerator"; " AND labels."; "k8s-pod/skaffold_dev/run-id";
         "=SKAFFOLD_RUN_ID severity=ERROR" ];
     SampleQuery.Category := "Container" |};
  {| SampleQuery.Name := "POST Requests";
     SampleQuery.Description := "Logs containing 'POST' in textPayload";
     SampleQuery.Query :=
       lql [
         "resource.type="; "k8s_container"; " AND resource.labels.pod_name=";
         "POD_NAME"; " AND textPayload:"; "POST"; " AND severity=ERROR" ];
     SampleQuery.Category := "Container" |};
  {| SampleQuery.Name := "GET Requests";
     SampleQuery.Description := "Logs with HTTP method GET";
     SampleQuery.Query :=
       lql [
         "resource.type="; "k8s_container"; " AND resource.labels.pod_name=";
         "POD_NAME"; " AND jsonPayload."; "http.req.method"; "="; "GET";
         " AND severity=ERROR" ];
     SampleQuery.Category := "Container" |};
  {| SampleQuery.Name := "Kube-System Errors";
     SampleQuery.Description := "Error logs in kube-system namespace";
     SampleQuery.Query :=
       lql [
         "resource.type="; "k8s_container"; " AND resource.labels.namespace_name=";
         "kube-system"; " AND severity=ERROR" ];
     SampleQuery.Category := "Container" |};
  {| SampleQuery.Name := "Cloud Error Reporting";
     SampleQuery.Description := "Logs for Cloud Error Reporting";
     SampleQuery.Query :=
       lql [
         "resource.type="; "k8s_container"; " AND log_id(";
         "clouderrorreporting.googleapis.com/insights"; ")" ];
     SampleQuery.Category := "Container" |};
  {| SampleQuery.Name := "Specific Container";
     SampleQuery.Description := "Logs for a specific container name";
     SampleQuery.Query :=
       lql [
         "resource.type="; "k8s_container"; " AND resource.labels.container_name=";
         "CONTAINER_NAME"; "" ];
     SampleQuery.Category := "Container" |};
  {| SampleQuery.Name := "API Server Logs";
     SampleQuery.Description := "Logs for API server";
     SampleQuery.Query :=
       lql [
         "resource.type="; "k8s_control_plane_component";
         " resource.labels.component_name="; "apiserver"; " resource.labels.location=";
         "CLUSTER_LOCATION"; " resource.labels.cluster_name="; "CLUSTER_NAME"; "" ];
     SampleQuery.Category := "Control Plane" |};
  {| SampleQuery.Name := "Scheduler Logs";
     SampleQuery.Description := "Logs for Scheduler";
     SampleQuery.Query :=
       lql [
         "resource.type="; "k8s_control_plane_component";
         " resource.labels.component_name="; "scheduler"; " resource.labels.location=";
         "CLUSTER_LOCATION"; " resource.labels.cluster_name="; "CLUSTER_NAME"; "" ];
     SampleQuery.Category := "Control Plane" |};
  {| SampleQuery.Name := "Controller Manager Logs";
     SampleQuery.Description := "Logs for Controller Manager";
     SampleQuery.Query :=
       lql [
         "resource.type="; "k8s_control_plane_component";
         " resource.labels.component_name="; "controller-manager";
         " resource.labels.location="; "CLUSTER_LOCATION";
         " resource.labels.cluster_name="; "CLUSTER_NAME"; "" ];
     SampleQuery.Category := "Control Plane" |}
].

(* A slice as json.Marshal tells it apart: nil, or its elements. *)
Definition slice (A : Type) : Type := option (list A).

(* append(s, elems...): nothing appended to nil is nil. *)
Definition append {A} (s : slice A) (elems : list A) : slice A :=
  match s, elems with
  | None, [] => None
  | None, _ :: _ => Some elems
  | Some l, _ => Some (l ++ elems)
  end.

(* len(s) *)
Definition len {A} (s : slice A) : nat :=
  match s with
  | None => 0
  | Some l => length l
  end.

(* The handler's choice among the queries [queries]: the loop over them
   when a category is asked for, every one of them when none is. *)
Definition selectQueries (queries : list SampleQuery.t) (category : string)
  : slice SampleQuery.t :=
  let filtered : slice SampleQuery.t := None in
  if decide (category ≠ "") then
    foldl (λ filtered q,
             if decide (SampleQuery.Category q = category)
             then append filtered [q]
             else filtered)
          filtered queries
  else append filtered queries.

Section GetSampleQueries.

(* json.MarshalIndent(filtered, [], [  ]) *)
Variable json_MarshalIndent : slice SampleQuery.t → string + bytes.

(* The handler of get_sample_queries: the text of the result, or the
   cause of "failed to marshal sample queries: %w". *)
Definition getSampleQueries (req : GetSampleQueriesRequest.t) : string + string :=
  let filtered := selectQueries sampleQueries (GetSampleQueriesRequest.Category req) in
  match json_MarshalIndent filtered with
  | inl err => inl err
  | inr b => inr (String.string_of_list_byte b)
  end.

End GetSampleQueries.

(* The categories of the catalog, as the tool's description lists them. *)
Definition categories : list string :=
  ["Cluster"; "Pod"; "Node"; "Container"; "Control Plane"; "Namespace"].

(* --------------------------------------------------------------------- *)
(* 4e. list_logs (pkg/tools/logging)                                     *)
(* --------------------------------------------------------------------- *)

(* A value of the arguments of a mcp.CallToolRequest: a string, or a
   value of another type. *)
Inductive argument :=
| StringArgument (s : string)
| OtherArgument.

(* mcp.CallToolRequest, through its arguments by name. *)
Abbreviation CallToolRequest := (gmap string argument).

(* request.GetString(key, defaultValue): the argument if it is there and
   a string, the default otherwise. *)
Definition GetString (request : CallToolRequest) (key defaultValue : string) : string :=
  match request !! key with
  | Some (StringArgument s) => s
  | _ => defaultValue
  end.

(* request.RequireString(key): the argument if it is there and a string,
   an error otherwise (None). *)
Definition RequireString (request : CallToolRequest) (key : string) : option string :=
  match request !! key with
  | Some (StringArgument s) => Some s
  | _ => None
  end.

(* The string of [value, _ := request.RequireString(key)]: empty with the
   error. *)
Definition RequireString_value (request : CallToolRequest) (key : string) : string :=
  match RequireString request key with
  | Some s => s
  | None => ""
  end.

(* *mcp.CallToolResult of mcp.NewToolResultText and
   mcp.NewToolResultError. *)
Inductive CallToolResult :=
| NewToolResultText (text : string)
| NewToolResultError (text : string).

(* loggingpb.ListLogEntriesRequest *)
Module ListLogEntriesRequest.
Record t := mk {
  ResourceNames : list string;
  Filter : string;
  PageSize : N
}.
End ListLogEntriesRequest.

(* What it.Next() gives call after call: an entry and the rest,
   iterator.Done, or an error. *)
Inductive LogEntryIterator (LogEntry : Type) :=
| Done
| Next (resp : LogEntry) (rest : LogEntryIterator LogEntry)
| Failed (err : string).
Arguments Done {LogEntry}.
Arguments Next {LogEntry} resp rest.
Arguments Failed {LogEntry} err.

Section ListLogs.

(* loggingpb.LogEntry, and protojson.Format on it. *)
Context {LogEntry : Type}.
Variable protojson_Format : LogEntry → string.

(* strconv.Quote, the verb %q of fmt. *)
Variable strconv_Quote : string → string.

(* The order in which a range statement goes through a map: some order of
   its entries. *)
Variable range : gmap string string → list (string * string).

(* logging.NewClient: the error, or the client through ListLogEntries. *)
Variable NewClient : string + (ListLogEntriesRequest.t → LogEntryIterator LogEntry).

(* func buildFilter(params map[string]string) string *)
Definition buildFilter (params : gmap string string) : string :=
  let l :=
    foldl (λ l kv, l ++ [fst kv +:+ " = " +:+ strconv_Quote (snd kv)])
          [] (range params) in
  String.concat " AND " l.

(* func filterForCluster(name string, location string) string *)
Definition filterForCluster (name location : string) : string :=
  buildFilter
    (<["resource.labels.cluster_name" := name]>
       (<["resource.labels.location" := location]> ∅)).

(* The loop of listLogs over the iterator, from what the builder holds. *)
Fixpoint drain (it : LogEntryIterator LogEntry) (builder : string) : CallToolResult :=
  match it with
  | Done => NewToolResultText builder
  | Failed err => NewToolResultError err
  | Next resp it => drain it (builder +:+ protojson_Format resp)
  end.

(* func (h *handlers) listLogs(ctx, request); [oneHourAgo] is
   time.Now().Add(-24 * time.Hour).Format(time.RFC3339). The error
   returned beside the result is nil on every path. *)
Definition listLogs (c : Config.t) (oneHourAgo : string) (request : CallToolRequest)
  : CallToolResult :=
  let projectID := GetString request "project_id" (Config.DefaultProjectID c) in
  if decide (projectID = "") then NewToolResultError "project_id argument not set" else
  let location := RequireString_value request "location" in
  if decide (location = "") then NewToolResultError "location argument not set" else
  let clusterName := RequireString_value request "cluster_name" in
  if decide (clusterName = "") then NewToolResultError "cluster_name argument not set" else
  match NewClient with
  | inl err => NewToolResultError err
  | inr ListLogEntries =>
      let filter :=
        filterForCluster clusterName location
          +:+ " AND timestamp > " +:+ quote +:+ oneHourAgo +:+ quote in
      let req :=
        {| ListLogEntriesRequest.ResourceNames := ["projects/" +:+ projectID];
           ListLogEntriesRequest.Filter := filter;
           ListLogEntriesRequest.PageSize := 100000%N |} in
      drain (ListLogEntries req) ""
  end.

End ListLogs.

(* The entries an iterator gives before it ends, and the error it ends
   with, if it does. *)
Fixpoint entriesOf {LogEntry} (it : LogEntryIterator LogEntry) : list LogEntry :=
  match it with
  | Next resp it => resp :: entriesOf it
  | _ => []
  end.

Fixpoint failureOf {LogEntry} (it : LogEntryIterator LogEntry) : option string :=
  match it with
  | Done => None
  | Failed err => Some err
  | Next _ it => failureOf it
  end.

(* --------------------------------------------------------------------- *)
(* 5. Worlds, clients and codecs to run the code in                      *)
(* --------------------------------------------------------------------- *)

#[local] Instance byte_eq_dec : EqDecision Byte.byte.
Proof.
  intros x y. destruct (Byte.eqb x y) eqn:H.
  - left. apply Byte.byte_dec_bl, H.
  - right. intros E. apply Byte.byte_dec_lb in E. congruence.
Defined.

#[local] Instance Cluster_eq_dec : EqDecision Cluster.t.
Proof. solve_decision. Defined.

#[local] Instance NamedCluster_eq_dec : EqDecision NamedCluster.t.
Proof. solve_decision. Defined.

#[local] Instance Context_eq_dec : EqDecision Context.t.
Proof. solve_decision. Defined.

#[local] Instance NamedContext_eq_dec : EqDecision NamedContext.t.
Proof. solve_decision. Defined.

#[local] Instance ExecConfig_eq_dec : EqDecision ExecConfig.t.
Proof. solve_decision. Defined.

#[local] Instance AuthInfo_eq_dec : EqDecision AuthInfo.t.
Proof. solve_decision. Defined.

#[local] Instance NamedAuthInfo_eq_dec : EqDecision NamedAuthInfo.t.
Proof. solve_decision. Defined.

#[local] Instance Kubeconfig_eq_dec : EqDecision (Kubeconfig.t string).
Proof. solve_decision. Defined.

(* Project p1, location us-central1, cluster demo, known to the client
   with endpoint 10.0.0.1 and certificate BASE64CERT; a second cluster,
   bare, comes back without certificate. *)
Definition demoClient : ClusterManagerClient.t :=
  ClusterManagerClient.mk (λ req,
    if decide (req = "projects/p1/locations/us-central1/clusters/demo")
    then inr (containerpb.mkCluster "BASE64CERT" "10.0.0.1")
    else if decide (req = "projects/p1/locations/us-central1/clusters/bare")
    then inr (containerpb.mkCluster "" "10.0.0.2")
    else inl "rpc error: code = NotFound").

Definition demoHandlers : handlers :=
  mkHandlers (Config.mk "p1" "us-central1") demoClient.

Definition demoArgs : getKubeconfigArgs.t := getKubeconfigArgs.mk "" "" "demo".
Definition bareArgs : getKubeconfigArgs.t := getKubeconfigArgs.mk "" "" "bare".

Definition demoName : string := "gke_p1_us-central1_demo".
Definition otherName : string := "gke_p1_europe-west1_other".

(* The kubeconfig that holds the demo cluster and nothing else. *)
Definition demoDoc : Kubeconfig.t string :=
  {| Kubeconfig.APIVersion := "v1";
     Kubeconfig.Clusters := [newCluster demoName "BASE64CERT" "https://10.0.0.1"];
     Kubeconfig.Contexts := [newContext demoName];
     Kubeconfig.CurrentContext := demoName;
     Kubeconfig.Kind := "Config";
     Kubeconfig.Preferences := ∅;
     Kubeconfig.Users := [newUser demoName] |}.

(* A stand-in for the YAML codec, enough to run getKubeconfig: it knows
   one document, demoDoc, and one text for it; whatever it writes it reads
   back. *)
Definition demoBytes : bytes := String.list_byte_of_string "kubeconfig of demo".

Definition demo_Marshal (k : Kubeconfig.t string) : string + bytes :=
  if decide (k = demoDoc) then inr demoBytes
  else inl "json: unsupported value".

Definition demo_Unmarshal (b : bytes) : string + Kubeconfig.t string :=
  if decide (b = demoBytes) then inr demoDoc
  else inl "error converting YAML to JSON".

(* /home/u exists, ~/.kube does not; umask 022. *)
Definition freshWorld : world :=
  mkWorld
    (Dir mode_0755 {[ "home" := Dir mode_0755 {[ "u" := Dir mode_0755 ∅ ]} ]})
    0x12%N (Some ["home"; "u"]) false.

(* ~/.kube/config exists, mode 0644, and does not parse. *)
Definition brokenWorld : world :=
  mkWorld
    (Dir mode_0755
       {[ "home" := Dir mode_0755
            {[ "u" := Dir mode_0755
                 {[ ".kube" := Dir mode_0755
                      {[ "config" :=
                           File (String.list_byte_of_string "clusters: [") 0x1a4%N ]} ]} ]} ]})
    0x12%N (Some ["home"; "u"]) false.

(* ~/.kube/config exists, mode 0644, and holds the demo document. *)
Definition usedWorld : world :=
  mkWorld
    (Dir mode_0755
       {[ "home" := Dir mode_0755
            {[ "u" := Dir mode_0755
                 {[ ".kube" := Dir mode_0755
                      {[ "config" := File demoBytes 0x1a4%N ]} ]} ]} ]})
    0x12%N (Some ["home"; "u"]) false.

(* The world without ~/.kube, on a file system that refuses changes. *)
Definition readOnlyWorld : world :=
  mkWorld
    (Dir mode_0755 {[ "home" := Dir mode_0755 {[ "u" := Dir mode_0755 ∅ ]} ]})
    0x12%N (Some ["home"; "u"]) true.

(* ~/.kube/config is a directory. *)
Definition blockedWorld : world :=
  mkWorld
    (Dir mode_0755
       {[ "home" := Dir mode_0755
            {[ "u" := Dir mode_0755
                 {[ ".kube" := Dir mode_0755 {[ "config" := Dir mode_0755 ∅ ]} ]} ]} ]})
    0x12%N (Some ["home"; "u"]) false.


(* A document with another cluster's entries first and entries for demo,
   under old values, second. *)
Definition existingDoc : Kubeconfig.t string :=
  {| Kubeconfig.APIVersion := "v1";
     Kubeconfig.Clusters :=
       [newCluster otherName "OTHERCERT" "https://10.9.9.9";
        newCluster demoName "OLDCERT" "https://10.0.0.9"];
     Kubeconfig.Contexts := [newContext otherName; newContext demoName];
     Kubeconfig.CurrentContext := otherName;
     Kubeconfig.Kind := "Config";
     Kubeconfig.Preferences := {[ "colors" := "true" ]};
     Kubeconfig.Users := [newUser otherName; newUser demoName] |}.

(* A document that holds the entries for demo twice over. *)
Definition duplicatedDoc : Kubeconfig.t string :=
  {| Kubeconfig.APIVersion := "v1";
     Kubeconfig.Clusters :=
       [newCluster demoName "OLDCERT" "https://10.0.0.9";
        newCluster otherName "OTHERCERT" "https://10.9.9.9";
        newCluster demoName "OLDERCERT" "https://10.0.0.8"];
     Kubeconfig.Contexts :=
       [newContext demoName; newContext otherName; newContext demoName];
     Kubeconfig.CurrentContext := otherName;
     Kubeconfig.Kind := "Config";
     Kubeconfig.Preferences := ∅;
     Kubeconfig.Users := [newUser demoName; newUser otherName; newUser demoName] |}.

(* The mode a Stat reports. *)
Definition statMode (r : errno + node) : option FileMode :=
  match r with
  | inr (File _ m) => Some m
  | inr (Dir m _) => Some m
  | inl _ => None
  end.

Definition demoPath : path := ["home"; "u"; ".kube"; "config"].

Definition demoText : string :=
  "Kubeconfig for cluster demo (Project: p1, Location: us-central1) successfully appended/updated in /home/u/.kube/config. Current context set to gke_p1_us-central1_demo.".

(* The first use: getKubeconfig on the world without ~/.kube. *)
Definition demoRun : (error + string) * world :=
  getKubeconfig demo_Unmarshal demo_Marshal demoHandlers demoArgs freshWorld.

(* Worlds and a codec to run CursorMCPExtension in. *)

#[local] Instance CursorMCPServer_eq_dec : EqDecision CursorMCPServer.t.
Proof. solve_decision. Defined.

#[local] Instance CursorMCPConfig_eq_dec : EqDecision CursorMCPConfig.t.
Proof. solve_decision. Defined.

Definition demoExe : string := "/usr/local/bin/gke-mcp".

(* The configuration with the one server. *)
Definition demoConfig : CursorMCPConfig.t :=
  {| CursorMCPConfig.MCPServers :=
       Some {[ "gke-mcp" := {| CursorMCPServer.Command := demoExe;
                                CursorMCPServer.Type_ := "stdio" |} ]} |}.

(* A string in quotation marks. *)
Definition quoted (s : string) : string := quote +:+ s +:+ quote.

(* The text json.MarshalIndent gives for demoConfig. *)
Definition demoJSON : bytes :=
  String.list_byte_of_string
    (String.concat (String (Ascii.ascii_of_nat 10) EmptyString)
       [ "{";
         "  " +:+ quoted "mcpServers" +:+ ": {";
         "    " +:+ quoted "gke-mcp" +:+ ": {";
         "      " +:+ quoted "command" +:+ ": " +:+ quoted demoExe +:+ ",";
         "      " +:+ quoted "type" +:+ ": " +:+ quoted "stdio";
         "    }";
         "  }";
         "}" ]).

(* A configuration whose servers are the JSON value null. *)
Definition nullJSON : bytes :=
  String.list_byte_of_string ("{" +:+ quoted "mcpServers" +:+ ": null}").

(* A codec that knows these documents, and rejects every other. *)
Definition demo_json_MarshalIndent (config : CursorMCPConfig.t) : string + bytes :=
  if decide (config = demoConfig) then inr demoJSON
  else inl "json: unsupported value".

Definition demo_json_Unmarshal (data : bytes) (config : CursorMCPConfig.t)
  : string + CursorMCPConfig.t :=
  if decide (data = demoJSON) then inr demoConfig
  else if decide (data = nullJSON)
  then inr {| CursorMCPConfig.MCPServers := None |}
  else inl "unexpected end of JSON input".

Definition demoGemini : bytes := String.list_byte_of_string "# GKE MCP".

Definition demoBase : path := ["home"; "u"; "proj"].

(* /home/u/proj holds pkg/install/GEMINI.md; there is no .cursor
   directory; umask 022. *)
Definition projectWorld : world :=
  mkWorld
    (Dir mode_0755
       {[ "home" := Dir mode_0755
            {[ "u" := Dir mode_0755
                 {[ "proj" := Dir mode_0755
                      {[ "pkg" := Dir mode_0755
                           {[ "install" := Dir mode_0755
                                {[ "GEMINI.md" := File demoGemini mode_0644 ]} ]} ]} ]} ]} ]})
    0x12%N (Some ["home"; "u"]) false.

(* The same with $HOME unset. *)
Definition homelessWorld : world :=
  mkWorld (root projectWorld) (umask projectWorld) None false.

(* ~/.cursor/mcp.json holds [data], and the project is as above. *)
Definition configuredWorld (data : bytes) : world :=
  mkWorld
    (Dir mode_0755
       {[ "home" := Dir mode_0755
            {[ "u" := Dir mode_0755
                 {[ ".cursor" := Dir mode_0755
                      {[ "mcp.json" := File data mode_0644 ]};
                    "proj" := Dir mode_0755
                      {[ "pkg" := Dir mode_0755
                           {[ "install" := Dir mode_0755
                                {[ "GEMINI.md" := File demoGemini mode_0644 ]} ]} ]} ]} ]} ]})
    0x12%N (Some ["home"; "u"]) false.

(* Installing for the user, in the project's world. *)
Definition cursorRun : (installFailure + unit) * world :=
  CursorMCPExtension demo_json_Unmarshal demo_json_MarshalIndent
    demoBase demoExe false projectWorld.

(* Installing for the user where the project has no GEMINI.md. *)
Definition failedRun : (installFailure + unit) * world :=
  CursorMCPExtension demo_json_Unmarshal demo_json_MarshalIndent
    demoBase demoExe false freshWorld.

(* A request and a client to run list_logs with. *)

Definition demoRequest : CallToolRequest :=
  {[ "location" := StringArgument "us-central1";
     "cluster_name" := StringArgument "demo" ]}.

(* Two entries, then Done. *)
Definition demoEntries (req : ListLogEntriesRequest.t) : LogEntryIterator string :=
  Next "{1}" (Next "{2}" Done).

(* One entry, then an error. *)
Definition brokenEntries (req : ListLogEntriesRequest.t) : LogEntryIterator string :=
  Next "{1}" (Failed "rpc error: code = Unavailable").

(* The iteration of a map in the order of its keys' encoding. *)
Definition demoRange (params : gmap string string) : list (string * string) :=
  map_to_list params.

(* The merge for demo, then for other, on the document with duplicates. *)
Definition twoClusters : Kubeconfig.t string :=
  mergeKubeconfig otherName "NEWCERT" "https://10.9.9.1"
    (mergeKubeconfig demoName "BASE64CERT" "https://10.0.0.1" duplicatedDoc).

(* --------------------------------------------------------------------- *)
(* 6. The append-or-update loop                                          *)
(* --------------------------------------------------------------------- *)

Section Upsert.

Context {A : Type} (name : A → string) (n : string).

Implicit Types (new x : A) (xs pre post : list A).

Lemma upsert_nil new : upsert name n new [] = [new].
Proof. reflexivity. Qed.

Lemma upsert_cons_eq new x xs :
  name x = n → upsert name n new (x :: xs) = new :: xs.
Proof.
  intros Hx. unfold upsert. simpl.
  destruct (decide (name x = n)); [reflexivity | contradiction].
Qed.

Lemma upsert_cons_ne new x xs :
  name x ≠ n → upsert name n new (x :: xs) = x :: upsert name n new xs.
Proof.
  intros Hx. unfold upsert. simpl.
  destruct (decide (name x = n)); [contradiction |].
  destruct (list_find _ xs) as [[i y] |]; reflexivity.
Qed.

(* No entry has the name: the new entry goes to the end. *)
Lemma upsert_absent new xs :
  Forall (λ y, name y ≠ n) xs → upsert name n new xs = xs ++ [new].
Proof.
  induction 1 as [| x xs Hx _ IH]; [reflexivity |].
  rewrite upsert_cons_ne by assumption. rewrite IH. reflexivity.
Qed.

(* The first entry with the name is overwritten where it stands. *)
Lemma upsert_first new pre x post :
  Forall (λ y, name y ≠ n) pre → name x = n →
  upsert name n new (pre ++ x :: post) = pre ++ new :: post.
Proof.
  induction 1 as [| y pre Hy _ IH]; intros Hx; simpl.
  - apply upsert_cons_eq, Hx.
  - rewrite upsert_cons_ne by assumption. rewrite IH by assumption. reflexivity.
Qed.

(* Every list is in one of the two cases. *)
Lemma first_match_split xs :
  Forall (λ y, name y ≠ n) xs ∨
  ∃ pre x post, xs = pre ++ x :: post ∧ Forall (λ y, name y ≠ n) pre ∧ name x = n.
Proof.
  induction xs as [| a xs IH]; [left; constructor |].
  destruct (decide (name a = n)) as [Ha | Ha].
  - right. exists [], a, xs. repeat split; [constructor | assumption].
  - destruct IH as [IH | (pre & x & post & -> & Hpre & Hx)].
    + left. constructor; assumption.
    + right. exists (a :: pre), x, post.
      repeat split; [constructor; assumption | assumption].
Qed.

Lemma upsert_length new xs :
  length (upsert name n new xs)
  = length xs + (if decide (n ∈ name <$> xs) then 0 else 1).
Proof.
  induction xs as [| a xs IH].
  - rewrite upsert_nil, fmap_nil. rewrite decide_False by apply not_elem_of_nil.
    reflexivity.
  - rewrite fmap_cons. destruct (decide (name a = n)) as [Ha | Ha].
    + rewrite upsert_cons_eq by assumption.
      rewrite decide_True by (rewrite Ha; left). simpl. lia.
    + rewrite upsert_cons_ne by assumption. simpl. rewrite IH.
      destruct (decide (n ∈ name <$> xs)) as [H | H].
      * rewrite decide_True by (right; assumption). lia.
      * rewrite decide_False; [lia |].
        intros H'. inversion H'; subst; [congruence | contradiction].
Qed.

(* Entries under another name keep their values and their order. *)
Lemma upsert_filter_ne new xs :
  name new = n →
  filter (λ y, name y ≠ n) (upsert name n new xs) = filter (λ y, name y ≠ n) xs.
Proof.
  intros Hnew. induction xs as [| a xs IH].
  - rewrite upsert_nil. rewrite filter_cons_False; [reflexivity | tauto].
  - destruct (decide (name a = n)) as [Ha | Ha].
    + rewrite upsert_cons_eq by assumption.
      rewrite !filter_cons_False; tauto.
    + rewrite upsert_cons_ne by assumption.
      rewrite !filter_cons_True by assumption. rewrite IH. reflexivity.
Qed.

(* The entries under the name: the first is the new one, the others are
   as they were; an empty list of them becomes the new one alone. *)
Lemma upsert_filter_eq new xs :
  name new = n →
  filter (λ y, name y = n) (upsert name n new xs)
  = new :: tail (filter (λ y, name y = n) xs).
Proof.
  intros Hnew. induction xs as [| a xs IH].
  - rewrite upsert_nil. rewrite filter_cons_True by assumption. reflexivity.
  - destruct (decide (name a = n)) as [Ha | Ha].
    + rewrite upsert_cons_eq by assumption.
      rewrite !filter_cons_True by assumption. reflexivity.
    + rewrite upsert_cons_ne by assumption.
      rewrite !filter_cons_False by assumption. apply IH.
Qed.

Lemma upsert_count new xs :
  name new = n →
  length (filter (λ y, name y = n) (upsert name n new xs))
  = Nat.max 1 (length (filter (λ y, name y = n) xs)).
Proof.
  intros Hnew. rewrite upsert_filter_eq by assumption.
  destruct (filter _ xs); simpl; lia.
Qed.

(* A list splits into the entries under the name and the others. *)
Lemma length_filter_name xs :
  length xs
  = length (filter (λ y, name y ≠ n) xs) + length (filter (λ y, name y = n) xs).
Proof.
  induction xs as [| a xs IH]; [reflexivity |].
  destruct (decide (name a = n)) as [Ha | Ha].
  - rewrite filter_cons_False by tauto. rewrite filter_cons_True by assumption.
    simpl. lia.
  - rewrite filter_cons_True by assumption. rewrite filter_cons_False by assumption.
    simpl. lia.
Qed.

(* Counted from the entries under other names: all of them, and those
   under the name, which are at least the new one. *)
Lemma upsert_length_others new xs :
  name new = n →
  length (upsert name n new xs)
  = length (filter (λ y, name y ≠ n) xs)
    + Nat.max 1 (length (filter (λ y, name y = n) xs)).
Proof.
  intros Hnew. rewrite (length_filter_name (upsert name n new xs)).
  rewrite upsert_filter_ne, upsert_count by assumption. reflexivity.
Qed.

Lemma upsert_elem_of new xs : new ∈ upsert name n new xs.
Proof.
  destruct (first_match_split xs) as [H | (pre & x & post & -> & Hpre & Hx)].
  - rewrite upsert_absent by assumption. set_solver.
  - rewrite upsert_first by assumption. set_solver.
Qed.

(* A second pass under the same name overwrites what the first wrote. *)
Lemma upsert_upsert new1 new2 xs :
  name new1 = n →
  upsert name n new2 (upsert name n new1 xs) = upsert name n new2 xs.
Proof.
  intros Hnew. induction xs as [| a xs IH].
  - rewrite !upsert_nil. apply upsert_cons_eq, Hnew.
  - destruct (decide (name a = n)) as [Ha | Ha].
    + rewrite !(upsert_cons_eq _ a) by assumption.
      apply upsert_cons_eq, Hnew.
    + rewrite !(upsert_cons_ne _ a) by assumption. rewrite IH. reflexivity.
Qed.

(* The index of an entry with the name, when it is the only one, holds
   the new entry afterwards. *)
Lemma upsert_lookup_unique new xs i x :
  (length (filter (λ y, name y = n) xs) ≤ 1)%nat →
  xs !! i = Some x → name x = n →
  upsert name n new xs !! i = Some new.
Proof.
  intros Hle Hi Hx.
  destruct (first_match_split xs) as [H | (pre & y & post & -> & Hpre & Hy)].
  - exfalso. rewrite Forall_lookup in H. exact (H i x Hi Hx).
  - rewrite upsert_first by assumption.
    assert (Hpost : Forall (λ z, name z ≠ n) post).
    { rewrite filter_app, filter_cons_True in Hle by assumption.
      rewrite length_app in Hle. simpl in Hle.
      apply Forall_forall. intros z Hz Hzn.
      assert (Hin : z ∈ filter (λ y, name y = n) post)
        by (apply list_elem_of_filter; split; assumption).
      destruct (filter (λ y, name y = n) post); [inversion Hin | simpl in Hle; lia]. }
    destruct (decide (i < length pre)) as [Hlt | Hge].
    + exfalso. rewrite lookup_app_l in Hi by assumption.
      rewrite Forall_lookup in Hpre. exact (Hpre i x Hi Hx).
    + destruct (decide (i = length pre)) as [-> | Hne].
      * rewrite list_lookup_middle; reflexivity.
      * exfalso. rewrite lookup_app_r in Hi by lia.
        destruct (i - length pre) as [| k] eqn:Hk; [lia |].
        simpl in Hi. rewrite Forall_lookup in Hpost. exact (Hpost k x Hi Hx).
Qed.

End Upsert.

(* --------------------------------------------------------------------- *)
(* 7. The merge                                                          *)
(* --------------------------------------------------------------------- *)

Section Merge.

Context {Value : Type}.
Implicit Types (d : Kubeconfig.t Value) (n cert ep : string).

(* Merging under a name after a merge under the same name gives what the
   second merge alone gives. *)
Lemma mergeKubeconfig_twice n cert1 ep1 cert2 ep2 d :
  mergeKubeconfig n cert2 ep2 (mergeKubeconfig n cert1 ep1 d)
  = mergeKubeconfig n cert2 ep2 d.
Proof.
  unfold mergeKubeconfig; simpl.
  rewrite !upsert_upsert by reflexivity. reflexivity.
Qed.

(** C2. The merge is idempotent: for every starting document and every
    fixed name, certificate and endpoint, merging twice gives the very
    document that merging once gives, field for field. *)
Theorem merge_idempotent n cert ep d :
  mergeKubeconfig n cert ep (mergeKubeconfig n cert ep d)
  = mergeKubeconfig n cert ep d.
Proof. apply mergeKubeconfig_twice. Qed.

(** C3. Merging leaves everything under another name alone.  For each of
    Clusters, Contexts and Users: the entries whose name is not the merged
    name are the same, with the same values and in the same order, before
    and after; a sequence of N entries has N+1 entries afterwards when
    none of them had the name and N when one had; counted from the N
    entries under other names only, the merged sequence has those and,
    besides them, the entries under the name, which are one when there was
    none or one before and as many as before otherwise; and Preferences is
    the same map. *)
Theorem merge_preserves_unrelated n cert ep d :
  let d' := mergeKubeconfig n cert ep d in
  Kubeconfig.Preferences d' = Kubeconfig.Preferences d
  ∧ (filter (λ x, NamedCluster.Name x ≠ n) (Kubeconfig.Clusters d')
       = filter (λ x, NamedCluster.Name x ≠ n) (Kubeconfig.Clusters d)
     ∧ filter (λ x, NamedContext.Name x ≠ n) (Kubeconfig.Contexts d')
       = filter (λ x, NamedContext.Name x ≠ n) (Kubeconfig.Contexts d)
     ∧ filter (λ x, NamedAuthInfo.Name x ≠ n) (Kubeconfig.Users d')
       = filter (λ x, NamedAuthInfo.Name x ≠ n) (Kubeconfig.Users d))
  ∧ (length (Kubeconfig.Clusters d')
       = length (Kubeconfig.Clusters d)
         + (if decide (n ∈ NamedCluster.Name <$> Kubeconfig.Clusters d) then 0 else 1)
     ∧ length (Kubeconfig.Contexts d')
       = length (Kubeconfig.Contexts d)
         + (if decide (n ∈ NamedContext.Name <$> Kubeconfig.Contexts d) then 0 else 1)
     ∧ length (Kubeconfig.Users d')
       = length (Kubeconfig.Users d)
         + (if decide (n ∈ NamedAuthInfo.Name <$> Kubeconfig.Users d) then 0 else 1))
  ∧ (length (Kubeconfig.Clusters d')
       = length (filter (λ x, NamedCluster.Name x ≠ n) (Kubeconfig.Clusters d))
         + Nat.max 1 (length (filter (λ x, NamedCluster.Name x = n)
                                (Kubeconfig.Clusters d)))
     ∧ length (Kubeconfig.Contexts d')
       = length (filter (λ x, NamedContext.Name x ≠ n) (Kubeconfig.Contexts d))
         + Nat.max 1 (length (filter (λ x, NamedContext.Name x = n)
                                (Kubeconfig.Contexts d)))
     ∧ length (Kubeconfig.Users d')
       = length (filter (λ x, NamedAuthInfo.Name x ≠ n) (Kubeconfig.Users d))
         + Nat.max 1 (length (filter (λ x, NamedAuthInfo.Name x = n)
                                (Kubeconfig.Users d)))).
Proof.
  simpl. split; [reflexivity |].
  split; [rewrite !upsert_filter_ne by reflexivity; repeat split |].
  split; [repeat split; apply upsert_length |].
  repeat split; apply upsert_length_others; reflexivity.
Qed.

(** C4. After a merge for project, location and cluster name,
    CurrentContext is gke_<projectID>_<location>_<clusterName>, and the
    Contexts sequence has an entry of that name (the one just written). *)
Theorem merge_sets_current_context projectID location clusterName cert ep d :
  let d' := mergeKubeconfig (gkeName projectID location clusterName) cert ep d in
  Kubeconfig.CurrentContext d'
  = "gke_" +:+ projectID +:+ "_" +:+ location +:+ "_" +:+ clusterName
  ∧ ∃ i ctx, Kubeconfig.Contexts d' !! i = Some ctx
             ∧ NamedContext.Name ctx = Kubeconfig.CurrentContext d'.
Proof.
  simpl. split; [reflexivity |].
  pose proof (upsert_elem_of NamedContext.Name
                (gkeName projectID location clusterName)
                (newContext (gkeName projectID location clusterName))
                (Kubeconfig.Contexts d)) as Hin.
  apply list_elem_of_lookup in Hin as [i Hi].
  exists i, (newContext (gkeName projectID location clusterName)).
  split; [exact Hi | reflexivity].
Qed.

(** C1 (as amended). For every document in which each of Clusters,
    Contexts and Users has at most one entry named
    gke_<projectID>_<location>_<clusterName>, merging that identity twice,
    the second time with other certificate and endpoint values, leaves
    exactly one entry of that name in each sequence, holding the second
    call's values; an entry that had the name is overwritten at its own
    index; and the second merge appends nothing. *)
Theorem merge_twice_single_entry projectID location clusterName
    cert1 ep1 cert2 ep2 d :
  let n := gkeName projectID location clusterName in
  let d1 := mergeKubeconfig n cert1 ep1 d in
  let d2 := mergeKubeconfig n cert2 ep2 d1 in
  (length (filter (λ x, NamedCluster.Name x = n) (Kubeconfig.Clusters d)) ≤ 1)%nat →
  (length (filter (λ x, NamedContext.Name x = n) (Kubeconfig.Contexts d)) ≤ 1)%nat →
  (length (filter (λ x, NamedAuthInfo.Name x = n) (Kubeconfig.Users d)) ≤ 1)%nat →
  (filter (λ x, NamedCluster.Name x = n) (Kubeconfig.Clusters d2)
     = [newCluster n cert2 ep2]
   ∧ filter (λ x, NamedContext.Name x = n) (Kubeconfig.Contexts d2)
     = [newContext n]
   ∧ filter (λ x, NamedAuthInfo.Name x = n) (Kubeconfig.Users d2)
     = [newUser n])
  ∧ ((∀ i x, Kubeconfig.Clusters d !! i = Some x → NamedCluster.Name x = n →
             Kubeconfig.Clusters d2 !! i = Some (newCluster n cert2 ep2))
     ∧ (∀ i x, Kubeconfig.Contexts d !! i = Some x → NamedContext.Name x = n →
               Kubeconfig.Contexts d2 !! i = Some (newContext n))
     ∧ (∀ i x, Kubeconfig.Users d !! i = Some x → NamedAuthInfo.Name x = n →
               Kubeconfig.Users d2 !! i = Some (newUser n)))
  ∧ (length (Kubeconfig.Clusters d2) = length (Kubeconfig.Clusters d1)
     ∧ length (Kubeconfig.Contexts d2) = length (Kubeconfig.Contexts d1)
     ∧ length (Kubeconfig.Users d2) = length (Kubeconfig.Users d1)).
Proof.
  intros n d1 d2 Hcl Hctx Hus.
  assert (Hone : ∀ {A} (name : A → string) (new : A) (xs : list A),
             name new = n →
             (length (filter (λ x, name x = n) xs) ≤ 1)%nat →
             filter (λ x, name x = n) (upsert name n new xs) = [new]).
  { intros A name new xs Hnew Hle. rewrite upsert_filter_eq by assumption.
    destruct (filter _ xs) as [| a [| b l]]; simpl in *; [reflexivity .. | lia]. }
  subst d2 d1. rewrite mergeKubeconfig_twice. simpl.
  split; [| split].
  - repeat split; apply Hone; solve [reflexivity | assumption].
  - repeat split; intros i x Hi Hx;
      eapply upsert_lookup_unique; eassumption.
  - rewrite !upsert_length. repeat split; reflexivity.
Qed.

(** C10. When a sequence already holds several entries under the merged
    name, the merge overwrites the first of them, where the scan stops,
    and leaves every later entry, the other entries of that name among
    them, as it was: as many entries carry the name afterwards as before
    (one, when none did).  Uniqueness of names is not restored. *)
Theorem merge_keeps_later_duplicates n cert ep d :
  let d' := mergeKubeconfig n cert ep d in
  (∀ pre x post,
     Kubeconfig.Clusters d = pre ++ x :: post →
     Forall (λ y, NamedCluster.Name y ≠ n) pre → NamedCluster.Name x = n →
     Kubeconfig.Clusters d' = pre ++ newCluster n cert ep :: post)
  ∧ (∀ pre x post,
       Kubeconfig.Contexts d = pre ++ x :: post →
       Forall (λ y, NamedContext.Name y ≠ n) pre → NamedContext.Name x = n →
       Kubeconfig.Contexts d' = pre ++ newContext n :: post)
  ∧ (∀ pre x post,
       Kubeconfig.Users d = pre ++ x :: post →
       Forall (λ y, NamedAuthInfo.Name y ≠ n) pre → NamedAuthInfo.Name x = n →
       Kubeconfig.Users d' = pre ++ newUser n :: post)
  ∧ length (filter (λ x, NamedCluster.Name x = n) (Kubeconfig.Clusters d'))
    = Nat.max 1 (length (filter (λ x, NamedCluster.Name x = n) (Kubeconfig.Clusters d)))
  ∧ length (filter (λ x, NamedContext.Name x = n) (Kubeconfig.Contexts d'))
    = Nat.max 1 (length (filter (λ x, NamedContext.Name x = n) (Kubeconfig.Contexts d)))
  ∧ length (filter (λ x, NamedAuthInfo.Name x = n) (Kubeconfig.Users d'))
    = Nat.max 1 (length (filter (λ x, NamedAuthInfo.Name x = n) (Kubeconfig.Users d))).
Proof.
  simpl. repeat split;
    try (intros pre x post -> Hpre Hx; apply upsert_first; assumption);
    apply upsert_count; reflexivity.
Qed.

(** X8. Referential integrity of what the merge writes: the context entry of
    the merged name refers to a cluster and to a user by that same name,
    and after the merge Clusters and Users each hold an entry so named. *)
Theorem merged_context_references_exist n cert ep d :
  let d' := mergeKubeconfig n cert ep d in
  let ctx := newContext n in
  ctx ∈ Kubeconfig.Contexts d'
  ∧ (∃ cl, cl ∈ Kubeconfig.Clusters d'
           ∧ NamedCluster.Name cl = Context.Cluster (NamedContext.Context ctx))
  ∧ (∃ us, us ∈ Kubeconfig.Users d'
           ∧ NamedAuthInfo.Name us = Context.User (NamedContext.Context ctx)).
Proof.
  simpl. split; [apply upsert_elem_of |]. split.
  - exists (newCluster n cert ep). split; [apply upsert_elem_of | reflexivity].
  - exists (newUser n). split; [apply upsert_elem_of | reflexivity].
Qed.

End Merge.

(* --------------------------------------------------------------------- *)
(* 8. The file tree                                                      *)
(* --------------------------------------------------------------------- *)

Section FileTree.

Implicit Types (t child : node) (p q r : path) (u perm m : FileMode)
  (data : bytes) (entries : gmap string node).

Lemma lookupPath_app t p q :
  lookupPath t (p ++ q)
  = match lookupPath t p with
    | inr t' => lookupPath t' q
    | inl e => inl e
    end.
Proof.
  revert t. induction p as [| name p IH]; intros t; simpl; [reflexivity |].
  destruct t as [? ? | m entries]; [reflexivity |].
  destruct (entries !! name) as [child |]; [apply IH | reflexivity].
Qed.

(* What is found below a path has the path itself found. *)
Lemma lookupPath_prefix_found t p q t' :
  lookupPath t (p ++ q) = inr t' → ∃ t'', lookupPath t p = inr t''.
Proof.
  rewrite lookupPath_app. destruct (lookupPath t p) as [e | t''];
    [discriminate | eauto].
Qed.

(* MkdirAll keeps the mode of the directory it starts from. *)
Lemma mkdirAll_root u perm m entries p t' :
  mkdirAll u perm (Dir m entries) p = inr t' → ∃ entries', t' = Dir m entries'.
Proof.
  destruct p as [| name rest]; simpl.
  - intros [= <-]. eauto.
  - destruct (mkdirAll u perm _ rest); [discriminate |].
    intros [= <-]. eauto.
Qed.

(* Below a directory just created, MkdirAll succeeds and the last
   directory it makes is empty. *)
Lemma mkdirAll_fresh u perm p :
  ∃ t', mkdirAll u perm (Dir (N.ldiff perm u) ∅) p = inr t'
        ∧ ∃ entries', lookupPath t' p = inr (Dir (N.ldiff perm u) entries')
                      ∧ (p ≠ [] → entries' = ∅).
Proof.
  induction p as [| name rest IH].
  - eexists. split; [reflexivity |]. eexists. split; [reflexivity |]. congruence.
  - destruct IH as (child' & Hmk & entries' & Hl & Hempty).
    simpl. rewrite lookup_empty, Hmk.
    eexists. split; [reflexivity |]. simpl. rewrite lookup_insert_eq.
    destruct rest as [| name' rest'].
    + simpl in Hmk, Hl. injection Hmk as <-.
      exists ∅. split; [reflexivity |]. reflexivity.
    + exists entries'. split; [exact Hl |]. intros _. apply Hempty. discriminate.
Qed.

(* A path that does not exist can be made, and the directory at its end
   is then empty, with mode perm less the umask. *)
Lemma mkdirAll_missing u perm t p :
  lookupPath t p = inl ENOENT →
  ∃ t', mkdirAll u perm t p = inr t'
        ∧ lookupPath t' p = inr (Dir (N.ldiff perm u) ∅).
Proof.
  revert t. induction p as [| name rest IH]; intros t; simpl; [discriminate |].
  destruct t as [? ? | m entries]; [discriminate |].
  destruct (entries !! name) as [child |] eqn:Hname.
  - intros Hl. destruct (IH child Hl) as (child' & -> & Hl').
    eexists. split; [reflexivity |]. simpl. rewrite lookup_insert_eq. exact Hl'.
  - intros _.
    destruct (mkdirAll_fresh u perm rest) as (child' & Hmk & entries' & Hl & Hempty).
    rewrite Hmk. eexists. split; [reflexivity |]. simpl. rewrite lookup_insert_eq.
    destruct rest as [| name' rest'].
    + simpl in Hmk. injection Hmk as <-. reflexivity.
    + rewrite Hl, Hempty by discriminate. reflexivity.
Qed.

(* Every directory on the way that was missing has mode perm less the
   umask once MkdirAll has returned. *)
Lemma mkdirAll_created u perm t p t' q :
  mkdirAll u perm t p = inr t' → q `prefix_of` p →
  lookupPath t q = inl ENOENT →
  ∃ entries', lookupPath t' q = inr (Dir (N.ldiff perm u) entries').
Proof.
  revert t t' q. induction p as [| name rest IH]; intros t t' q Hmk [r Hr] Hq.
  - symmetry in Hr. apply app_eq_nil in Hr as [-> _]. discriminate.
  - destruct q as [| name' q']; [discriminate |].
    simpl in Hr. injection Hr as <- ->.
    simpl in Hmk, Hq. destruct t as [? ? | m entries]; [discriminate |].
    destruct (mkdirAll u perm _ (q' ++ r)) as [e | child'] eqn:Hchild;
      [discriminate |].
    injection Hmk as <-. simpl. rewrite lookup_insert_eq.
    destruct (entries !! name) as [child |] eqn:Hname.
    + eapply IH; [exact Hchild | eexists; reflexivity | exact Hq].
    + destruct q' as [| name'' q''].
      * simpl. apply mkdirAll_root in Hchild as [entries' ->]. eauto.
      * eapply IH; [exact Hchild | eexists; reflexivity |].
        simpl. rewrite lookup_empty. reflexivity.
Qed.

(* After a write the file is there with the data; its mode is the one it
   had, or perm less the umask if it has been created. *)
Lemma writeFile_written u perm data t p t' :
  writeFile u perm data t p = inr t' →
  lookupPath t' p
  = inr (File data
           match lookupPath t p with
           | inr (File _ old) => old
           | _ => N.ldiff perm u
           end).
Proof.
  revert t t'. induction p as [| name rest IH]; intros t t'; simpl.
  - destruct t as [old_data old | ? ?]; [| discriminate].
    intros [= <-]. reflexivity.
  - destruct t as [? ? | m entries]; [discriminate |].
    destruct (entries !! name) as [child |] eqn:Hname.
    + destruct (writeFile u perm data child rest) as [e | child'] eqn:Hchild;
        [discriminate |].
      intros [= <-]. simpl. rewrite lookup_insert_eq. apply IH, Hchild.
    + destruct rest as [| ? ?]; [| discriminate].
      intros [= <-]. simpl. rewrite lookup_insert_eq. reflexivity.
Qed.

(* A write leaves the directories on the way directories, modes kept. *)
Lemma writeFile_keeps_dirs u perm data t p t' q m entries :
  writeFile u perm data t p = inr t' → q `prefix_of` p →
  lookupPath t q = inr (Dir m entries) →
  ∃ entries', lookupPath t' q = inr (Dir m entries').
Proof.
  revert t t' q. induction p as [| name rest IH]; intros t t' q Hwr [r Hr] Hq.
  - symmetry in Hr. apply app_eq_nil in Hr as [-> _].
    simpl in *. injection Hq as ->. discriminate.
  - simpl in Hwr. destruct t as [? ? | m0 entries0].
    { discriminate. }
    destruct q as [| name' q'].
    + simpl in Hq. injection Hq as -> ->.
      destruct (entries !! name) as [child |].
      * destruct (writeFile u perm data child rest); [discriminate |].
        injection Hwr as <-. simpl. eauto.
      * destruct rest; [| discriminate]. injection Hwr as <-. simpl. eauto.
    + simpl in Hr. injection Hr as <- ->. simpl in Hq.
      destruct (entries0 !! name) as [child |] eqn:Hname; [| discriminate].
      destruct (writeFile u perm data child (q' ++ r)) as [e | child'] eqn:Hchild;
        [discriminate |].
      injection Hwr as <-. simpl. rewrite lookup_insert_eq.
      eapply IH; [exact Hchild | eexists; reflexivity | exact Hq].
Qed.

(* A file can be created in a directory that has no entry of its name. *)
Lemma writeFile_create u perm data t p name m entries :
  lookupPath t p = inr (Dir m entries) → entries !! name = None →
  ∃ t', writeFile u perm data t (p ++ [name]) = inr t'.
Proof.
  revert t. induction p as [| name' rest IH]; intros t; simpl.
  - intros [= ->] ->. eauto.
  - destruct t as [? ? | m0 entries0]; [discriminate |].
    destruct (entries0 !! name') as [child |]; [| discriminate].
    intros Hl Hname. destruct (IH child Hl Hname) as [child' ->]. eauto.
Qed.

(* Writing to a file the data it holds changes nothing. *)
Lemma writeFile_same u perm data t p m :
  lookupPath t p = inr (File data m) → writeFile u perm data t p = inr t.
Proof.
  revert t. induction p as [| name rest IH]; intros t; simpl.
  - intros [= ->]. reflexivity.
  - destruct t as [? ? | m0 entries]; [discriminate |].
    destruct (entries !! name) as [child |] eqn:Hname; [| discriminate].
    intros Hl. rewrite (IH child Hl). rewrite insert_id by assumption. reflexivity.
Qed.

End FileTree.

(* --------------------------------------------------------------------- *)
(* 9. Reading and writing ~/.kube/config                                 *)
(* --------------------------------------------------------------------- *)

Section WriteStage.

Implicit Types (w : world) (p q : path) (b : bytes).

Lemma writeFile_parent_dir u perm data t q name r t' :
  writeFile u perm data t (q ++ name :: r) = inr t' →
  ∃ m entries, lookupPath t q = inr (Dir m entries).
Proof.
  revert t t'. induction q as [| name' q IH]; intros t t'; simpl.
  - destruct t as [? ? | m entries]; [discriminate | eauto].
  - destruct t as [? ? | m entries]; [discriminate |].
    destruct (entries !! name') as [child |].
    + destruct (writeFile u perm data child (q ++ name :: r)) as [e | child'] eqn:Hchild;
        [discriminate |].
      intros _. eapply IH, Hchild.
    + destruct (q ++ name :: r) eqn:Hq; [| discriminate].
      destruct q; discriminate.
Qed.

(* The steps of writeKubeconfig, one after the other. *)
Lemma writeKubeconfig_eq p b w :
  writeKubeconfig p b w
  = match os_Stat w (filepath_Dir p) with
    | inl ENOENT =>
        match os_MkdirAll w (filepath_Dir p) mode_0755 with
        | inl e => (inl (ErrMkdirAll (filepath_Dir p) e), w)
        | inr w1 =>
            match os_WriteFile w1 p b mode_0600 with
            | inl e => (inl (ErrWriteFile p e), w1)
            | inr w' => (inr tt, w')
            end
        end
    | _ =>
        match os_WriteFile w p b mode_0600 with
        | inl e => (inl (ErrWriteFile p e), w)
        | inr w' => (inr tt, w')
        end
    end.
Proof.
  unfold writeKubeconfig, bind, ask, act, ret.
  destruct (os_Stat w (filepath_Dir p)) as [[] | nd]; simpl;
    try reflexivity.
  destruct (os_MkdirAll w (filepath_Dir p) mode_0755) as [e | w1]; reflexivity.
Qed.

(* A WriteFile that succeeds: the file system takes changes, and the new
   tree is the old one with the file written. *)
Lemma os_WriteFile_Ok w p b perm w' :
  os_WriteFile w p b perm = inr w' →
  readOnly w = false
  ∧ ∃ t', writeFile (umask w) perm b (root w) p = inr t'
          ∧ w' = mkWorld t' (umask w) (HOME w) (readOnly w).
Proof.
  unfold os_WriteFile.
  destruct (writeFile (umask w) perm b (root w) p) as [e | t']; [discriminate |].
  destruct (readOnly w); [discriminate |].
  intros [= <-]. eauto.
Qed.

(* A MkdirAll, of a directory that does not exist, that succeeds. *)
Lemma os_MkdirAll_Ok w p perm w1 :
  os_Stat w p = inl ENOENT →
  os_MkdirAll w p perm = inr w1 →
  readOnly w = false
  ∧ ∃ t1, mkdirAll (umask w) perm (root w) p = inr t1
          ∧ w1 = mkWorld t1 (umask w) (HOME w) (readOnly w).
Proof.
  unfold os_MkdirAll. intros ->.
  destruct (mkdirAll (umask w) perm (root w) p) as [e | t1]; [discriminate |].
  destruct (readOnly w); [discriminate |].
  intros [= <-]. eauto.
Qed.

(* What a successful writeKubeconfig leaves behind: the file with the
   bytes, its mode the one it had or 0600 less the umask if it is new;
   every directory above it that was missing, with mode 0755 less the
   umask. *)
Lemma writeKubeconfig_Ok p b w w' :
  writeKubeconfig p b w = (inr tt, w') →
  (umask w' = umask w ∧ HOME w' = HOME w ∧ readOnly w' = false ∧ readOnly w = false)
  ∧ os_Stat w' p
    = inr (File b match os_Stat w p with
                  | inr (File _ old) => old
                  | _ => N.ldiff mode_0600 (umask w)
                  end)
  ∧ ∀ q, q `prefix_of` filepath_Dir p → os_Stat w q = inl ENOENT →
         ∃ entries, os_Stat w' q = inr (Dir (N.ldiff mode_0755 (umask w)) entries).
Proof.
  rewrite writeKubeconfig_eq.
  assert (Hdirect :
    os_Stat w (filepath_Dir p) ≠ inl ENOENT →
    match os_WriteFile w p b mode_0600 with
    | inl e => (inl (ErrWriteFile p e), w)
    | inr w' => (inr (), w')
    end = (inr (), w') →
    (umask w' = umask w ∧ HOME w' = HOME w ∧ readOnly w' = false ∧ readOnly w = false)
    ∧ os_Stat w' p
      = inr (File b match os_Stat w p with
                    | inr (File _ old) => old
                    | _ => N.ldiff mode_0600 (umask w)
                    end)
    ∧ ∀ q, q `prefix_of` filepath_Dir p → os_Stat w q = inl ENOENT →
           ∃ entries, os_Stat w' q = inr (Dir (N.ldiff mode_0755 (umask w)) entries)).
  { intros Hdir.
    destruct (os_WriteFile w p b mode_0600) as [e | w2] eqn:Hwr; [discriminate |].
    intros [= <-]. apply os_WriteFile_Ok in Hwr as (Hro & t' & Hwr & ->).
    unfold os_Stat in *. simpl.
    split; [rewrite Hro; repeat split |].
    split; [apply (writeFile_written _ _ _ _ _ _ Hwr) |].
    intros q [r Hr] Hq. exfalso.
    destruct (decide (p = [])) as [-> | Hp].
    { simpl in Hr. symmetry in Hr. apply app_eq_nil in Hr as [-> _]. discriminate. }
    destruct (exists_last Hp) as (p0 & name & ->).
    unfold filepath_Dir in *. rewrite removelast_last in Hr, Hdir. subst p0.
    rewrite <- app_assoc in Hwr.
    destruct r as [| name' r]; simpl in Hwr.
    - rewrite app_nil_r in Hdir. contradiction.
    - apply writeFile_parent_dir in Hwr as (m & entries & Hl). congruence. }
  destruct (os_Stat w (filepath_Dir p)) as [[] | nd] eqn:Hdir;
    try (apply Hdirect; congruence).
  (* the directory is missing *)
  clear Hdirect.
  destruct (os_MkdirAll w (filepath_Dir p) mode_0755) as [e | w1] eqn:Hmk;
    [discriminate |].
  destruct (os_WriteFile w1 p b mode_0600) as [e | w2] eqn:Hwr; [discriminate |].
  intros [= <-].
  apply os_MkdirAll_Ok in Hmk as (Hro & t1 & Hmk & ->); [| exact Hdir].
  apply os_WriteFile_Ok in Hwr as (_ & t' & Hwr & ->).
  unfold os_Stat in *. simpl in *.
  destruct (mkdirAll_missing (umask w) mode_0755 (root w) _ Hdir) as (t1' & Hmk' & Hl1).
  rewrite Hmk in Hmk'. injection Hmk' as <-.
  split; [rewrite Hro; repeat split |]. split.
  - destruct (decide (p = [])) as [-> | Hp]; [discriminate |].
    destruct (exists_last Hp) as (p0 & name & ->).
    unfold filepath_Dir in *. rewrite removelast_last in Hdir, Hl1.
    rewrite (writeFile_written _ _ _ _ _ _ Hwr).
    rewrite !lookupPath_app, Hdir, Hl1. simpl. rewrite lookup_empty. reflexivity.
  - intros q Hq Hmissing.
    destruct (mkdirAll_created _ _ _ _ _ _ Hmk Hq Hmissing) as [entries Hl].
    eapply writeFile_keeps_dirs; [exact Hwr | | exact Hl].
    destruct Hq as [r Hr].
    destruct (decide (p = [])) as [-> | Hp]; [discriminate |].
    destruct (exists_last Hp) as (p0 & name & ->).
    unfold filepath_Dir in Hr. rewrite removelast_last in Hr. subst p0.
    exists (r ++ [name]). rewrite app_assoc. reflexivity.
Qed.

(* With no file at the path, on a file system that takes changes,
   writeKubeconfig succeeds. *)
Lemma writeKubeconfig_absent dir name b w :
  readOnly w = false →
  os_Stat w (dir ++ [name]) = inl ENOENT →
  ∃ w', writeKubeconfig (dir ++ [name]) b w = (inr tt, w').
Proof.
  intros Hro. rewrite writeKubeconfig_eq. unfold filepath_Dir. rewrite removelast_last.
  unfold os_MkdirAll, os_WriteFile. unfold os_Stat. simpl. rewrite Hro.
  rewrite lookupPath_app.
  destruct (lookupPath (root w) dir) as [[] | nd] eqn:Hdir; try discriminate.
  - intros _.
    destruct (mkdirAll_missing (umask w) mode_0755 (root w) _ Hdir) as (t1 & -> & Hl1).
    simpl.
    destruct (writeFile_create (umask w) mode_0600 b t1 dir name _ ∅ Hl1 (lookup_empty _))
      as [t' ->].
    eauto.
  - simpl. destruct nd as [? ? | m entries]; [discriminate |].
    destruct (entries !! name) as [child |] eqn:Hname.
    + destruct child; discriminate.
    + intros _.
      destruct (writeFile_create (umask w) mode_0600 b (root w) dir name _ _ Hdir Hname)
        as [t' ->].
      eauto.
Qed.

End WriteStage.

(* --------------------------------------------------------------------- *)
(* 10. getKubeconfig, end to end                                         *)
(* --------------------------------------------------------------------- *)

Section Pipeline.

Context {Value : Type}.
Variable yaml_Unmarshal : bytes → string + Kubeconfig.t Value.
Variable yaml_Marshal : Kubeconfig.t Value → string + bytes.

Implicit Types (h : handlers) (args : getKubeconfigArgs.t) (w : world)
  (resp : containerpb.Cluster) (homeDir : path) (b : bytes).

(* The steps of loadKubeconfig; the world is only read. *)
Lemma loadKubeconfig_eq p w :
  loadKubeconfig yaml_Unmarshal p w
  = (match os_ReadFile w p with
     | inl err =>
         if negb (os_IsNotExist err) then inl (ErrReadFile p err)
         else inr emptyKubeconfig
     | inr kubeconfigBytes =>
         match yaml_Unmarshal kubeconfigBytes with
         | inl err => inl (ErrUnmarshal p err)
         | inr existingKubeconfig => inr (fillDefaults existingKubeconfig)
         end
     end, w).
Proof.
  unfold loadKubeconfig, bind, ask, fail, ret.
  destruct (os_ReadFile w p) as [err | kubeconfigBytes].
  - destruct (negb (os_IsNotExist err)); reflexivity.
  - destruct (yaml_Unmarshal kubeconfigBytes); reflexivity.
Qed.

(* The cluster is known, certificate and endpoint are there, and $HOME is
   set: what remains of getKubeconfig is load, merge, marshal, write. *)
Lemma getKubeconfig_validated h args w resp homeDir :
  let a := withDefaults h args in
  getKubeconfigArgs.Name a ≠ "" →
  ClusterManagerClient.GetCluster (cmClient h) (requestName a) = inr resp →
  containerpb.GetClusterCaCertificate resp ≠ "" →
  containerpb.GetEndpoint resp ≠ "" →
  HOME w = Some homeDir →
  getKubeconfig yaml_Unmarshal yaml_Marshal h args w
  = match loadKubeconfig yaml_Unmarshal (kubeconfigPathOf homeDir) w with
    | (inl e, w1) => (inl e, w1)
    | (inr existingKubeconfig, w1) =>
        match yaml_Marshal
                (mergeKubeconfig (newClusterNameOf a)
                   (containerpb.GetClusterCaCertificate resp)
                   (ensureHTTPS (containerpb.GetEndpoint resp))
                   existingKubeconfig) with
        | inl err => (inl (ErrMarshal err), w1)
        | inr updatedKubeconfigBytes =>
            match writeKubeconfig (kubeconfigPathOf homeDir)
                    updatedKubeconfigBytes w1 with
            | (inl e, w') => (inl e, w')
            | (inr _, w') =>
                (inr (successText a (kubeconfigPathOf homeDir) (newClusterNameOf a)), w')
            end
        end
    end.
Proof.
  intros a Hname Hresp Hcert Hep Hhome.
  unfold getKubeconfig. fold a.
  rewrite decide_False by assumption. rewrite Hresp.
  rewrite !decide_False by assumption.
  unfold bind at 1, ask, os_UserHomeDir. rewrite Hhome.
  unfold bind at 1.
  destruct (loadKubeconfig yaml_Unmarshal (kubeconfigPathOf homeDir) w)
    as [[e | existingKubeconfig] w1]; [reflexivity |].
  destruct (yaml_Marshal _) as [err | updatedKubeconfigBytes]; [reflexivity |].
  unfold bind, ret.
  destruct (writeKubeconfig _ _ w1) as [[e | []] w']; reflexivity.
Qed.

(* A getKubeconfig that succeeds has been through every step. *)
Lemma getKubeconfig_Ok_inv h args w msg w' :
  getKubeconfig yaml_Unmarshal yaml_Marshal h args w = (inr msg, w') →
  let a := withDefaults h args in
  ∃ resp homeDir existingKubeconfig updatedKubeconfigBytes,
    getKubeconfigArgs.Name a ≠ ""
    ∧ ClusterManagerClient.GetCluster (cmClient h) (requestName a) = inr resp
    ∧ containerpb.GetClusterCaCertificate resp ≠ ""
    ∧ containerpb.GetEndpoint resp ≠ ""
    ∧ HOME w = Some homeDir
    ∧ loadKubeconfig yaml_Unmarshal (kubeconfigPathOf homeDir) w
      = (inr existingKubeconfig, w)
    ∧ yaml_Marshal
        (mergeKubeconfig (newClusterNameOf a)
           (containerpb.GetClusterCaCertificate resp)
           (ensureHTTPS (containerpb.GetEndpoint resp))
           existingKubeconfig)
      = inr updatedKubeconfigBytes
    ∧ writeKubeconfig (kubeconfigPathOf homeDir) updatedKubeconfigBytes w
      = (inr tt, w')
    ∧ msg = successText a (kubeconfigPathOf homeDir) (newClusterNameOf a).
Proof.
  intros Hrun a.
  destruct (decide (getKubeconfigArgs.Name a = "")) as [Hname | Hname].
  { unfold getKubeconfig in Hrun. fold a in Hrun.
    rewrite decide_True in Hrun by assumption. discriminate. }
  destruct (ClusterManagerClient.GetCluster (cmClient h) (requestName a))
    as [err | resp] eqn:Hresp.
  { unfold getKubeconfig in Hrun. fold a in Hrun.
    rewrite decide_False, Hresp in Hrun by assumption. discriminate. }
  destruct (decide (containerpb.GetClusterCaCertificate resp = "")) as [Hcert | Hcert].
  { unfold getKubeconfig in Hrun. fold a in Hrun.
    rewrite decide_False, Hresp, decide_True in Hrun by assumption. discriminate. }
  destruct (decide (containerpb.GetEndpoint resp = "")) as [Hep | Hep].
  { unfold getKubeconfig in Hrun. fold a in Hrun.
    rewrite decide_False, Hresp, decide_False, decide_True in Hrun by assumption.
    discriminate. }
  destruct (HOME w) as [homeDir |] eqn:Hhome.
  2:{ unfold getKubeconfig in Hrun. fold a in Hrun.
      rewrite decide_False, Hresp, !decide_False in Hrun by assumption.
      unfold bind at 1, ask, os_UserHomeDir in Hrun. rewrite Hhome in Hrun.
      discriminate. }
  rewrite (getKubeconfig_validated h args w resp homeDir) in Hrun by assumption.
  fold a in Hrun.
  pose proof (loadKubeconfig_eq (kubeconfigPathOf homeDir) w) as Hload.
  destruct (loadKubeconfig yaml_Unmarshal (kubeconfigPathOf homeDir) w)
    as [[e | existingKubeconfig] w1] eqn:Hl; [discriminate |].
  assert (w1 = w) as -> by (injection Hload; auto).
  destruct (yaml_Marshal _) as [err | updatedKubeconfigBytes] eqn:Hm; [discriminate |].
  destruct (writeKubeconfig _ _ w) as [[e | []] w''] eqn:Hwr; [discriminate |].
  injection Hrun as <- <-.
  exists resp, homeDir, existingKubeconfig, updatedKubeconfigBytes.
  split_and!; solve [assumption | reflexivity].
Qed.

(* The stored endpoint always starts with https://. *)
Lemma ensureHTTPS_prefix endpoint :
  HasPrefix (ensureHTTPS endpoint) "https://" = true.
Proof.
  unfold ensureHTTPS.
  destruct (HasPrefix endpoint "https://") eqn:H; simpl; [exact H |].
  unfold HasPrefix. simpl. destruct endpoint; reflexivity.
Qed.

(* 0600 less any umask grants nothing to group and others. *)
Lemma mode_0600_owner_only u : owner_only (N.ldiff mode_0600 u).
Proof.
  unfold owner_only. apply N.bits_inj. intros k.
  rewrite N.land_spec, N.ldiff_spec, N.bits_0.
  assert (H : N.testbit (N.land mode_0600 mode_0077) k = false)
    by (vm_compute (N.land mode_0600 mode_0077); apply N.bits_0).
  rewrite N.land_spec in H.
  destruct (N.testbit mode_0600 k), (N.testbit mode_0077 k), (N.testbit u k);
    simpl in *; congruence.
Qed.

(** C5. With no file at ~/.kube/config (ReadFile answers that it does not
    exist), loading is not an error: it yields the empty document with
    apiVersion v1, kind Config, empty sequences and an empty preferences
    map; the merge makes of it a document with exactly one cluster, one
    context and one user, still v1 and Config; and getKubeconfig succeeds,
    leaving that document, marshalled, at the path, when $HOME is set,
    Marshal succeeds and the file system takes changes. *)
Theorem bootstrap_missing_file h args w resp homeDir b :
  let a := withDefaults h args in
  let n := newClusterNameOf a in
  let cert := containerpb.GetClusterCaCertificate resp in
  let ep := ensureHTTPS (containerpb.GetEndpoint resp) in
  let p := kubeconfigPathOf homeDir in
  let doc : Kubeconfig.t Value :=
    {| Kubeconfig.APIVersion := "v1";
       Kubeconfig.Clusters := [newCluster n cert ep];
       Kubeconfig.Contexts := [newContext n];
       Kubeconfig.CurrentContext := n;
       Kubeconfig.Kind := "Config";
       Kubeconfig.Preferences := ∅;
       Kubeconfig.Users := [newUser n] |} in
  getKubeconfigArgs.Name a ≠ "" →
  ClusterManagerClient.GetCluster (cmClient h) (requestName a) = inr resp →
  cert ≠ "" →
  containerpb.GetEndpoint resp ≠ "" →
  HOME w = Some homeDir →
  readOnly w = false →
  os_ReadFile w p = inl ENOENT →
  yaml_Marshal doc = inr b →
  loadKubeconfig yaml_Unmarshal p w
  = (inr {| Kubeconfig.APIVersion := "v1";
            Kubeconfig.Clusters := [];
            Kubeconfig.Contexts := [];
            Kubeconfig.CurrentContext := "";
            Kubeconfig.Kind := "Config";
            Kubeconfig.Preferences := ∅;
            Kubeconfig.Users := [] |}, w)
  ∧ mergeKubeconfig n cert ep emptyKubeconfig = doc
  ∧ ∃ w', getKubeconfig yaml_Unmarshal yaml_Marshal h args w
          = (inr (successText a p n), w')
          ∧ os_ReadFile w' p = inr b.
Proof.
  intros a n cert ep p doc Hname Hresp Hcert Hep Hhome Hro Hread Hm.
  assert (Hload : loadKubeconfig yaml_Unmarshal p w = (inr emptyKubeconfig, w)).
  { rewrite loadKubeconfig_eq, Hread. reflexivity. }
  split; [exact Hload |]. split; [reflexivity |].
  rewrite (getKubeconfig_validated h args w resp homeDir) by assumption.
  fold a p n cert ep. rewrite Hload.
  change (mergeKubeconfig n cert ep emptyKubeconfig) with doc. rewrite Hm.
  assert (Hstat : os_Stat w (homeDir ++ [".kube"] ++ ["config"]) = inl ENOENT).
  { unfold os_ReadFile, p, kubeconfigPathOf, filepath_Join in Hread. simpl.
    destruct (os_Stat w (homeDir ++ [".kube"; "config"])) as [e | [? ? | ? ?]];
      congruence. }
  rewrite app_assoc in Hstat.
  destruct (writeKubeconfig_absent _ _ b w Hro Hstat) as [w' Hwr].
  rewrite <- app_assoc in Hwr. change (homeDir ++ [".kube"] ++ ["config"]) with p in Hwr.
  rewrite Hwr. exists w'. split; [reflexivity |].
  apply writeKubeconfig_Ok in Hwr as (_ & Hfile & _).
  unfold os_ReadFile. rewrite Hfile. reflexivity.
Qed.

(** C6. In the document a successful getKubeconfig writes, the cluster
    entry of the merged name has as server the resolver's endpoint itself
    when that starts with https://, and https:// followed by the endpoint
    otherwise; either way the stored server starts with https://. *)
Theorem endpoint_scheme_normalized h args w msg w' :
  getKubeconfig yaml_Unmarshal yaml_Marshal h args w = (inr msg, w') →
  let a := withDefaults h args in
  ∃ resp homeDir doc b cl,
    ClusterManagerClient.GetCluster (cmClient h) (requestName a) = inr resp
    ∧ HOME w = Some homeDir
    ∧ yaml_Marshal doc = inr b
    ∧ os_ReadFile w' (kubeconfigPathOf homeDir) = inr b
    ∧ cl ∈ Kubeconfig.Clusters doc
    ∧ NamedCluster.Name cl = newClusterNameOf a
    ∧ Cluster.Server (NamedCluster.Cluster cl)
      = (if HasPrefix (containerpb.GetEndpoint resp) "https://"
         then containerpb.GetEndpoint resp
         else "https://" +:+ containerpb.GetEndpoint resp)
    ∧ HasPrefix (Cluster.Server (NamedCluster.Cluster cl)) "https://" = true.
Proof.
  intros Hrun a.
  apply getKubeconfig_Ok_inv in Hrun
    as (resp & homeDir & existing & b & _ & Hresp & _ & _ & Hhome & _ & Hm & Hwr & _).
  fold a in Hresp, Hm.
  apply writeKubeconfig_Ok in Hwr as (_ & Hfile & _).
  eexists resp, homeDir, _, b, _.
  split_and!; [exact Hresp | exact Hhome | exact Hm | | | | |].
  - unfold os_ReadFile. rewrite Hfile. reflexivity.
  - apply upsert_elem_of.
  - reflexivity.
  - simpl. unfold ensureHTTPS.
    destruct (HasPrefix (containerpb.GetEndpoint resp) "https://"); reflexivity.
  - apply ensureHTTPS_prefix.
Qed.

(** C7. When the cluster comes back with an empty CA certificate or an
    empty endpoint, getKubeconfig fails: with the certificate error when
    the certificate is empty, with the endpoint error otherwise; the two
    errors are different; and the world, the file tree with it, is the one
    before the call. *)
Theorem empty_certificate_or_endpoint_rejected h args w resp :
  let a := withDefaults h args in
  getKubeconfigArgs.Name a ≠ "" →
  ClusterManagerClient.GetCluster (cmClient h) (requestName a) = inr resp →
  containerpb.GetClusterCaCertificate resp = "" ∨ containerpb.GetEndpoint resp = "" →
  getKubeconfig yaml_Unmarshal yaml_Marshal h args w
  = (inl (if decide (containerpb.GetClusterCaCertificate resp = "")
          then ErrNoClusterCaCertificate (getKubeconfigArgs.Name a)
          else ErrNoEndpoint (getKubeconfigArgs.Name a)), w)
  ∧ ErrNoClusterCaCertificate (getKubeconfigArgs.Name a)
    ≠ ErrNoEndpoint (getKubeconfigArgs.Name a).
Proof.
  intros a Hname Hresp Hempty. split; [| discriminate].
  unfold getKubeconfig. fold a.
  rewrite decide_False by assumption. rewrite Hresp.
  destruct (decide (containerpb.GetClusterCaCertificate resp = "")) as [Hc | Hc];
    [reflexivity |].
  destruct Hempty as [Hc' | He]; [contradiction |].
  rewrite decide_True by assumption. reflexivity.
Qed.

(** C8. When ~/.kube/config exists and is read but Unmarshal rejects its
    content, getKubeconfig fails and leaves the world, the file with it,
    as it was; past the checks of name, cluster, certificate and endpoint
    the failure is the unmarshal error for that path. *)
Theorem unparsable_file_rejected h args w homeDir b cause :
  let a := withDefaults h args in
  let p := kubeconfigPathOf homeDir in
  HOME w = Some homeDir →
  os_ReadFile w p = inr b →
  yaml_Unmarshal b = inl cause →
  ∃ e, getKubeconfig yaml_Unmarshal yaml_Marshal h args w = (inl e, w)
       ∧ (getKubeconfigArgs.Name a ≠ "" →
          ∀ resp,
            ClusterManagerClient.GetCluster (cmClient h) (requestName a) = inr resp →
            containerpb.GetClusterCaCertificate resp ≠ "" →
            containerpb.GetEndpoint resp ≠ "" →
            e = ErrUnmarshal p cause).
Proof.
  intros a p Hhome Hread Hparse.
  assert (Hload : loadKubeconfig yaml_Unmarshal p w = (inl (ErrUnmarshal p cause), w)).
  { rewrite loadKubeconfig_eq, Hread, Hparse. reflexivity. }
  assert (Hvalid : ∀ resp,
    getKubeconfigArgs.Name a ≠ "" →
    ClusterManagerClient.GetCluster (cmClient h) (requestName a) = inr resp →
    containerpb.GetClusterCaCertificate resp ≠ "" →
    containerpb.GetEndpoint resp ≠ "" →
    getKubeconfig yaml_Unmarshal yaml_Marshal h args w
    = (inl (ErrUnmarshal p cause), w)).
  { intros resp Hname Hresp Hcert Hep.
    rewrite (getKubeconfig_validated h args w resp homeDir) by assumption.
    fold p. rewrite Hload. reflexivity. }
  destruct (decide (getKubeconfigArgs.Name a = "")) as [Hname | Hname].
  { exists ErrNameEmpty. split; [| intros Hn; contradiction].
    unfold getKubeconfig. fold a. rewrite decide_True by assumption. reflexivity. }
  destruct (ClusterManagerClient.GetCluster (cmClient h) (requestName a))
    as [err | resp] eqn:Hresp.
  { eexists. split; [| intros _ ? [=]].
    unfold getKubeconfig. fold a. rewrite decide_False, Hresp by assumption.
    reflexivity. }
  destruct (decide (containerpb.GetClusterCaCertificate resp = "")) as [Hcert | Hcert].
  { eexists. split; [| intros _ ? [= <-]; contradiction].
    unfold getKubeconfig. fold a.
    rewrite decide_False, Hresp, decide_True by assumption. reflexivity. }
  destruct (decide (containerpb.GetEndpoint resp = "")) as [Hep | Hep].
  { eexists. split; [| intros _ ? [= <-]; contradiction].
    unfold getKubeconfig. fold a.
    rewrite decide_False, Hresp, decide_False, decide_True by assumption.
    reflexivity. }
  exists (ErrUnmarshal p cause).
  split; [apply (Hvalid resp); solve [assumption | reflexivity] | reflexivity].
Qed.

(** C9 (as amended). After a successful getKubeconfig, every directory on
    the way to ~/.kube that did not exist is a directory of mode 0755 less
    the umask (read and search for group and others included), and
    ~/.kube/config holds the marshalled document; its mode is 0600 less
    the umask, which grants nothing to group and others, when the file
    has been created, and the mode it had when it already existed. *)
Theorem kubeconfig_written_modes h args w msg w' :
  getKubeconfig yaml_Unmarshal yaml_Marshal h args w = (inr msg, w') →
  ∃ homeDir doc b,
    HOME w = Some homeDir
    ∧ yaml_Marshal doc = inr b
    ∧ (∀ q, q `prefix_of` filepath_Dir (kubeconfigPathOf homeDir) →
            os_Stat w q = inl ENOENT →
            ∃ entries,
              os_Stat w' q = inr (Dir (N.ldiff mode_0755 (umask w)) entries))
    ∧ os_Stat w' (kubeconfigPathOf homeDir)
      = inr (File b match os_Stat w (kubeconfigPathOf homeDir) with
                    | inr (File _ old) => old
                    | _ => N.ldiff mode_0600 (umask w)
                    end)
    ∧ owner_only (N.ldiff mode_0600 (umask w)).
Proof.
  intros Hrun.
  apply getKubeconfig_Ok_inv in Hrun
    as (resp & homeDir & existing & b & _ & _ & _ & _ & Hhome & _ & Hm & Hwr & _).
  apply writeKubeconfig_Ok in Hwr as (_ & Hfile & Hdirs).
  eexists homeDir, _, b.
  split_and!; [exact Hhome | exact Hm | exact Hdirs | exact Hfile |].
  apply mode_0600_owner_only.
Qed.

(* A document that has its apiVersion and kind is left as it is. *)
Lemma fillDefaults_id (k : Kubeconfig.t Value) :
  Kubeconfig.APIVersion k ≠ "" → Kubeconfig.Kind k ≠ "" → fillDefaults k = k.
Proof.
  intros Hv Hk. destruct k. unfold fillDefaults. simpl in *.
  rewrite !decide_False by assumption. reflexivity.
Qed.

(* What loadKubeconfig returns has its apiVersion and kind. *)
Lemma loadKubeconfig_Ok_nonempty p w existingKubeconfig w1 :
  loadKubeconfig yaml_Unmarshal p w = (inr existingKubeconfig, w1) →
  Kubeconfig.APIVersion existingKubeconfig ≠ ""
  ∧ Kubeconfig.Kind existingKubeconfig ≠ "".
Proof.
  rewrite loadKubeconfig_eq.
  destruct (os_ReadFile w p) as [err | b].
  - destruct (negb (os_IsNotExist err)); [discriminate |].
    intros [= <- _]. split; discriminate.
  - destruct (yaml_Unmarshal b) as [err | k]; [discriminate |].
    intros [= <- _]. unfold fillDefaults. simpl.
    split; case_decide; solve [assumption | discriminate].
Qed.

(** X3. The loader's normalisation: a file that is read and parsed is loaded
    with every sequence, the preferences and the current context as
    parsed, and with apiVersion and kind as parsed when they are there,
    v1 and Config when they are empty; the world is only read. *)
Theorem loadKubeconfig_fills_defaults p w b k :
  os_ReadFile w p = inr b →
  yaml_Unmarshal b = inr k →
  ∃ d, loadKubeconfig yaml_Unmarshal p w = (inr d, w)
       ∧ Kubeconfig.APIVersion d
         = (if decide (Kubeconfig.APIVersion k = "") then "v1"
            else Kubeconfig.APIVersion k)
       ∧ Kubeconfig.Kind d
         = (if decide (Kubeconfig.Kind k = "") then "Config" else Kubeconfig.Kind k)
       ∧ Kubeconfig.APIVersion d ≠ "" ∧ Kubeconfig.Kind d ≠ ""
       ∧ Kubeconfig.Clusters d = Kubeconfig.Clusters k
       ∧ Kubeconfig.Contexts d = Kubeconfig.Contexts k
       ∧ Kubeconfig.Users d = Kubeconfig.Users k
       ∧ Kubeconfig.Preferences d = Kubeconfig.Preferences k
       ∧ Kubeconfig.CurrentContext d = Kubeconfig.CurrentContext k.
Proof.
  intros Hread Hparse.
  assert (Hload : loadKubeconfig yaml_Unmarshal p w = (inr (fillDefaults k), w))
    by (rewrite loadKubeconfig_eq, Hread, Hparse; reflexivity).
  exists (fillDefaults k). split; [exact Hload |].
  destruct (loadKubeconfig_Ok_nonempty _ _ _ _ Hload) as [Hv Hk].
  split_and!; solve [reflexivity | assumption].
Qed.



(** X6. A kubeconfig that cannot be read, for another reason than its absence,
    is fatal: getKubeconfig returns the read error for the path, and the
    world is the one before the call. *)
Theorem unreadable_file_rejected h args w resp homeDir e :
  let a := withDefaults h args in
  let p := kubeconfigPathOf homeDir in
  getKubeconfigArgs.Name a ≠ "" →
  ClusterManagerClient.GetCluster (cmClient h) (requestName a) = inr resp →
  containerpb.GetClusterCaCertificate resp ≠ "" →
  containerpb.GetEndpoint resp ≠ "" →
  HOME w = Some homeDir →
  os_ReadFile w p = inl e →
  os_IsNotExist e = false →
  getKubeconfig yaml_Unmarshal yaml_Marshal h args w = (inl (ErrReadFile p e), w).
Proof.
  intros a p Hname Hresp Hcert Hep Hhome Hread He.
  rewrite (getKubeconfig_validated h args w resp homeDir) by assumption.
  fold p. rewrite loadKubeconfig_eq, Hread, He. reflexivity.
Qed.


(** X2. What a successful getKubeconfig leaves in ~/.kube/config: the
    marshalled merge of the new entries into the document it loaded. *)
Theorem getKubeconfig_writes_merged h args w msg w' :
  getKubeconfig yaml_Unmarshal yaml_Marshal h args w = (inr msg, w') →
  let a := withDefaults h args in
  ∃ resp homeDir existingKubeconfig b,
    ClusterManagerClient.GetCluster (cmClient h) (requestName a) = inr resp
    ∧ HOME w = Some homeDir
    ∧ loadKubeconfig yaml_Unmarshal (kubeconfigPathOf homeDir) w
      = (inr existingKubeconfig, w)
    ∧ yaml_Marshal
        (mergeKubeconfig (newClusterNameOf a)
           (containerpb.GetClusterCaCertificate resp)
           (ensureHTTPS (containerpb.GetEndpoint resp))
           existingKubeconfig)
      = inr b
    ∧ os_ReadFile w' (kubeconfigPathOf homeDir) = inr b
    ∧ msg = successText a (kubeconfigPathOf homeDir) (newClusterNameOf a).
Proof.
  intros Hrun a.
  apply getKubeconfig_Ok_inv in Hrun
    as (resp & homeDir & existing & b & _ & Hresp & _ & _ & Hhome & Hload & Hm & Hwr & Hmsg).
  apply writeKubeconfig_Ok in Hwr as (_ & Hfile & _).
  exists resp, homeDir, existing, b.
  split_and!; try assumption.
  unfold os_ReadFile. rewrite Hfile. reflexivity.
Qed.

(** X1. The whole operation is idempotent when the codec reads back what it
    writes: a second getKubeconfig with the same arguments, on the world
    the first one left, succeeds with the same text and leaves that world
    as it is, file content and mode included. *)
Theorem getKubeconfig_idempotent h args w msg w' :
  (∀ d b, yaml_Marshal d = inr b → yaml_Unmarshal b = inr d) →
  getKubeconfig yaml_Unmarshal yaml_Marshal h args w = (inr msg, w') →
  getKubeconfig yaml_Unmarshal yaml_Marshal h args w' = (inr msg, w').
Proof.
  intros Hrt Hrun.
  apply getKubeconfig_Ok_inv in Hrun
    as (resp & homeDir & existing & b & Hname & Hresp & Hcert & Hep & Hhome
        & Hload & Hm & Hwr & ->).
  apply loadKubeconfig_Ok_nonempty in Hload as [Hv Hk].
  apply writeKubeconfig_Ok in Hwr as ((Humask & Hhome' & Hro' & Hro) & Hfile & _).
  rewrite Hhome in Hhome'.
  rewrite (getKubeconfig_validated h args w' resp homeDir) by assumption.
  rewrite loadKubeconfig_eq. unfold os_ReadFile at 1. rewrite Hfile.
  rewrite (Hrt _ _ Hm).
  rewrite fillDefaults_id by assumption.
  rewrite mergeKubeconfig_twice, Hm.
  rewrite writeKubeconfig_eq.
  assert (Hdir : ∃ nd, os_Stat w' (filepath_Dir (kubeconfigPathOf homeDir)) = inr nd).
  { unfold os_Stat in *. unfold kubeconfigPathOf, filepath_Join, filepath_Dir in *.
    change (homeDir ++ [".kube"; "config"]) with (homeDir ++ [".kube"] ++ ["config"]) in *.
    rewrite app_assoc in *. rewrite removelast_last.
    eapply lookupPath_prefix_found, Hfile. }
  destruct Hdir as [nd ->].
  unfold os_WriteFile. unfold os_Stat in Hfile.
  rewrite (writeFile_same _ _ _ _ _ _ Hfile), Hro'.
  destruct w'; simpl in *; subst; reflexivity.
Qed.

End Pipeline.

(* --------------------------------------------------------------------- *)
(* 10a. What getKubeconfig leaves alone                                  *)
(* --------------------------------------------------------------------- *)

Section Frame.

Implicit Types (t child : node) (p q : path) (u perm : FileMode) (w : world).

(* A path that has parted ways with another has a component left. *)
Lemma diverges_cons_inv p q :
  diverges p q = true → ∃ b q', q = b :: q'.
Proof. destruct p, q; simpl; try discriminate. eauto. Qed.

(* Where the last component of p is the one that differs, q lies below
   the directory of p. *)
Lemma diverges_snoc dir name q :
  diverges (dir ++ [name]) q = true →
  diverges dir q = true ∨ ∃ b q', q = dir ++ b :: q' ∧ b ≠ name.
Proof.
  revert q. induction dir as [| a dir IH]; intros q; simpl.
  - destruct q as [| b q']; [discriminate |].
    destruct (decide (name = b)) as [-> | Hne].
    + destruct q'; discriminate.
    + intros _. right. exists b, q'. split; [reflexivity | congruence].
  - destruct q as [| b q']; [discriminate |].
    destruct (decide (a = b)) as [-> | Hne]; [| intros _; left; reflexivity].
    intros H. destruct (IH q' H) as [Hd | (b' & q'' & -> & Hb)].
    + left. exact Hd.
    + right. exists b', q''. split; [reflexivity | exact Hb].
Qed.

(* WriteFile changes nothing at a path that has parted ways with its own. *)
Lemma writeFile_frame u perm data t p t' q :
  writeFile u perm data t p = inr t' → diverges p q = true →
  lookupPath t' q = lookupPath t q.
Proof.
  revert t t' q. induction p as [| a p IH]; intros t t' q; simpl; [discriminate |].
  destruct q as [| b q]; [discriminate |].
  destruct t as [? ? | m entries]; [discriminate |].
  destruct (decide (a = b)) as [<- | Hne].
  - destruct (entries !! a) as [child |] eqn:Ha.
    + destruct (writeFile u perm data child p) as [e | child'] eqn:Hchild;
        [discriminate |].
      intros [= <-] Hd. simpl. rewrite lookup_insert_eq, Ha. eapply IH; eassumption.
    + destruct p; [discriminate |]. discriminate.
  - intros Hwr _.
    assert (∃ x, t' = Dir m (<[a := x]> entries)) as [x ->].
    { destruct (entries !! a) as [child |].
      - destruct (writeFile u perm data child p); [discriminate |].
        injection Hwr as <-. eauto.
      - destruct p; [| discriminate]. injection Hwr as <-. eauto. }
    simpl. rewrite lookup_insert_ne by assumption. reflexivity.
Qed.

(* So does MkdirAll. *)
Lemma mkdirAll_frame u perm t p t' q :
  mkdirAll u perm t p = inr t' → diverges p q = true →
  lookupPath t' q = lookupPath t q.
Proof.
  revert t t' q. induction p as [| a p IH]; intros t t' q; simpl; [discriminate |].
  destruct q as [| b q]; [discriminate |].
  destruct t as [? ? | m entries]; [discriminate |].
  destruct (mkdirAll u perm _ p) as [e | child'] eqn:Hchild; [discriminate |].
  intros [= <-].
  destruct (decide (a = b)) as [<- | Hne].
  - intros Hd. simpl. rewrite lookup_insert_eq.
    rewrite (IH _ _ _ Hchild Hd).
    destruct (entries !! a) as [child |]; [reflexivity |].
    destruct (diverges_cons_inv _ _ Hd) as (b & q' & ->).
    simpl. rewrite lookup_empty. reflexivity.
  - intros _. simpl. rewrite lookup_insert_ne by assumption. reflexivity.
Qed.

(* MkdirAll changes nothing below the directory it is asked for. *)
Lemma mkdirAll_below u perm t p t' b q :
  mkdirAll u perm t p = inr t' →
  lookupPath t' (p ++ b :: q) = lookupPath t (p ++ b :: q).
Proof.
  revert t t'. induction p as [| a p IH]; intros t t'; simpl.
  - destruct t; [discriminate |]. intros [= <-]. reflexivity.
  - destruct t as [? ? | m entries]; [discriminate |].
    destruct (mkdirAll u perm _ p) as [e | child'] eqn:Hchild; [discriminate |].
    intros [= <-]. rewrite lookup_insert_eq, (IH _ _ Hchild).
    destruct (entries !! a) as [child |]; [reflexivity |].
    destruct p; simpl; rewrite lookup_empty; reflexivity.
Qed.

(* A path that is no prefix of another has parted ways with it, or lies
   below it. *)
Lemma not_prefix_cases p q :
  ¬ q `prefix_of` p → diverges p q = true ∨ ∃ b r, q = p ++ b :: r.
Proof.
  revert q. induction p as [| a p IH]; intros q Hq.
  - destruct q as [| b r]; [destruct Hq; apply prefix_nil |].
    right. exists b, r. reflexivity.
  - destruct q as [| b r]; [destruct Hq; apply prefix_nil |]. simpl.
    destruct (decide (a = b)) as [<- | Hne]; [| left; reflexivity].
    destruct (IH r) as [Hd | (b' & r' & ->)].
    + intros Hpre. apply Hq. apply prefix_cons. exact Hpre.
    + left. exact Hd.
    + right. exists b', r'. reflexivity.
Qed.

(* MkdirAll changes only the directories that lead to the one it is asked
   for, and that one. *)
Lemma mkdirAll_other u perm t p t' q :
  mkdirAll u perm t p = inr t' → ¬ q `prefix_of` p →
  lookupPath t' q = lookupPath t q.
Proof.
  intros Hmk Hq. destruct (not_prefix_cases p q Hq) as [Hd | (b & r & ->)].
  - eapply mkdirAll_frame; eassumption.
  - eapply mkdirAll_below; eassumption.
Qed.

(* What MkdirAll was asked for is a directory afterwards. *)
Lemma mkdirAll_is_dir u perm t p t' :
  mkdirAll u perm t p = inr t' → ∃ m entries, lookupPath t' p = inr (Dir m entries).
Proof.
  revert t t'. induction p as [| a p IH]; intros t t'; simpl.
  - destruct t as [? ? | m entries]; [discriminate |]. intros [= <-]. eauto.
  - destruct t as [? ? | m entries]; [discriminate |].
    destruct (mkdirAll u perm _ p) as [e | child'] eqn:Hchild; [discriminate |].
    intros [= <-]. rewrite lookup_insert_eq. eapply IH. eassumption.
Qed.

(* MkdirAll makes directories only: the files are the same before and
   after. *)
Lemma mkdirAll_files u perm t p t' q data m :
  mkdirAll u perm t p = inr t' →
  lookupPath t' q = inr (File data m) ↔ lookupPath t q = inr (File data m).
Proof.
  intros Hmk. destruct (decide (q `prefix_of` p)) as [Hpre | Hpre].
  2:{ rewrite (mkdirAll_other _ _ _ _ _ _ Hmk Hpre). reflexivity. }
  destruct Hpre as [r ->].
  revert t t' Hmk. induction q as [| a q IH]; intros t t'; simpl.
  - destruct r as [| b r]; simpl.
    + destruct t; [discriminate |]. intros [= <-]. reflexivity.
    + destruct t as [? ? | m0 entries]; [discriminate |].
      destruct (mkdirAll u perm _ r); [discriminate |]. intros [= <-].
      split; discriminate.
  - destruct t as [? ? | m0 entries]; [discriminate |].
    destruct (mkdirAll u perm _ (q ++ r)) as [e | child'] eqn:Hchild; [discriminate |].
    intros [= <-]. rewrite lookup_insert_eq, (IH _ _ Hchild).
    destruct (entries !! a) as [child |]; [reflexivity |].
    destruct q; simpl; [| rewrite lookup_empty]; split; discriminate.
Qed.

(* So does it keep every directory a directory, with its mode. *)
Lemma mkdirAll_keeps_dirs u perm t p t' q m entries :
  mkdirAll u perm t p = inr t' → lookupPath t q = inr (Dir m entries) →
  ∃ entries', lookupPath t' q = inr (Dir m entries').
Proof.
  intros Hmk Hq. destruct (decide (q `prefix_of` p)) as [Hpre | Hpre].
  2:{ rewrite (mkdirAll_other _ _ _ _ _ _ Hmk Hpre). eauto. }
  destruct Hpre as [r ->].
  revert t t' Hmk Hq. induction q as [| a q IH]; intros t t'; simpl.
  - intros Hmk [= ->]. destruct (mkdirAll_root _ _ _ _ _ _ Hmk) as [entries' ->]. eauto.
  - destruct t as [? ? | m0 entries0]; [discriminate |].
    destruct (mkdirAll u perm _ (q ++ r)) as [e | child'] eqn:Hchild; [discriminate |].
    intros [= <-]. rewrite lookup_insert_eq.
    destruct (entries0 !! a) as [child |]; [| discriminate].
    intros Hq. eapply IH; eassumption.
Qed.

(* WriteFile changes no other file, and makes none. *)
Lemma writeFile_files u perm data t p t' q data' m :
  writeFile u perm data t p = inr t' → q ≠ p →
  lookupPath t' q = inr (File data' m) ↔ lookupPath t q = inr (File data' m).
Proof.
  revert t t' q. induction p as [| a p IH]; intros t t' q; simpl.
  - destruct t as [old mo | ? ?]; [| discriminate]. intros [= <-] Hq.
    destruct q; [congruence |]. simpl. reflexivity.
  - destruct t as [? ? | m0 entries]; [discriminate |].
    intros Hwr Hq. destruct q as [| b q].
    { assert (∃ x, t' = Dir m0 x) as [x ->].
      { destruct (entries !! a) as [child |].
        - destruct (writeFile u perm data child p); [discriminate |].
          injection Hwr as <-. eauto.
        - destruct p; [| discriminate]. injection Hwr as <-. eauto. }
      simpl. split; discriminate. }
    destruct (decide (a = b)) as [<- | Hne].
    + assert (Hq' : q ≠ p) by congruence.
      destruct (entries !! a) as [child |] eqn:Ha.
      * destruct (writeFile u perm data child p) as [e | child'] eqn:Hchild;
          [discriminate |].
        injection Hwr as <-. simpl. rewrite lookup_insert_eq, Ha.
        eapply IH; eassumption.
      * destruct p; [| discriminate]. injection Hwr as <-. simpl.
        rewrite lookup_insert_eq, Ha.
        destruct q; [congruence |]. simpl. split; discriminate.
    + assert (∃ x, t' = Dir m0 (<[a := x]> entries)) as [x ->].
      { destruct (entries !! a) as [child |].
        - destruct (writeFile u perm data child p); [discriminate |].
          injection Hwr as <-. eauto.
        - destruct p; [| discriminate]. injection Hwr as <-. eauto. }
      simpl. rewrite lookup_insert_ne by assumption. reflexivity.
Qed.

(* And it keeps every directory a directory, with its mode. *)
Lemma writeFile_dirs u perm data t p t' q m entries :
  writeFile u perm data t p = inr t' → lookupPath t q = inr (Dir m entries) →
  ∃ entries', lookupPath t' q = inr (Dir m entries').
Proof.
  revert t t' q. induction p as [| a p IH]; intros t t' q; simpl.
  - destruct t as [old mo | ? ?]; [| discriminate]. intros [= <-].
    destruct q; simpl; discriminate.
  - destruct t as [? ? | m0 entries0]; [discriminate |].
    intros Hwr Hq.
    assert (∃ x, t' = Dir m0 (<[a := x]> entries0)) as [x Ht'].
    { destruct (entries0 !! a) as [child |].
      - destruct (writeFile u perm data child p); [discriminate |].
        injection Hwr as <-. eauto.
      - destruct p; [| discriminate]. injection Hwr as <-. eauto. }
    destruct q as [| b q].
    { injection Hq as -> ->. rewrite Ht'. simpl. eauto. }
    simpl in Hq. destruct (decide (a = b)) as [<- | Hne].
    + destruct (entries0 !! a) as [child |] eqn:Ha; [| discriminate].
      destruct (writeFile u perm data child p) as [e | child'] eqn:Hchild;
        [discriminate |].
      injection Hwr as <-. simpl. rewrite lookup_insert_eq.
      eapply IH; eassumption.
    + rewrite Ht'. simpl. rewrite lookup_insert_ne by assumption.
      destruct (entries0 !! b); [| discriminate]. eauto.
Qed.

(* writeKubeconfig, however it ends, leaves every path that has parted
   ways with the kubeconfig's as it was, and the umask, $HOME and the file
   system's readiness with it. *)
Lemma writeKubeconfig_frame dir name b w r w' q :
  writeKubeconfig (dir ++ [name]) b w = (r, w') →
  diverges (dir ++ [name]) q = true →
  os_Stat w' q = os_Stat w q
  ∧ umask w' = umask w ∧ HOME w' = HOME w ∧ readOnly w' = readOnly w.
Proof.
  rewrite writeKubeconfig_eq. unfold filepath_Dir. rewrite removelast_last.
  intros Hrun Hd.
  assert (Hwrite : ∀ w0 w1,
    os_WriteFile w0 (dir ++ [name]) b mode_0600 = inr w1 →
    os_Stat w1 q = os_Stat w0 q
    ∧ umask w1 = umask w0 ∧ HOME w1 = HOME w0 ∧ readOnly w1 = readOnly w0).
  { intros w0 w1 Hwr. apply os_WriteFile_Ok in Hwr as (_ & t' & Hwr & ->).
    unfold os_Stat. simpl. split; [| repeat split].
    eapply writeFile_frame; eassumption. }
  assert (Hmkdir : ∀ w1,
    os_Stat w dir = inl ENOENT →
    os_MkdirAll w dir mode_0755 = inr w1 →
    os_Stat w1 q = os_Stat w q
    ∧ umask w1 = umask w ∧ HOME w1 = HOME w ∧ readOnly w1 = readOnly w).
  { intros w1 Hmissing Hmk.
    apply os_MkdirAll_Ok in Hmk as (_ & t1 & Hmk & ->); [| exact Hmissing].
    unfold os_Stat in *. simpl. split; [| repeat split].
    destruct (diverges_snoc _ _ _ Hd) as [Hd' | (b0 & q' & -> & _)].
    - eapply mkdirAll_frame; eassumption.
    - eapply mkdirAll_below; eassumption. }
  destruct (os_Stat w dir) as [[] | nd] eqn:Hdir.
  1:{ destruct (os_MkdirAll w dir mode_0755) as [e | w1] eqn:Hmk.
      { injection Hrun as _ <-. repeat split. }
      destruct (Hmkdir w1 eq_refl eq_refl) as (H1 & H2 & H3 & H4).
      destruct (os_WriteFile w1 (dir ++ [name]) b mode_0600) as [e | w2] eqn:Hwr.
      { injection Hrun as _ <-. repeat split; assumption. }
      injection Hrun as _ <-.
      destruct (Hwrite w1 w2 Hwr) as (H1' & H2' & H3' & H4').
      repeat split; congruence. }
  all: destruct (os_WriteFile w (dir ++ [name]) b mode_0600) as [e | w2] eqn:Hwr;
    [injection Hrun as _ <-; repeat split
    | injection Hrun as _ <-; apply Hwrite; assumption].
Qed.

End Frame.

Section PipelineFrame.

Context {Value : Type}.
Variable yaml_Unmarshal : bytes → string + Kubeconfig.t Value.
Variable yaml_Marshal : Kubeconfig.t Value → string + bytes.

(* The world getKubeconfig leaves is the one it found, or the one
   writeKubeconfig left. *)
Lemma getKubeconfig_world h args w r w' :
  getKubeconfig yaml_Unmarshal yaml_Marshal h args w = (r, w') →
  w' = w
  ∨ ∃ homeDir b r',
      HOME w = Some homeDir
      ∧ writeKubeconfig (kubeconfigPathOf homeDir) b w = (r', w').
Proof.
  intros Hrun. set (a := withDefaults h args).
  destruct (decide (getKubeconfigArgs.Name a = "")) as [Hname | Hname].
  { unfold getKubeconfig in Hrun. fold a in Hrun.
    rewrite decide_True in Hrun by assumption. injection Hrun as _ <-. left. reflexivity. }
  destruct (ClusterManagerClient.GetCluster (cmClient h) (requestName a))
    as [err | resp] eqn:Hresp.
  { unfold getKubeconfig in Hrun. fold a in Hrun.
    rewrite decide_False, Hresp in Hrun by assumption.
    injection Hrun as _ <-. left. reflexivity. }
  destruct (decide (containerpb.GetClusterCaCertificate resp = "")) as [Hcert | Hcert].
  { unfold getKubeconfig in Hrun. fold a in Hrun.
    rewrite decide_False, Hresp, decide_True in Hrun by assumption.
    injection Hrun as _ <-. left. reflexivity. }
  destruct (decide (containerpb.GetEndpoint resp = "")) as [Hep | Hep].
  { unfold getKubeconfig in Hrun. fold a in Hrun.
    rewrite decide_False, Hresp, decide_False, decide_True in Hrun by assumption.
    injection Hrun as _ <-. left. reflexivity. }
  destruct (HOME w) as [homeDir |] eqn:Hhome.
  2:{ unfold getKubeconfig in Hrun. fold a in Hrun.
      rewrite decide_False, Hresp, !decide_False in Hrun by assumption.
      unfold bind at 1, ask, os_UserHomeDir in Hrun. rewrite Hhome in Hrun.
      injection Hrun as _ <-. left. reflexivity. }
  rewrite (getKubeconfig_validated yaml_Unmarshal yaml_Marshal h args w resp homeDir)
    in Hrun by assumption.
  fold a in Hrun.
  pose proof (loadKubeconfig_eq yaml_Unmarshal (kubeconfigPathOf homeDir) w) as Hl.
  destruct (loadKubeconfig yaml_Unmarshal (kubeconfigPathOf homeDir) w)
    as [[e0 | existingKubeconfig] w1].
  { injection Hl as _ ->. injection Hrun as _ <-. left. reflexivity. }
  injection Hl as _ ->.
  destruct (yaml_Marshal _) as [err | b]; [injection Hrun as _ <-; left; reflexivity |].
  right. exists homeDir, b.
  destruct (writeKubeconfig (kubeconfigPathOf homeDir) b w) as [[e | []] w2] eqn:Hwr;
    injection Hrun as _ <-; eauto.
Qed.

(** X10. getKubeconfig touches nothing but the kubeconfig and the
    directories that lead to it: whether it succeeds or fails, every path
    that parts ways with ~/.kube/config (neither a directory above it nor
    the file itself) answers Stat after the call as it did before, the
    content of files included, and the umask and $HOME are the same. *)
Theorem getKubeconfig_leaves_other_paths h args w r w' homeDir q :
  getKubeconfig yaml_Unmarshal yaml_Marshal h args w = (r, w') →
  HOME w = Some homeDir →
  diverges (kubeconfigPathOf homeDir) q = true →
  os_Stat w' q = os_Stat w q
  ∧ os_ReadFile w' q = os_ReadFile w q
  ∧ umask w' = umask w ∧ HOME w' = HOME w.
Proof.
  intros Hrun Hhome Hd.
  destruct (getKubeconfig_world h args w r w' Hrun)
    as [-> | (homeDir' & b & r' & Hhome' & Hwr)]; [repeat split |].
  rewrite Hhome in Hhome'. injection Hhome' as <-.
  unfold kubeconfigPathOf, filepath_Join in *.
  change (homeDir ++ [".kube"; "config"]) with (homeDir ++ [".kube"] ++ ["config"]) in *.
  rewrite app_assoc in *.
  destruct (writeKubeconfig_frame _ _ _ _ _ _ _ Hwr Hd) as (Hs & Hu & Hh & _).
  unfold os_ReadFile. rewrite Hs. repeat split; assumption.
Qed.

End PipelineFrame.

Section Names.

Implicit Types (s r p l c : string).

(* A common beginning can be dropped from both sides. *)
Lemma append_inv_head s r1 r2 : s +:+ r1 = s +:+ r2 → r1 = r2.
Proof.
  induction s as [| a s IH]; intros H; [exact H |].
  change (String a (s +:+ r1) = String a (s +:+ r2)) in H.
  injection H as H. exact (IH H).
Qed.

(* The first underscore of a string is where it is: two ways of cutting
   a string before an underscore, with no underscore before the cut, are
   the same way. *)
Lemma cut_at_underscore s1 r1 s2 r2 :
  hasChar underscore s1 = false → hasChar underscore s2 = false →
  s1 +:+ "_" +:+ r1 = s2 +:+ "_" +:+ r2 →
  s1 = s2 ∧ r1 = r2.
Proof.
  revert s2. induction s1 as [| c1 s1 IH]; intros [| c2 s2]; simpl.
  - intros _ _ H. change (String underscore r1 = String underscore r2) in H.
    injection H as ->. split; reflexivity.
  - intros _ H2 H.
    change (String underscore r1 = String c2 (s2 +:+ "_" +:+ r2)) in H.
    injection H as Hc _. rewrite decide_True in H2 by exact Hc. discriminate.
  - intros H1 _ H.
    change (String c1 (s1 +:+ "_" +:+ r1) = String underscore r2) in H.
    injection H as Hc _. rewrite decide_True in H1 by (symmetry; exact Hc).
    discriminate.
  - intros H1 H2 H.
    change (String c1 (s1 +:+ "_" +:+ r1) = String c2 (s2 +:+ "_" +:+ r2)) in H.
    injection H as -> Heq.
    destruct (decide (underscore = c2)); [discriminate |].
    destruct (IH s2 H1 H2 Heq) as [-> ->]. split; reflexivity.
Qed.

(** X11. The derived name tells clusters apart: when project ids and
    locations hold no underscore (as Google Cloud's do), two identities
    with the same name gke_<projectID>_<location>_<clusterName> are the
    same identity, so merges for different clusters never land on each
    other's entries. *)
Theorem gkeName_injective p l c p' l' c' :
  hasChar underscore p = false → hasChar underscore l = false →
  hasChar underscore p' = false → hasChar underscore l' = false →
  gkeName p l c = gkeName p' l' c' →
  p = p' ∧ l = l' ∧ c = c'.
Proof.
  intros Hp Hl Hp' Hl' Heq. unfold gkeName in Heq.
  apply append_inv_head in Heq.
  apply cut_at_underscore in Heq as [-> Heq]; [| assumption ..].
  apply cut_at_underscore in Heq as [-> ->]; [| assumption ..].
  repeat split.
Qed.

End Names.

(* --------------------------------------------------------------------- *)
(* 10b. get_cluster and get_kubeconfig ask for the same cluster          *)
(* --------------------------------------------------------------------- *)

Section Lookup.

Context {Value : Type}.
Variable yaml_Unmarshal : bytes → string + Kubeconfig.t Value.
Variable yaml_Marshal : Kubeconfig.t Value → string + bytes.
Variable protojson_Format_cluster : containerpb.Cluster → string.

(** X12. get_cluster and get_kubeconfig look the cluster up in the same
    way. Where get_cluster rejects the arguments for their empty name, so
    does get_kubeconfig; where get_cluster returns the client's error,
    get_kubeconfig fails with that error wrapped in the cluster's name;
    in both cases get_kubeconfig leaves the file system as it was. Where
    get_cluster answers, its text is the formatted cluster whose
    certificate and endpoint get_kubeconfig goes on to check, so that
    get_kubeconfig fails for neither of the two reasons. *)
Theorem getCluster_getKubeconfig_agree h args w :
  match getCluster protojson_Format_cluster h (sameCluster args) with
  | inl ErrNameArgument =>
      getKubeconfig yaml_Unmarshal yaml_Marshal h args w = (inl ErrNameEmpty, w)
  | inl (ErrClient err) =>
      getKubeconfig yaml_Unmarshal yaml_Marshal h args w
      = (inl (ErrGetCluster (getKubeconfigArgs.Name args) err), w)
  | inr text =>
      ∃ resp,
        ClusterManagerClient.GetCluster (cmClient h)
          (requestName (withDefaults h args)) = inr resp
        ∧ text = protojson_Format_cluster resp
        ∧ ∀ r w', getKubeconfig yaml_Unmarshal yaml_Marshal h args w = (r, w') →
            r ≠ inl ErrNameEmpty ∧ ∀ name err, r ≠ inl (ErrGetCluster name err)
  end.
Proof.
  unfold getCluster, getKubeconfig, sameCluster, requestName, withDefaults. simpl.
  destruct (decide (getKubeconfigArgs.Name args = "")) as [Hname | Hname];
    [reflexivity |].
  destruct (ClusterManagerClient.GetCluster _ _) as [err | resp]; [reflexivity |].
  exists resp. split_and!; [reflexivity .. |].
  assert (Hlater : ∀ e : error,
    match e with ErrNameEmpty | ErrGetCluster _ _ => False | _ => True end →
    (@inl error string e ≠ inl ErrNameEmpty)
    ∧ ∀ name err, @inl error string e ≠ inl (ErrGetCluster name err)).
  { intros [] He; destruct He; (split; [| intros ? ?]; discriminate). }
  intros r w'.
  destruct (decide (containerpb.GetClusterCaCertificate resp = ""));
    [intros [= <- _]; apply Hlater; exact I |].
  destruct (decide (containerpb.GetEndpoint resp = ""));
    [intros [= <- _]; apply Hlater; exact I |].
  unfold bind at 1, ask, os_UserHomeDir.
  destruct (HOME w) as [homeDir |];
    [| intros [= <- _]; apply Hlater; exact I].
  unfold bind at 1.
  rewrite (loadKubeconfig_eq yaml_Unmarshal (kubeconfigPathOf homeDir) w).
  destruct (os_ReadFile w (kubeconfigPathOf homeDir)) as [e | b0].
  1: destruct (negb (os_IsNotExist e)); [intros [= <- _]; apply Hlater; exact I |].
  2: destruct (yaml_Unmarshal b0); [intros [= <- _]; apply Hlater; exact I |].
  all: destruct (yaml_Marshal _) as [err | b];
    [intros [= <- _]; apply Hlater; exact I |].
  all: unfold bind at 1;
    rewrite (writeKubeconfig_eq (kubeconfigPathOf homeDir) b w);
    unfold ret;
    destruct (os_Stat w _) as [[] | ?];
    try destruct (os_MkdirAll w _ _) as [? | w1];
    repeat match goal with
    | |- context [os_WriteFile ?w0 ?p ?d ?m] => destruct (os_WriteFile w0 p d m)
    end;
    intros [= <- _];
    first [apply Hlater; exact I | split; [| intros ? ?]; discriminate].
Qed.

End Lookup.

(* --------------------------------------------------------------------- *)
(* 10c. The calls of the file system, on worlds                          *)
(* --------------------------------------------------------------------- *)

Section WorldCalls.

Implicit Types (p q : path) (w : world) (perm m : FileMode) (data : bytes).

Lemma sameEnv_refl w : sameEnv w w.
Proof. repeat split. Qed.

Lemma sameEnv_trans w1 w2 w3 : sameEnv w1 w2 → sameEnv w2 w3 → sameEnv w1 w3.
Proof. unfold sameEnv. intros (? & ? & ?) (? & ? & ?). split_and!; congruence. Qed.

(* A world is its four parts. *)
Lemma world_eta w : mkWorld (root w) (umask w) (HOME w) (readOnly w) = w.
Proof. destruct w. reflexivity. Qed.

(* A file is read as its content. *)
Lemma isFile_read w p data m : isFile w p data m → os_ReadFile w p = inr data.
Proof. unfold isFile, os_ReadFile. intros ->. reflexivity. Qed.

(* What is read is the content of a file. *)
Lemma read_isFile w p data : os_ReadFile w p = inr data → ∃ m, isFile w p data m.
Proof.
  unfold isFile, os_ReadFile.
  destruct (os_Stat w p) as [e | [d m | ? ?]]; try discriminate.
  intros [= ->]. eauto.
Qed.

(* The directory of a path that exists is a directory. *)
Lemma stat_parent_isDir w p name nd :
  os_Stat w (p ++ [name]) = inr nd → isDir w p.
Proof.
  unfold isDir, os_Stat. rewrite lookupPath_app.
  destruct (lookupPath (root w) p) as [e | [? ? | m entries]]; try discriminate.
  eauto.
Qed.

(* MkdirAll, when it succeeds, has done nothing, or MkdirAll on the tree. *)
Lemma os_MkdirAll_inv w p perm w' :
  os_MkdirAll w p perm = inr w' →
  ∃ t', w' = mkWorld t' (umask w) (HOME w) (readOnly w)
        ∧ (t' = root w ∨ mkdirAll (umask w) perm (root w) p = inr t')
        ∧ isDir w' p.
Proof.
  unfold os_MkdirAll, isDir.
  destruct (os_Stat w p) as [e | [? ? | m entries]] eqn:Hst; [| discriminate |].
  - destruct (mkdirAll (umask w) perm (root w) p) as [e' | t'] eqn:Hmk; [discriminate |].
    destruct (readOnly w); [discriminate |]. intros [= <-].
    exists t'. split_and!; [reflexivity | right; reflexivity |].
    unfold os_Stat. simpl. eapply mkdirAll_is_dir. eassumption.
  - intros [= <-]. exists (root w). rewrite world_eta.
    split_and!; [reflexivity | left; reflexivity | eauto].
Qed.

(* MkdirAll on a directory that exists does nothing. *)
Lemma os_MkdirAll_isDir w p perm : isDir w p → os_MkdirAll w p perm = inr w.
Proof. unfold os_MkdirAll. intros (m & entries & ->). reflexivity. Qed.

Lemma os_MkdirAll_env w p perm w' : os_MkdirAll w p perm = inr w' → sameEnv w w'.
Proof.
  intros H. apply os_MkdirAll_inv in H as (t' & -> & _). repeat split.
Qed.

(* MkdirAll changes only the directories that lead to the one it is asked
   for, and that one. *)
Lemma os_MkdirAll_other w p perm w' q :
  os_MkdirAll w p perm = inr w' → ¬ q `prefix_of` p → os_Stat w' q = os_Stat w q.
Proof.
  intros H Hq. apply os_MkdirAll_inv in H as (t' & -> & [-> | Hmk] & _);
    unfold os_Stat; simpl; [reflexivity |].
  eapply mkdirAll_other; eassumption.
Qed.


Lemma os_MkdirAll_files w p perm w' q data m :
  os_MkdirAll w p perm = inr w' → isFile w' q data m ↔ isFile w q data m.
Proof.
  intros H. apply os_MkdirAll_inv in H as (t' & -> & [-> | Hmk] & _);
    unfold isFile, os_Stat; simpl; [reflexivity |].
  eapply mkdirAll_files; eassumption.
Qed.

Lemma os_MkdirAll_dirs w p perm w' q :
  os_MkdirAll w p perm = inr w' → isDir w q → isDir w' q.
Proof.
  intros H (m & entries & Hq).
  apply os_MkdirAll_inv in H as (t' & -> & [-> | Hmk] & _);
    unfold isDir, os_Stat in *; simpl; [eauto |].
  destruct (mkdirAll_keeps_dirs _ _ _ _ _ _ _ _ Hmk Hq) as [entries' ?]. eauto.
Qed.

Lemma os_WriteFile_env w p data perm w' :
  os_WriteFile w p data perm = inr w' → sameEnv w w'.
Proof. intros H. apply os_WriteFile_Ok in H as (_ & t' & _ & ->). repeat split. Qed.

Lemma os_WriteFile_written w p data perm w' :
  os_WriteFile w p data perm = inr w' → ∃ m, isFile w' p data m.
Proof.
  intros H. apply os_WriteFile_Ok in H as (_ & t' & Hwr & ->).
  unfold isFile, os_Stat. simpl. rewrite (writeFile_written _ _ _ _ _ _ Hwr). eauto.
Qed.

(* The mode of a written file: the one it had, or for a new file the one
   asked for less the umask. *)
Lemma os_WriteFile_mode w p data perm w' :
  os_WriteFile w p data perm = inr w' →
  isFile w' p data
    match os_Stat w p with
    | inr (File _ old) => old
    | _ => N.ldiff perm (umask w)
    end.
Proof.
  intros H. apply os_WriteFile_Ok in H as (_ & t' & Hwr & ->).
  unfold isFile, os_Stat. simpl. apply (writeFile_written _ _ _ _ _ _ Hwr).
Qed.

Lemma os_WriteFile_frame w p data perm w' q :
  os_WriteFile w p data perm = inr w' → diverges p q = true →
  os_Stat w' q = os_Stat w q.
Proof.
  intros H Hq. apply os_WriteFile_Ok in H as (_ & t' & Hwr & ->).
  unfold os_Stat. simpl. eapply writeFile_frame; eassumption.
Qed.

Lemma os_WriteFile_files w p data perm w' q data' m :
  os_WriteFile w p data perm = inr w' → q ≠ p →
  isFile w' q data' m ↔ isFile w q data' m.
Proof.
  intros H Hq. apply os_WriteFile_Ok in H as (_ & t' & Hwr & ->).
  unfold isFile, os_Stat. simpl. eapply writeFile_files; eassumption.
Qed.

Lemma os_WriteFile_dirs w p data perm w' q :
  os_WriteFile w p data perm = inr w' → isDir w q → isDir w' q.
Proof.
  intros H (m & entries & Hq). apply os_WriteFile_Ok in H as (_ & t' & Hwr & ->).
  unfold isDir, os_Stat in *. simpl.
  destruct (writeFile_dirs _ _ _ _ _ _ _ _ _ Hwr Hq) as [entries' ?]. eauto.
Qed.

(* Writing a file the content it has changes nothing. *)
Lemma os_WriteFile_same w p data perm m :
  readOnly w = false → isFile w p data m → os_WriteFile w p data perm = inr w.
Proof.
  unfold isFile, os_Stat, os_WriteFile. destruct w as [t u h ro]. simpl.
  intros -> Hp. rewrite (writeFile_same _ _ _ _ _ _ Hp). reflexivity.
Qed.

(* A world that has been written to does not refuse changes. *)
Lemma os_WriteFile_writable w p data perm w' :
  os_WriteFile w p data perm = inr w' → readOnly w' = false.
Proof. intros H. apply os_WriteFile_Ok in H as (Hro & t' & _ & ->). exact Hro. Qed.

(* Paths that differ in a component at the same place have parted ways. *)
Lemma diverges_app_same dir p q : diverges (dir ++ p) (dir ++ q) = diverges p q.
Proof.
  induction dir as [| a dir IH]; [reflexivity |]. simpl.
  rewrite decide_True by reflexivity. exact IH.
Qed.


(* Paths with different last components are different. *)
Lemma last_component_ne p q a b : a ≠ b → p ++ [a] ≠ q ++ [b].
Proof. intros Hne Heq. apply app_inj_tail in Heq as [_ ?]. contradiction. Qed.

End WorldCalls.

(* --------------------------------------------------------------------- *)
(* 10d. Installing into Cursor                                           *)
(* --------------------------------------------------------------------- *)

Section CursorProperties.

Variable json_Unmarshal : bytes → CursorMCPConfig.t → string + CursorMCPConfig.t.
Variable json_MarshalIndent : CursorMCPConfig.t → string + bytes.

Implicit Types (baseDir homeDir mcpDir p q : path) (exePath : string)
  (projectOnlyMode : bool) (w : world).

(* The four paths are four. *)
Lemma mcpPath_not_prefix mcpDir : ¬ mcpPathOf mcpDir `prefix_of` mcpDir.
Proof.
  intros H. apply prefix_length in H. unfold mcpPathOf, filepath_Join in H.
  rewrite length_app in H. simpl in H. lia.
Qed.

Lemma mcpPath_ne_rulePath mcpDir : mcpPathOf mcpDir ≠ rulePathOf mcpDir.
Proof.
  unfold mcpPathOf, rulePathOf, rulesDirOf, filepath_Join.
  apply last_component_ne. discriminate.
Qed.

Lemma geminiPath_ne_mcpPath baseDir mcpDir : geminiPathOf baseDir ≠ mcpPathOf mcpDir.
Proof.
  unfold geminiPathOf, mcpPathOf, filepath_Join.
  change ["pkg"; "install"; "GEMINI.md"] with (["pkg"; "install"] ++ ["GEMINI.md"]).
  rewrite app_assoc. apply last_component_ne. discriminate.
Qed.

Lemma geminiPath_ne_rulePath baseDir mcpDir : geminiPathOf baseDir ≠ rulePathOf mcpDir.
Proof.
  unfold geminiPathOf, rulePathOf, filepath_Join.
  change ["pkg"; "install"; "GEMINI.md"] with (["pkg"; "install"] ++ ["GEMINI.md"]).
  rewrite app_assoc. apply last_component_ne. discriminate.
Qed.

(* Making the configuration directory changes nothing of what is read of
   the configuration. *)
Lemma readConfiguration_stable w mcpDir perm w1 :
  os_MkdirAll w mcpDir perm = inr w1 →
  readConfiguration json_Unmarshal (mcpPathOf mcpDir) w1
  = readConfiguration json_Unmarshal (mcpPathOf mcpDir) w.
Proof.
  intros Hmk. unfold readConfiguration, os_ReadFile.
  rewrite (os_MkdirAll_other _ _ _ _ _ Hmk (mcpPath_not_prefix mcpDir)).
  reflexivity.
Qed.

(* The steps of a run that has returned nil. *)
Lemma CursorMCPExtension_Ok_inv baseDir exePath projectOnlyMode w w' homeDir :
  CursorMCPExtension json_Unmarshal json_MarshalIndent
    baseDir exePath projectOnlyMode w
  = (inr tt, w') →
  HOME w = Some homeDir →
  let mcpDir := mcpDirOf homeDir baseDir projectOnlyMode in
  ∃ w1 servers data w2 w3 geminiContent,
    os_MkdirAll w mcpDir mode_0755 = inr w1
    ∧ readConfiguration json_Unmarshal (mcpPathOf mcpDir) w1 = inr (Some servers)
    ∧ json_MarshalIndent (withGkeServer exePath servers) = inr data
    ∧ os_WriteFile w1 (mcpPathOf mcpDir) data mode_0644 = inr w2
    ∧ os_MkdirAll w2 (rulesDirOf mcpDir) mode_0755 = inr w3
    ∧ os_ReadFile w3 (geminiPathOf baseDir) = inr geminiContent
    ∧ os_WriteFile w3 (rulePathOf mcpDir) (ruleContentOf geminiContent) mode_0644
      = inr w'.
Proof.
  intros Hrun Hhome mcpDir. unfold CursorMCPExtension, os_UserHomeDir in Hrun.
  rewrite Hhome in Hrun. fold mcpDir in Hrun.
  destruct (os_MkdirAll w mcpDir mode_0755) as [e | w1] eqn:H1; [discriminate |].
  change (filepath_Join mcpDir ["mcp.json"]) with (mcpPathOf mcpDir) in Hrun.
  destruct (readConfiguration json_Unmarshal (mcpPathOf mcpDir) w1) as [e | [servers |]] eqn:H2;
    [discriminate | | discriminate].
  fold (withGkeServer exePath servers) in Hrun.
  destruct (json_MarshalIndent (withGkeServer exePath servers)) as [e | data] eqn:H3;
    [discriminate |].
  destruct (os_WriteFile w1 (mcpPathOf mcpDir) data mode_0644) as [e | w2] eqn:H4;
    [discriminate |].
  unfold writeRule in Hrun.
  change (filepath_Join mcpDir ["rules"]) with (rulesDirOf mcpDir) in Hrun.
  destruct (os_MkdirAll w2 (rulesDirOf mcpDir) mode_0755) as [e | w3] eqn:H5;
    [discriminate |].
  change (filepath_Join baseDir ["pkg"; "install"; "GEMINI.md"])
    with (geminiPathOf baseDir) in Hrun.
  destruct (os_ReadFile w3 (geminiPathOf baseDir)) as [e | geminiContent] eqn:H6;
    [discriminate |].
  fold (ruleContentOf geminiContent) in Hrun.
  change (filepath_Join (rulesDirOf mcpDir) ["gke-mcp.mdc"])
    with (rulePathOf mcpDir) in Hrun.
  destruct (os_WriteFile w3 (rulePathOf mcpDir) _ mode_0644) as [e | w4] eqn:H7;
    [discriminate |].
  injection Hrun as <-. exists w1, servers, data, w2, w3, geminiContent.
  split_and!; assumption || reflexivity.
Qed.

(* Whatever holds of each of the four calls that change the file system,
   and goes from step to step, holds of a run, however it ends. *)
Lemma CursorMCPExtension_steps (R : world → world → Prop)
    baseDir exePath projectOnlyMode w r w' homeDir :
  let mcpDir := mcpDirOf homeDir baseDir projectOnlyMode in
  (∀ w0, R w0 w0) →
  (∀ w0 w1 w2, R w0 w1 → R w1 w2 → R w0 w2) →
  (∀ w0 w1, os_MkdirAll w0 mcpDir mode_0755 = inr w1 → R w0 w1) →
  (∀ w0 w1 data, os_WriteFile w0 (mcpPathOf mcpDir) data mode_0644 = inr w1 → R w0 w1) →
  (∀ w0 w1, os_MkdirAll w0 (rulesDirOf mcpDir) mode_0755 = inr w1 → R w0 w1) →
  (∀ w0 w1 data, os_WriteFile w0 (rulePathOf mcpDir) data mode_0644 = inr w1 → R w0 w1) →
  CursorMCPExtension json_Unmarshal json_MarshalIndent
    baseDir exePath projectOnlyMode w
  = (r, w') →
  HOME w = Some homeDir →
  R w w'.
Proof.
  intros mcpDir Hrefl Htrans Hs1 Hs2 Hs3 Hs4 Hrun Hhome.
  unfold CursorMCPExtension, os_UserHomeDir in Hrun.
  rewrite Hhome in Hrun. fold mcpDir in Hrun.
  destruct (os_MkdirAll w mcpDir mode_0755) as [e | w1] eqn:H1;
    [injection Hrun as _ <-; apply Hrefl |].
  apply Hs1 in H1. apply (Htrans _ _ _ H1).
  destruct (readConfiguration _ _ w1) as [e | [servers |]];
    [injection Hrun as _ <-; apply Hrefl | | injection Hrun as _ <-; apply Hrefl].
  destruct (json_MarshalIndent _) as [e | data];
    [injection Hrun as _ <-; apply Hrefl |].
  destruct (os_WriteFile w1 _ data mode_0644) as [e | w2] eqn:H4;
    [injection Hrun as _ <-; apply Hrefl |].
  apply Hs2 in H4. apply (Htrans _ _ _ H4).
  unfold writeRule in Hrun.
  destruct (os_MkdirAll w2 _ mode_0755) as [e | w3] eqn:H5;
    [injection Hrun as _ <-; apply Hrefl |].
  apply Hs3 in H5. apply (Htrans _ _ _ H5).
  destruct (os_ReadFile w3 _) as [e | geminiContent];
    [injection Hrun as _ <-; apply Hrefl |].
  destruct (os_WriteFile w3 _ _ mode_0644) as [e | w4] eqn:H7;
    injection Hrun as _ <-; [apply Hrefl |].
  apply Hs4 in H7. exact H7.
Qed.

(* No run changes the umask, $HOME, or whether the file system refuses
   changes. *)
Lemma CursorMCPExtension_env baseDir exePath projectOnlyMode w r w' homeDir :
  CursorMCPExtension json_Unmarshal json_MarshalIndent
    baseDir exePath projectOnlyMode w
  = (r, w') →
  HOME w = Some homeDir →
  sameEnv w w'.
Proof.
  intros Hrun Hhome.
  apply (CursorMCPExtension_steps sameEnv baseDir exePath projectOnlyMode w r w' homeDir);
    try assumption.
  - apply sameEnv_refl.
  - apply sameEnv_trans.
  - intros w0 w1. apply os_MkdirAll_env.
  - intros w0 w1 data. apply os_WriteFile_env.
  - intros w0 w1. apply os_MkdirAll_env.
  - intros w0 w1 data. apply os_WriteFile_env.
Qed.


(** X14. What a successful CursorMCPExtension leaves behind: mcp.json
    holds the marshalled configuration whose servers are those read from
    the file as it was (none if there was no file) with the entry gke-mcp
    set to the executable and the type stdio, so that every server of
    another name is kept as it was read; the rule file holds the fixed
    heading followed by the content GEMINI.md had before the call. *)
Theorem CursorMCPExtension_installs baseDir exePath projectOnlyMode w w' homeDir :
  CursorMCPExtension json_Unmarshal json_MarshalIndent
    baseDir exePath projectOnlyMode w
  = (inr tt, w') →
  HOME w = Some homeDir →
  let mcpDir := mcpDirOf homeDir baseDir projectOnlyMode in
  ∃ servers data geminiContent,
    readConfiguration json_Unmarshal (mcpPathOf mcpDir) w = inr (Some servers)
    ∧ json_MarshalIndent
        {| CursorMCPConfig.MCPServers :=
             Some (<["gke-mcp" := {| CursorMCPServer.Command := exePath;
                                     CursorMCPServer.Type_ := "stdio" |}]> servers) |}
      = inr data
    ∧ os_ReadFile w (geminiPathOf baseDir) = inr geminiContent
    ∧ os_ReadFile w' (mcpPathOf mcpDir) = inr data
    ∧ os_ReadFile w' (rulePathOf mcpDir)
      = inr (String.list_byte_of_string ruleHeading ++ geminiContent)
    ∧ isDir w' (rulesDirOf mcpDir).
Proof.
  intros Hrun Hhome mcpDir.
  destruct (CursorMCPExtension_Ok_inv _ _ _ _ _ _ Hrun Hhome)
    as (w1 & servers & data & w2 & w3 & g & H1 & H2 & H3 & H4 & H5 & H6 & H7).
  fold mcpDir in H1, H2, H4, H5, H7.
  exists servers, data, g. split_and!.
  - rewrite <- (readConfiguration_stable _ _ _ _ H1). exact H2.
  - exact H3.
  - apply read_isFile in H6 as [m H6].
    apply (os_MkdirAll_files _ _ _ _ _ _ _ H5) in H6.
    apply (os_WriteFile_files _ _ _ _ _ _ _ _ H4 (geminiPath_ne_mcpPath _ _)) in H6.
    apply (os_MkdirAll_files _ _ _ _ _ _ _ H1) in H6.
    eapply isFile_read. eassumption.
  - destruct (os_WriteFile_written _ _ _ _ _ H4) as [m Hm].
    apply (os_MkdirAll_files _ _ _ _ _ _ _ H5) in Hm.
    apply (os_WriteFile_files _ _ _ _ _ _ _ _ H7 (mcpPath_ne_rulePath _)) in Hm.
    eapply isFile_read. eassumption.
  - destruct (os_WriteFile_written _ _ _ _ _ H7) as [m Hm].
    eapply isFile_read. eassumption.
  - eapply os_WriteFile_dirs; [eassumption |].
    apply os_MkdirAll_inv in H5 as (_ & _ & _ & Hd). exact Hd.
Qed.

(** X15. Installing twice is installing once: when what json.MarshalIndent
    writes is read back by json.Unmarshal as the configuration it was
    written from, a second CursorMCPExtension after a successful one
    succeeds too and leaves every file and directory as the first left
    it. *)
Theorem CursorMCPExtension_idempotent baseDir exePath projectOnlyMode w w' homeDir :
  (∀ config data,
     json_MarshalIndent config = inr data →
     json_Unmarshal data {| CursorMCPConfig.MCPServers := Some ∅ |} = inr config) →
  CursorMCPExtension json_Unmarshal json_MarshalIndent
    baseDir exePath projectOnlyMode w
  = (inr tt, w') →
  HOME w = Some homeDir →
  CursorMCPExtension json_Unmarshal json_MarshalIndent
    baseDir exePath projectOnlyMode w'
  = (inr tt, w').
Proof.
  intros Hcodec Hrun Hhome.
  destruct (CursorMCPExtension_Ok_inv _ _ _ _ _ _ Hrun Hhome)
    as (w1 & servers & data & w2 & w3 & g & H1 & H2 & H3 & H4 & H5 & H6 & H7).
  set (mcpDir := mcpDirOf homeDir baseDir projectOnlyMode) in *.
  assert (Hhome' : HOME w' = Some homeDir).
  { destruct (CursorMCPExtension_env _ _ _ _ _ _ _ Hrun Hhome) as (_ & -> & _).
    exact Hhome. }
  assert (Hro : readOnly w' = false) by (eapply os_WriteFile_writable; eassumption).
  assert (D1 : isDir w' mcpDir).
  { eapply os_WriteFile_dirs; [eassumption |].
    eapply os_MkdirAll_dirs; [eassumption |].
    eapply os_WriteFile_dirs; [eassumption |].
    apply os_MkdirAll_inv in H1 as (_ & _ & _ & Hd). exact Hd. }
  assert (D2 : isDir w' (rulesDirOf mcpDir)).
  { eapply os_WriteFile_dirs; [eassumption |].
    apply os_MkdirAll_inv in H5 as (_ & _ & _ & Hd). exact Hd. }
  assert (F1 : ∃ m, isFile w' (mcpPathOf mcpDir) data m).
  { destruct (os_WriteFile_written _ _ _ _ _ H4) as [m Hm]. exists m.
    apply (os_MkdirAll_files _ _ _ _ _ _ _ H5) in Hm.
    apply (os_WriteFile_files _ _ _ _ _ _ _ _ H7 (mcpPath_ne_rulePath _)) in Hm.
    exact Hm. }
  assert (F2 : ∃ m, isFile w' (geminiPathOf baseDir) g m).
  { apply read_isFile in H6 as [m H6]. exists m.
    apply (os_WriteFile_files _ _ _ _ _ _ _ _ H7 (geminiPath_ne_rulePath _ _)) in H6.
    exact H6. }
  destruct F1 as [m1 F1], F2 as [m2 F2].
  destruct (os_WriteFile_written _ _ _ _ _ H7) as [m3 F3].
  unfold CursorMCPExtension, os_UserHomeDir. rewrite Hhome'. fold mcpDir.
  rewrite (os_MkdirAll_isDir _ _ _ D1).
  change (filepath_Join mcpDir ["mcp.json"]) with (mcpPathOf mcpDir).
  unfold readConfiguration. rewrite (isFile_read _ _ _ _ F1).
  unfold isFile in F1. rewrite F1.
  rewrite (Hcodec _ _ H3). simpl.
  rewrite insert_insert_eq. fold (gkeServer exePath).
  change {| CursorMCPConfig.MCPServers := Some (<["gke-mcp" := gkeServer exePath]> servers) |}
    with (withGkeServer exePath servers).
  rewrite H3.
  rewrite (os_WriteFile_same _ _ _ _ m1 Hro F1).
  unfold writeRule.
  change (filepath_Join mcpDir ["rules"]) with (rulesDirOf mcpDir).
  rewrite (os_MkdirAll_isDir _ _ _ D2).
  change (filepath_Join baseDir ["pkg"; "install"; "GEMINI.md"])
    with (geminiPathOf baseDir).
  rewrite (isFile_read _ _ _ _ F2).
  fold (ruleContentOf g).
  change (filepath_Join (rulesDirOf mcpDir) ["gke-mcp.mdc"]) with (rulePathOf mcpDir).
  rewrite (os_WriteFile_same _ _ _ _ m3 Hro F3). reflexivity.
Qed.

(** X16. CursorMCPExtension asks for the home directory before it looks
    at the mode: with $HOME unset it fails, changing nothing, also in the
    project-only mode, where the home directory is not used. *)
Theorem CursorMCPExtension_needs_home baseDir exePath projectOnlyMode w :
  HOME w = None →
  CursorMCPExtension json_Unmarshal json_MarshalIndent
    baseDir exePath projectOnlyMode w
  = (inl ErrHomeDirectory, w).
Proof.
  intros Hhome. unfold CursorMCPExtension, os_UserHomeDir. rewrite Hhome. reflexivity.
Qed.

(** X17. CursorMCPExtension is not all or nothing: a call that fails
    because GEMINI.md cannot be read has by then registered the server,
    mcp.json holding the new configuration, and made the rules directory;
    the rule file is as it was before the call, absent if it was. *)
Theorem CursorMCPExtension_fails_after_registering
    baseDir exePath projectOnlyMode w w' homeDir cause :
  CursorMCPExtension json_Unmarshal json_MarshalIndent
    baseDir exePath projectOnlyMode w
  = (inl (ErrReadGemini cause), w') →
  HOME w = Some homeDir →
  let mcpDir := mcpDirOf homeDir baseDir projectOnlyMode in
  ∃ servers data,
    readConfiguration json_Unmarshal (mcpPathOf mcpDir) w = inr (Some servers)
    ∧ json_MarshalIndent (withGkeServer exePath servers) = inr data
    ∧ os_ReadFile w' (mcpPathOf mcpDir) = inr data
    ∧ isDir w' (rulesDirOf mcpDir)
    ∧ os_ReadFile w' (geminiPathOf baseDir) = inl cause
    ∧ ∀ content m,
        isFile w' (rulePathOf mcpDir) content m ↔ isFile w (rulePathOf mcpDir) content m.
Proof.
  intros Hrun Hhome mcpDir. unfold CursorMCPExtension, os_UserHomeDir in Hrun.
  rewrite Hhome in Hrun. fold mcpDir in Hrun.
  destruct (os_MkdirAll w mcpDir mode_0755) as [e | w1] eqn:H1; [discriminate |].
  change (filepath_Join mcpDir ["mcp.json"]) with (mcpPathOf mcpDir) in Hrun.
  destruct (readConfiguration json_Unmarshal (mcpPathOf mcpDir) w1) as [e | [servers |]] eqn:H2;
    [| | discriminate].
  { unfold readConfiguration in H2.
    destruct (os_Stat w1 _); [discriminate |].
    destruct (os_ReadFile w1 _); [injection H2 as <-; discriminate |].
    destruct (json_Unmarshal _ _); [injection H2 as <-; discriminate | discriminate]. }
  fold (withGkeServer exePath servers) in Hrun.
  destruct (json_MarshalIndent (withGkeServer exePath servers)) as [e | data] eqn:H3;
    [discriminate |].
  destruct (os_WriteFile w1 (mcpPathOf mcpDir) data mode_0644) as [e | w2] eqn:H4;
    [discriminate |].
  unfold writeRule in Hrun.
  change (filepath_Join mcpDir ["rules"]) with (rulesDirOf mcpDir) in Hrun.
  destruct (os_MkdirAll w2 (rulesDirOf mcpDir) mode_0755) as [e | w3] eqn:H5;
    [discriminate |].
  change (filepath_Join baseDir ["pkg"; "install"; "GEMINI.md"])
    with (geminiPathOf baseDir) in Hrun.
  destruct (os_ReadFile w3 (geminiPathOf baseDir)) as [e | geminiContent] eqn:H6.
  2:{ destruct (os_WriteFile w3 _ _ mode_0644); discriminate. }
  injection Hrun as <- <-. exists servers, data. split_and!.
  - rewrite <- (readConfiguration_stable _ _ _ _ H1). exact H2.
  - exact H3.
  - destruct (os_WriteFile_written _ _ _ _ _ H4) as [m Hm].
    apply (os_MkdirAll_files _ _ _ _ _ _ _ H5) in Hm.
    eapply isFile_read. eassumption.
  - apply os_MkdirAll_inv in H5 as (_ & _ & _ & Hd). exact Hd.
  - exact H6.
  - intros content m.
    rewrite (os_MkdirAll_files _ _ _ _ _ _ _ H5).
    rewrite (os_WriteFile_files _ _ _ _ _ _ _ _ H4
               (not_eq_sym (mcpPath_ne_rulePath mcpDir))).
    apply (os_MkdirAll_files _ _ _ _ _ _ _ H1).
Qed.

(* With the configuration file there, its directory is, and making it
   does nothing. *)
Lemma mcpDir_exists w mcpDir data :
  os_ReadFile w (mcpPathOf mcpDir) = inr data →
  os_MkdirAll w mcpDir mode_0755 = inr w
  ∧ ∃ nd, os_Stat w (mcpPathOf mcpDir) = inr nd.
Proof.
  intros Hread. apply read_isFile in Hread as [m Hm]. unfold isFile in Hm. split.
  - apply os_MkdirAll_isDir. eapply stat_parent_isDir. exact Hm.
  - eauto.
Qed.

(** X18. A configuration file that is there and does not parse stops
    CursorMCPExtension before it has changed anything: the call fails
    with the parser's error, and the file, with every other, is as it
    was. *)
Theorem CursorMCPExtension_unparsable baseDir exePath projectOnlyMode w homeDir data err :
  HOME w = Some homeDir →
  let mcpDir := mcpDirOf homeDir baseDir projectOnlyMode in
  os_ReadFile w (mcpPathOf mcpDir) = inr data →
  json_Unmarshal data {| CursorMCPConfig.MCPServers := Some ∅ |} = inl err →
  CursorMCPExtension json_Unmarshal json_MarshalIndent
    baseDir exePath projectOnlyMode w
  = (inl (ErrParseConfiguration err), w).
Proof.
  intros Hhome mcpDir Hread Hparse.
  destruct (mcpDir_exists _ _ _ Hread) as [Hmk [nd Hst]].
  unfold CursorMCPExtension, os_UserHomeDir. rewrite Hhome. fold mcpDir.
  rewrite Hmk. change (filepath_Join mcpDir ["mcp.json"]) with (mcpPathOf mcpDir).
  unfold readConfiguration. rewrite Hst, Hread, Hparse. reflexivity.
Qed.

(** X19. A configuration file whose mcpServers json.Unmarshal sets to the
    nil map, as it does for the JSON value null, makes CursorMCPExtension
    panic on the assignment of the gke-mcp entry instead of returning an
    error; nothing has been written by then. *)
Theorem CursorMCPExtension_null_servers_panics
    baseDir exePath projectOnlyMode w homeDir data :
  HOME w = Some homeDir →
  let mcpDir := mcpDirOf homeDir baseDir projectOnlyMode in
  os_ReadFile w (mcpPathOf mcpDir) = inr data →
  json_Unmarshal data {| CursorMCPConfig.MCPServers := Some ∅ |}
  = inr {| CursorMCPConfig.MCPServers := None |} →
  CursorMCPExtension json_Unmarshal json_MarshalIndent
    baseDir exePath projectOnlyMode w
  = (inl PanicNilMap, w).
Proof.
  intros Hhome mcpDir Hread Hparse.
  destruct (mcpDir_exists _ _ _ Hread) as [Hmk [nd Hst]].
  unfold CursorMCPExtension, os_UserHomeDir. rewrite Hhome. fold mcpDir.
  rewrite Hmk. change (filepath_Join mcpDir ["mcp.json"]) with (mcpPathOf mcpDir).
  unfold readConfiguration. rewrite Hst, Hread, Hparse. reflexivity.
Qed.

(* The rule file lies below the two directories, and has parted ways
   with the configuration. *)
Lemma rulePath_not_prefix_mcpDir mcpDir : ¬ rulePathOf mcpDir `prefix_of` mcpDir.
Proof.
  intros H. apply prefix_length in H.
  unfold rulePathOf, rulesDirOf, filepath_Join in H.
  rewrite !length_app in H. simpl in H. lia.
Qed.

Lemma rulePath_not_prefix_rulesDir mcpDir :
  ¬ rulePathOf mcpDir `prefix_of` rulesDirOf mcpDir.
Proof.
  intros H. apply prefix_length in H.
  unfold rulePathOf, rulesDirOf, filepath_Join in H.
  rewrite !length_app in H. simpl in H. lia.
Qed.

Lemma mcpPath_diverges_rulePath mcpDir :
  diverges (mcpPathOf mcpDir) (rulePathOf mcpDir) = true.
Proof.
  unfold mcpPathOf, rulePathOf, rulesDirOf, filepath_Join.
  rewrite <- app_assoc, diverges_app_same. reflexivity.
Qed.

(** X26. The modes of what CursorMCPExtension writes: after a successful
    call mcp.json and the rule file each have the mode they had before
    the call if they were there, and 0644 less the umask if the call made
    them, so that a configuration made under the usual umask 022 can be
    read by every user. *)
Theorem CursorMCPExtension_modes baseDir exePath projectOnlyMode w w' homeDir :
  CursorMCPExtension json_Unmarshal json_MarshalIndent
    baseDir exePath projectOnlyMode w
  = (inr tt, w') →
  HOME w = Some homeDir →
  let mcpDir := mcpDirOf homeDir baseDir projectOnlyMode in
  let modeAfter (p : path) :=
    match os_Stat w p with
    | inr (File _ old) => old
    | _ => N.ldiff mode_0644 (umask w)
    end in
  (∃ data, isFile w' (mcpPathOf mcpDir) data (modeAfter (mcpPathOf mcpDir)))
  ∧ (∃ content, isFile w' (rulePathOf mcpDir) content (modeAfter (rulePathOf mcpDir))).
Proof.
  intros Hrun Hhome mcpDir modeAfter.
  destruct (CursorMCPExtension_Ok_inv _ _ _ _ _ _ Hrun Hhome)
    as (w1 & servers & data & w2 & w3 & g & H1 & H2 & H3 & H4 & H5 & H6 & H7).
  fold mcpDir in H1, H2, H4, H5, H7.
  destruct (os_MkdirAll_env _ _ _ _ H1) as (Hu1 & _).
  destruct (os_WriteFile_env _ _ _ _ _ H4) as (Hu2 & _).
  destruct (os_MkdirAll_env _ _ _ _ H5) as (Hu3 & _).
  split.
  - exists data. pose proof (os_WriteFile_mode _ _ _ _ _ H4) as Hm.
    rewrite (os_MkdirAll_other _ _ _ _ _ H1 (mcpPath_not_prefix mcpDir)), Hu1 in Hm.
    apply (os_MkdirAll_files _ _ _ _ _ _ _ H5) in Hm.
    apply (os_WriteFile_files _ _ _ _ _ _ _ _ H7 (mcpPath_ne_rulePath _)) in Hm.
    exact Hm.
  - exists (ruleContentOf g). pose proof (os_WriteFile_mode _ _ _ _ _ H7) as Hm.
    rewrite (os_MkdirAll_other _ _ _ _ _ H5 (rulePath_not_prefix_rulesDir mcpDir)) in Hm.
    rewrite (os_WriteFile_frame _ _ _ _ _ _ H4 (mcpPath_diverges_rulePath mcpDir)) in Hm.
    rewrite (os_MkdirAll_other _ _ _ _ _ H1 (rulePath_not_prefix_mcpDir mcpDir)) in Hm.
    rewrite Hu3, Hu2, Hu1 in Hm. exact Hm.
Qed.

End CursorProperties.


(* --------------------------------------------------------------------- *)
(* 10e. get_sample_queries                                               *)
(* --------------------------------------------------------------------- *)

Section SampleQueries.

Implicit Types (q : SampleQuery.t) (queries chosen : list SampleQuery.t)
  (category : string) (filtered : slice SampleQuery.t).

(* Appending nothing changes nothing; appending one, then more, is
   appending all. *)
Lemma append_nil {A} (s : slice A) : append s [] = s.
Proof. destruct s as [l |]; simpl; [rewrite app_nil_r |]; reflexivity. Qed.

Lemma append_cons {A} (s : slice A) (x : A) (elems : list A) :
  append (append s [x]) elems = append s (x :: elems).
Proof.
  destruct s as [l |]; simpl; [rewrite <- app_assoc |]; reflexivity.
Qed.

(* The loop, from what it has so far: the queries of the category are
   appended, in their order. *)
Lemma filter_loop queries category filtered :
  foldl (λ filtered q,
           if decide (SampleQuery.Category q = category)
           then append filtered [q]
           else filtered)
        filtered queries
  = append filtered (filter (λ q, SampleQuery.Category q = category) queries).
Proof.
  revert filtered. induction queries as [| q queries IH]; intros filtered; simpl.
  - rewrite filter_nil, append_nil. reflexivity.
  - rewrite IH, filter_cons.
    destruct (decide (SampleQuery.Category q = category)) as [Hq | Hq].
    + apply append_cons.
    + reflexivity.
Qed.

(** X20. What get_sample_queries marshals: with a category, exactly the
    queries of that category (compared as written, letter for letter), in
    the order of the catalog; with none, the whole catalog; and in both
    cases the nil slice, not an empty one, when there is nothing to
    return. *)
Theorem selectQueries_filter queries category :
  selectQueries queries category
  = match
      (if decide (category = "") then queries
       else filter (λ q, SampleQuery.Category q = category) queries)
    with
    | [] => None
    | chosen => Some chosen
    end.
Proof.
  unfold selectQueries.
  destruct (decide (category = "")) as [Hc | Hc].
  - rewrite decide_False by (intros H; exact (H Hc)).
    destruct queries; reflexivity.
  - rewrite decide_True by exact Hc. rewrite filter_loop.
    destruct (filter _ queries); reflexivity.
Qed.

(* Nothing is found under a category that no query has. *)
Lemma filter_foreign_category queries category (known : list string) :
  Forall (λ q, SampleQuery.Category q ∈ known) queries → category ∉ known →
  filter (λ q, SampleQuery.Category q = category) queries = [].
Proof.
  intros Hall Hc. induction Hall as [| q queries Hq _ IH]; [reflexivity |].
  rewrite filter_cons_False by (intros <-; exact (Hc Hq)). exact IH.
Qed.

(* Every query of the catalog is of one of the six categories. *)
Lemma sampleQueries_categories :
  Forall (λ q, SampleQuery.Category q ∈ categories) sampleQueries.
Proof. apply (bool_decide_unpack _). vm_compute. exact I. Qed.

(** X21. On the catalog, get_sample_queries has nothing to return, and
    marshals the nil slice, exactly for the categories that are not empty
    and not one of Cluster, Pod, Node, Container, Control Plane and
    Namespace as written: a category in other letters (cluster) is not
    found, and no category is an error. *)
Theorem unknown_category_selects_nil category :
  selectQueries sampleQueries category = None
  ↔ category ≠ "" ∧ category ∉ categories.
Proof.
  split.
  - intros Hnil. split.
    + intros ->. vm_compute in Hnil. discriminate.
    + intros Hc. unfold categories in Hc.
      repeat (apply elem_of_cons in Hc as [-> | Hc];
              [vm_compute in Hnil; discriminate |]).
      apply elem_of_nil in Hc. exact Hc.
  - intros [Hne Hc]. rewrite selectQueries_filter.
    rewrite decide_False by exact Hne.
    rewrite (filter_foreign_category _ _ _ sampleQueries_categories Hc).
    reflexivity.
Qed.

End SampleQueries.

(* --------------------------------------------------------------------- *)
(* 10f. list_logs                                                        *)
(* --------------------------------------------------------------------- *)

Section ListLogsProperties.

Context {LogEntry : Type}.
Variable protojson_Format : LogEntry → string.
Variable strconv_Quote : string → string.
Variable range : gmap string string → list (string * string).

(* A range statement goes through every entry of the map once, in an
   order of its choice. *)
Hypothesis range_Permutation : ∀ params, range params ≡ₚ map_to_list params.

Lemma string_app_assoc (s1 s2 s3 : string) : (s1 +:+ s2) +:+ s3 = s1 +:+ s2 +:+ s3.
Proof.
  induction s1 as [| a s1 IH]; [reflexivity |].
  change (String a ((s1 +:+ s2) +:+ s3) = String a (s1 +:+ s2 +:+ s3)).
  rewrite IH. reflexivity.
Qed.

Lemma string_app_empty_r (s : string) : s +:+ "" = s.
Proof.
  induction s as [| a s IH]; [reflexivity |].
  change (String a (s +:+ "") = String a s). rewrite IH. reflexivity.
Qed.

(* Joining with nothing between is appending. *)
Lemma concat_empty_cons (x : string) (xs : list string) :
  String.concat "" (x :: xs) = x +:+ String.concat "" xs.
Proof.
  destruct xs as [| y xs]; simpl; [rewrite string_app_empty_r |]; reflexivity.
Qed.

(* The two orders of the two clauses. *)
Lemma filterForCluster_orders_aux (name location : string) :
  filterForCluster strconv_Quote range name location
  = ("resource.labels.location = " +:+ strconv_Quote location)
      +:+ " AND " +:+ ("resource.labels.cluster_name = " +:+ strconv_Quote name)
  ∨ filterForCluster strconv_Quote range name location
    = ("resource.labels.cluster_name = " +:+ strconv_Quote name)
        +:+ " AND " +:+ ("resource.labels.location = " +:+ strconv_Quote location).
Proof.
  unfold filterForCluster, buildFilter.
  set (params := <["resource.labels.cluster_name" := name]>
                   (<["resource.labels.location" := location]> ∅)).
  assert (Hperm : [("resource.labels.cluster_name", name);
                   ("resource.labels.location", location)] ≡ₚ range params).
  { rewrite range_Permutation. unfold params.
    rewrite map_to_list_insert by reflexivity.
    rewrite map_to_list_insert by reflexivity.
    rewrite map_to_list_empty. reflexivity. }
  apply Permutation_length_2_inv in Hperm as [-> | ->]; [right | left]; reflexivity.
Qed.

(** X22. The filter for a cluster is one of two strings: the clause on
    the location and the clause on the cluster name, each of the form
    key = quoted value, joined by AND in the order in which the range over
    the map of the two happens to go, which the language leaves open. *)
Theorem filterForCluster_orders (name location : string) :
  let byLocation := "resource.labels.location = " +:+ strconv_Quote location in
  let byName := "resource.labels.cluster_name = " +:+ strconv_Quote name in
  filterForCluster strconv_Quote range name location = byLocation +:+ " AND " +:+ byName
  ∨ filterForCluster strconv_Quote range name location = byName +:+ " AND " +:+ byLocation.
Proof.
  intros byLocation byName. apply filterForCluster_orders_aux.
Qed.

(* The loop over the iterator: the error it ends with, or else what the
   builder held followed by the entries, formatted, one after the other. *)
Lemma drain_result (it : LogEntryIterator LogEntry) (builder : string) :
  drain protojson_Format it builder
  = match failureOf it with
    | Some err => NewToolResultError err
    | None =>
        NewToolResultText
          (builder +:+ String.concat "" (protojson_Format <$> entriesOf it))
    end.
Proof.
  revert builder. induction it as [| resp it IH | err]; intros builder;
    cbn [drain failureOf entriesOf].
  - rewrite fmap_nil. simpl. rewrite string_app_empty_r. reflexivity.
  - rewrite IH. destruct (failureOf it) as [err |]; [reflexivity |].
    rewrite fmap_cons, concat_empty_cons, string_app_assoc. reflexivity.
  - reflexivity.
Qed.

(** X23. list_logs answers all or nothing. With a project (given, or the
    default), a location and a cluster name that are not empty, and a
    client, the result is the text of every entry the iterator gives,
    formatted and joined with nothing between them, if the iterator ends
    with Done; if it ends with an error, at the first call or after any
    number of entries, the result is that error alone, and the entries
    read before it are dropped. *)
Theorem listLogs_all_or_nothing (c : Config.t) (oneHourAgo : string)
    (request : CallToolRequest)
    (ListLogEntries : ListLogEntriesRequest.t → LogEntryIterator LogEntry) :
  let projectID := GetString request "project_id" (Config.DefaultProjectID c) in
  let location := RequireString_value request "location" in
  let clusterName := RequireString_value request "cluster_name" in
  projectID ≠ "" → location ≠ "" → clusterName ≠ "" →
  ∃ filter,
    (filter = "resource.labels.location = " +:+ strconv_Quote location
                +:+ " AND resource.labels.cluster_name = " +:+ strconv_Quote clusterName
     ∨ filter = "resource.labels.cluster_name = " +:+ strconv_Quote clusterName
                  +:+ " AND resource.labels.location = " +:+ strconv_Quote location)
    ∧ let it :=
        ListLogEntries
          {| ListLogEntriesRequest.ResourceNames := ["projects/" +:+ projectID];
             ListLogEntriesRequest.Filter :=
               filter +:+ " AND timestamp > " +:+ quote +:+ oneHourAgo +:+ quote;
             ListLogEntriesRequest.PageSize := 100000%N |} in
      listLogs protojson_Format strconv_Quote range (inr ListLogEntries)
        c oneHourAgo request
      = match failureOf it with
        | Some err => NewToolResultError err
        | None =>
            NewToolResultText (String.concat "" (protojson_Format <$> entriesOf it))
        end.
Proof.
  intros projectID location clusterName Hp Hl Hc.
  exists (filterForCluster strconv_Quote range clusterName location). split.
  - destruct (filterForCluster_orders_aux clusterName location) as [-> | ->];
      [left | right]; rewrite !string_app_assoc; reflexivity.
  - intros it. unfold listLogs. fold projectID location clusterName.
    rewrite !decide_False by assumption.
    rewrite drain_result. fold it. reflexivity.
Qed.

End ListLogsProperties.

(* --------------------------------------------------------------------- *)
(* 10g. More on the merge: two clusters, and the order of the entries   *)
(* --------------------------------------------------------------------- *)

Section TwoNames.

Context {A : Type} (name : A → string).

Implicit Types (n m : string) (new x : A) (xs ys pre post : list A).

(* After the loop, the entry it was given is the first of its name. *)
Lemma upsert_firstNamed n new xs : firstNamed name n new (upsert name n new xs).
Proof.
  destruct (first_match_split name n xs) as [Hnone | (pre & x & post & -> & Hpre & Hx)].
  - exists xs, []. rewrite (upsert_absent name n new xs Hnone).
    split; [reflexivity | exact Hnone].
  - exists pre, post. rewrite (upsert_first name n new pre x post Hpre Hx).
    split; [reflexivity | exact Hpre].
Qed.

(* The loop for another name leaves the first entry of a name the first. *)
Lemma upsert_keeps_firstNamed n m new x ys :
  n ≠ m → name new = m → name x = n →
  firstNamed name n x ys → firstNamed name n x (upsert name m new ys).
Proof.
  intros Hnm Hnew Hx (pre & post & -> & Hpre).
  induction Hpre as [| y pre Hy Hpre IH]; simpl.
  - rewrite upsert_cons_ne by congruence.
    exists [], (upsert name m new post). split; [reflexivity | constructor].
  - destruct (decide (name y = m)) as [Hym | Hym].
    + rewrite upsert_cons_eq by exact Hym.
      exists (new :: pre), post. split; [reflexivity |].
      constructor; [congruence | exact Hpre].
    + rewrite upsert_cons_ne by exact Hym.
      destruct IH as (pre' & post' & -> & Hpre').
      exists (y :: pre'), post'. split; [reflexivity |].
      constructor; assumption.
Qed.

(* The loop with the entry that is already the first of its name changes
   nothing. *)
Lemma upsert_firstNamed_id n new ys :
  name new = n → firstNamed name n new ys → upsert name n new ys = ys.
Proof.
  intros Hnew (pre & post & -> & Hpre).
  apply upsert_first; assumption.
Qed.

Lemma firstNamed_elem_of n x ys : firstNamed name n x ys → x ∈ ys.
Proof.
  intros (pre & post & -> & _). apply elem_of_app. right. apply elem_of_cons.
  left. reflexivity.
Qed.

(* The loop for one name, then for another, then for the first again with
   the same entry, is the first two. *)
Lemma upsert_back n m newN newM xs :
  n ≠ m → name newN = n → name newM = m →
  upsert name n newN (upsert name m newM (upsert name n newN xs))
  = upsert name m newM (upsert name n newN xs).
Proof.
  intros Hnm HN HM. apply upsert_firstNamed_id; [exact HN |].
  apply upsert_keeps_firstNamed; try assumption.
  apply upsert_firstNamed.
Qed.

(* The entries of both names are there after the two loops. *)
Lemma upsert_both n m newN newM xs :
  n ≠ m → name newN = n → name newM = m →
  newN ∈ upsert name m newM (upsert name n newN xs)
  ∧ newM ∈ upsert name m newM (upsert name n newN xs).
Proof.
  intros Hnm HN HM. split.
  - eapply firstNamed_elem_of, upsert_keeps_firstNamed; try eassumption.
    apply upsert_firstNamed.
  - eapply firstNamed_elem_of, upsert_firstNamed.
Qed.

End TwoNames.

Section TwoClusters.

Context {Value : Type}.

Implicit Types (d : Kubeconfig.t Value).

(** X24. A second cluster does not push out the first: after the merge
    for one cluster and then the merge for a cluster of another name, the
    document has the cluster, context and user entries built for both,
    and the current context is the second. *)
Theorem merge_two_clusters nA certA epA nB certB epB d :
  nA ≠ nB →
  let d2 := mergeKubeconfig nB certB epB (mergeKubeconfig nA certA epA d) in
  (newCluster nA certA epA ∈ Kubeconfig.Clusters d2
   ∧ newCluster nB certB epB ∈ Kubeconfig.Clusters d2)
  ∧ (newContext nA ∈ Kubeconfig.Contexts d2 ∧ newContext nB ∈ Kubeconfig.Contexts d2)
  ∧ (newUser nA ∈ Kubeconfig.Users d2 ∧ newUser nB ∈ Kubeconfig.Users d2)
  ∧ Kubeconfig.CurrentContext d2 = nB.
Proof.
  intros Hne d2. unfold d2, mergeKubeconfig. simpl.
  split_and!; try reflexivity; apply upsert_both; (assumption || reflexivity).
Qed.

(** X25. Going back to a cluster that is merged already only switches the
    context: after the merges for a first and then a second cluster, the
    merge for the first again, with the same certificate and endpoint,
    changes the current context to the first and nothing else, whatever
    the document held before. *)
Theorem merge_back_switches_context nA certA epA nB certB epB d :
  nA ≠ nB →
  let d2 := mergeKubeconfig nB certB epB (mergeKubeconfig nA certA epA d) in
  mergeKubeconfig nA certA epA d2
  = {| Kubeconfig.APIVersion := Kubeconfig.APIVersion d2;
       Kubeconfig.Clusters := Kubeconfig.Clusters d2;
       Kubeconfig.Contexts := Kubeconfig.Contexts d2;
       Kubeconfig.CurrentContext := nA;
       Kubeconfig.Kind := Kubeconfig.Kind d2;
       Kubeconfig.Preferences := Kubeconfig.Preferences d2;
       Kubeconfig.Users := Kubeconfig.Users d2 |}.
Proof.
  intros Hne d2. unfold d2, mergeKubeconfig. simpl.
  rewrite !upsert_back by (assumption || reflexivity). reflexivity.
Qed.

End TwoClusters.

Section NameOrder.

Context {A : Type} (name : A → string).

Implicit Types (n : string) (new x : A) (xs : list A).

(* The loop keeps the names in their places, and adds its own at the end
   if it was not there. *)
Lemma upsert_names n new xs :
  name new = n →
  name <$> upsert name n new xs
  = if decide (n ∈ name <$> xs) then name <$> xs else (name <$> xs) ++ [n].
Proof.
  intros Hnew. induction xs as [| x xs IH].
  - rewrite upsert_nil, fmap_nil.
    destruct (decide (n ∈ [])) as [Hin | _]; [destruct (not_elem_of_nil _ Hin) |].
    simpl. rewrite Hnew. reflexivity.
  - destruct (decide (name x = n)) as [Hx | Hx].
    + rewrite upsert_cons_eq by exact Hx. rewrite !fmap_cons, Hnew, Hx.
      rewrite decide_True by (apply elem_of_cons; left; reflexivity). reflexivity.
    + rewrite upsert_cons_ne by exact Hx. rewrite !fmap_cons, IH.
      destruct (decide (n ∈ name <$> xs)) as [Hin | Hin].
      * rewrite decide_True by (apply elem_of_cons; right; exact Hin). reflexivity.
      * rewrite decide_False; [reflexivity |].
        intros [Heq | Hin']%elem_of_cons; [congruence | contradiction].
Qed.

End NameOrder.

Section MergeOrder.

Context {Value : Type}.

(** X27. The merge keeps the order of the file: the names of the
    clusters, of the contexts and of the users stand after the merge in
    the places they stood in before, with the merged name added at the
    end of a list that did not have it, so that no entry is moved,
    dropped or inserted in the middle. *)
Theorem merge_keeps_order n cert ep (d : Kubeconfig.t Value) :
  let d' := mergeKubeconfig n cert ep d in
  let after (names : list string) :=
    if decide (n ∈ names) then names else names ++ [n] in
  NamedCluster.Name <$> Kubeconfig.Clusters d'
  = after (NamedCluster.Name <$> Kubeconfig.Clusters d)
  ∧ NamedContext.Name <$> Kubeconfig.Contexts d'
    = after (NamedContext.Name <$> Kubeconfig.Contexts d)
  ∧ NamedAuthInfo.Name <$> Kubeconfig.Users d'
    = after (NamedAuthInfo.Name <$> Kubeconfig.Users d).
Proof.
  intros d' after. unfold d', after, mergeKubeconfig. simpl.
  split_and!; apply upsert_names; reflexivity.
Qed.

End MergeOrder.

(* --------------------------------------------------------------------- *)
(* 11. Worked runs                                                       *)
(* --------------------------------------------------------------------- *)

Example gkeName_demo : gkeName "p1" "us-central1" "demo" = demoName.
Proof. reflexivity. Qed.

Example ensureHTTPS_bare : ensureHTTPS "10.0.0.1:443" = "https://10.0.0.1:443".
Proof. reflexivity. Qed.

Example ensureHTTPS_https : ensureHTTPS "https://10.0.0.1:443" = "https://10.0.0.1:443".
Proof. reflexivity. Qed.

(* Only the literal prefix is looked at. *)
Example ensureHTTPS_http : ensureHTTPS "http://10.0.0.1" = "https://http://10.0.0.1".
Proof. reflexivity. Qed.

(* The stand-in codec reads back what it writes. *)
Lemma demo_codec_roundtrip d b : demo_Marshal d = inr b → demo_Unmarshal b = inr d.
Proof.
  unfold demo_Marshal, demo_Unmarshal.
  destruct (decide (d = demoDoc)) as [-> |]; [| discriminate].
  intros [= <-]. rewrite decide_True by reflexivity. reflexivity.
Defined.

Lemma demoRun_eq : demoRun = (inr demoText, snd demoRun).
Proof. vm_compute. reflexivity. Defined.

(** X9. The scenario of the specification: project p1, location us-central1,
    cluster demo, endpoint 10.0.0.1 and certificate BASE64CERT, no
    kubeconfig yet.  The run succeeds and the document written has the
    cluster entry gke_p1_us-central1_demo with server https://10.0.0.1 and
    that certificate, and that name as current context. *)
Example first_use_scenario :
  fst demoRun = inr demoText
  ∧ os_ReadFile (snd demoRun) demoPath = inr demoBytes
  ∧ demo_Unmarshal demoBytes
    = inr {| Kubeconfig.APIVersion := "v1";
             Kubeconfig.Clusters :=
               [ {| NamedCluster.Name := "gke_p1_us-central1_demo";
                    NamedCluster.Cluster :=
                      {| Cluster.CertificateAuthorityData := "BASE64CERT";
                         Cluster.Server := "https://10.0.0.1" |} |} ];
             Kubeconfig.Contexts :=
               [ {| NamedContext.Name := "gke_p1_us-central1_demo";
                    NamedContext.Context :=
                      {| Context.Cluster := "gke_p1_us-central1_demo";
                         Context.User := "gke_p1_us-central1_demo" |} |} ];
             Kubeconfig.CurrentContext := "gke_p1_us-central1_demo";
             Kubeconfig.Kind := "Config";
             Kubeconfig.Preferences := ∅;
             Kubeconfig.Users := [newUser "gke_p1_us-central1_demo"] |}
  ∧ statMode (os_Stat (snd demoRun) demoPath) = Some mode_0600.
Proof. split_and!; vm_compute; reflexivity. Qed.

(** C1, as stated, fails on a document that already holds the name twice:
    after two merges two cluster entries carry the name, the later one
    still with the values it had in the file. *)
Lemma merge_twice_duplicates_remain :
  let d2 := mergeKubeconfig demoName "CERT2" "https://10.0.0.2"
              (mergeKubeconfig demoName "CERT1" "https://10.0.0.1" duplicatedDoc) in
  filter (λ x, NamedCluster.Name x = demoName) (Kubeconfig.Clusters d2)
  = [newCluster demoName "CERT2" "https://10.0.0.2";
     newCluster demoName "OLDERCERT" "https://10.0.0.8"]
  ∧ length (filter (λ x, NamedCluster.Name x = demoName) (Kubeconfig.Clusters d2)) ≠ 1%nat.
Proof. vm_compute. split; [reflexivity | discriminate]. Qed.

Lemma merge_twice_single_entry_witness :
  let d2 := mergeKubeconfig demoName "CERT2" "https://10.0.0.2"
              (mergeKubeconfig demoName "CERT1" "https://10.0.0.1" existingDoc) in
  (length (filter (λ x, NamedCluster.Name x = demoName)
             (Kubeconfig.Clusters existingDoc)) ≤ 1)%nat
  ∧ filter (λ x, NamedCluster.Name x = demoName) (Kubeconfig.Clusters d2)
    = [newCluster demoName "CERT2" "https://10.0.0.2"]
  ∧ Kubeconfig.Clusters d2 !! 1%nat = Some (newCluster demoName "CERT2" "https://10.0.0.2")
  ∧ length (Kubeconfig.Clusters d2) = 2%nat.
Proof.
  assert (H1 : (length (filter (λ x, NamedCluster.Name x = demoName)
                          (Kubeconfig.Clusters existingDoc)) ≤ 1)%nat)
    by (vm_compute; lia).
  assert (H2 : (length (filter (λ x, NamedContext.Name x = demoName)
                          (Kubeconfig.Contexts existingDoc)) ≤ 1)%nat)
    by (vm_compute; lia).
  assert (H3 : (length (filter (λ x, NamedAuthInfo.Name x = demoName)
                          (Kubeconfig.Users existingDoc)) ≤ 1)%nat)
    by (vm_compute; lia).
  destruct (merge_twice_single_entry "p1" "us-central1" "demo"
              "CERT1" "https://10.0.0.1" "CERT2" "https://10.0.0.2"
              existingDoc H1 H2 H3)
    as ((Hone & _ & _) & (Hidx & _ & _) & (Hlen & _ & _)).
  split; [exact H1 |]. split; [exact Hone |].
  split; [exact (Hidx 1%nat _ eq_refl eq_refl) | reflexivity].
Defined.

Lemma merge_keeps_later_duplicates_witness :
  Kubeconfig.Clusters (mergeKubeconfig demoName "CERT1" "https://10.0.0.1" duplicatedDoc)
  = [newCluster demoName "CERT1" "https://10.0.0.1";
     newCluster otherName "OTHERCERT" "https://10.9.9.9";
     newCluster demoName "OLDERCERT" "https://10.0.0.8"]
  ∧ length (filter (λ x, NamedCluster.Name x = demoName)
              (Kubeconfig.Clusters
                 (mergeKubeconfig demoName "CERT1" "https://10.0.0.1" duplicatedDoc)))
    = 2%nat.
Proof.
  destruct (merge_keeps_later_duplicates demoName "CERT1" "https://10.0.0.1" duplicatedDoc)
    as (Hfirst & _ & _ & Hcount & _).
  split.
  - apply (Hfirst [] (newCluster demoName "OLDCERT" "https://10.0.0.9")
             [newCluster otherName "OTHERCERT" "https://10.9.9.9";
              newCluster demoName "OLDERCERT" "https://10.0.0.8"]).
    + reflexivity.
    + constructor.
    + reflexivity.
  - rewrite Hcount. reflexivity.
Defined.

Lemma bootstrap_missing_file_witness :
  os_ReadFile freshWorld demoPath = inl ENOENT
  ∧ readOnly freshWorld = false
  ∧ demo_Marshal demoDoc = inr demoBytes
  ∧ ∃ w', getKubeconfig demo_Unmarshal demo_Marshal demoHandlers demoArgs freshWorld
          = (inr demoText, w')
          ∧ os_ReadFile w' demoPath = inr demoBytes.
Proof.
  assert (Hread : os_ReadFile freshWorld demoPath = inl ENOENT) by (vm_compute; reflexivity).
  assert (Hm : demo_Marshal demoDoc = inr demoBytes) by (vm_compute; reflexivity).
  split; [exact Hread |]. split; [reflexivity |]. split; [exact Hm |].
  refine (proj2 (proj2
    (bootstrap_missing_file demo_Unmarshal demo_Marshal demoHandlers demoArgs freshWorld
       (containerpb.mkCluster "BASE64CERT" "10.0.0.1") ["home"; "u"]
       demoBytes _ _ _ _ _ _ Hread Hm)));
    solve [reflexivity | discriminate].
Defined.

Lemma endpoint_scheme_normalized_witness :
  ∃ resp homeDir doc b cl,
    ClusterManagerClient.GetCluster (cmClient demoHandlers)
      (requestName (withDefaults demoHandlers demoArgs)) = inr resp
    ∧ HOME freshWorld = Some homeDir
    ∧ demo_Marshal doc = inr b
    ∧ os_ReadFile (snd demoRun) (kubeconfigPathOf homeDir) = inr b
    ∧ cl ∈ Kubeconfig.Clusters doc
    ∧ NamedCluster.Name cl = newClusterNameOf (withDefaults demoHandlers demoArgs)
    ∧ Cluster.Server (NamedCluster.Cluster cl)
      = (if HasPrefix (containerpb.GetEndpoint resp) "https://"
         then containerpb.GetEndpoint resp
         else "https://" +:+ containerpb.GetEndpoint resp)
    ∧ HasPrefix (Cluster.Server (NamedCluster.Cluster cl)) "https://" = true.
Proof.
  exact (endpoint_scheme_normalized demo_Unmarshal demo_Marshal demoHandlers demoArgs
           freshWorld demoText (snd demoRun) demoRun_eq).
Defined.

Lemma empty_certificate_rejected_witness :
  ClusterManagerClient.GetCluster (cmClient demoHandlers)
    (requestName (withDefaults demoHandlers bareArgs))
  = inr (containerpb.mkCluster "" "10.0.0.2")
  ∧ getKubeconfig demo_Unmarshal demo_Marshal demoHandlers bareArgs freshWorld
    = (inl (ErrNoClusterCaCertificate "bare"), freshWorld).
Proof.
  assert (Hresp : ClusterManagerClient.GetCluster (cmClient demoHandlers)
                    (requestName (withDefaults demoHandlers bareArgs))
                  = inr (containerpb.mkCluster "" "10.0.0.2"))
    by reflexivity.
  split; [exact Hresp |].
  refine (proj1
    (empty_certificate_or_endpoint_rejected demo_Unmarshal demo_Marshal demoHandlers
       bareArgs freshWorld (containerpb.mkCluster "" "10.0.0.2") _ Hresp _)).
  - discriminate.
  - left. reflexivity.
Defined.

Lemma unparsable_file_rejected_witness :
  os_ReadFile brokenWorld demoPath = inr (String.list_byte_of_string "clusters: [")
  ∧ ∃ e, getKubeconfig demo_Unmarshal demo_Marshal demoHandlers demoArgs brokenWorld
         = (inl e, brokenWorld)
         ∧ e = ErrUnmarshal demoPath "error converting YAML to JSON".
Proof.
  assert (Hread : os_ReadFile brokenWorld demoPath
                  = inr (String.list_byte_of_string "clusters: ["))
    by (vm_compute; reflexivity).
  split; [exact Hread |].
  destruct (unparsable_file_rejected demo_Unmarshal demo_Marshal demoHandlers demoArgs
              brokenWorld ["home"; "u"] (String.list_byte_of_string "clusters: [")
              "error converting YAML to JSON" eq_refl Hread eq_refl)
    as (e & Hrun & He).
  exists e. split; [exact Hrun |].
  apply (He ltac:(discriminate) (containerpb.mkCluster "BASE64CERT" "10.0.0.1"));
    solve [reflexivity | discriminate].
Defined.

(** C9, as stated, fails on the first use: ~/.kube is missing, the run
    succeeds, and the directory it has made has mode 0755, which lets group
    and others read and search it.  It fails for the file too when the
    file is already there with a wider mode: a kubeconfig of mode 0644 is
    rewritten and still has mode 0644. *)
Lemma written_modes_not_owner_only :
  (os_Stat freshWorld ["home"; "u"; ".kube"] = inl ENOENT
   ∧ fst demoRun = inr demoText
   ∧ statMode (os_Stat (snd demoRun) ["home"; "u"; ".kube"]) = Some mode_0755
   ∧ ¬ owner_only mode_0755)
  ∧ (let run := getKubeconfig demo_Unmarshal demo_Marshal demoHandlers demoArgs
                  usedWorld in
     statMode (os_Stat usedWorld demoPath) = Some 0x1a4%N
     ∧ fst run = inr demoText
     ∧ statMode (os_Stat (snd run) demoPath) = Some 0x1a4%N
     ∧ ¬ owner_only 0x1a4%N).
Proof.
  split.
  - split_and!; [vm_compute; reflexivity .. |].
    unfold owner_only. vm_compute. discriminate.
  - split_and!; [vm_compute; reflexivity .. |].
    unfold owner_only. vm_compute. discriminate.
Qed.

(* On a file system that refuses changes the first use fails at MkdirAll,
   and nothing has changed. *)
Example first_use_read_only :
  getKubeconfig demo_Unmarshal demo_Marshal demoHandlers demoArgs readOnlyWorld
  = (inl (ErrMkdirAll ["home"; "u"; ".kube"] EROFS), readOnlyWorld).
Proof. vm_compute. reflexivity. Qed.

Lemma kubeconfig_written_modes_witness :
  ∃ homeDir doc b,
    HOME freshWorld = Some homeDir
    ∧ demo_Marshal doc = inr b
    ∧ (∀ q, q `prefix_of` filepath_Dir (kubeconfigPathOf homeDir) →
            os_Stat freshWorld q = inl ENOENT →
            ∃ entries,
              os_Stat (snd demoRun) q
              = inr (Dir (N.ldiff mode_0755 (umask freshWorld)) entries))
    ∧ os_Stat (snd demoRun) (kubeconfigPathOf homeDir)
      = inr (File b match os_Stat freshWorld (kubeconfigPathOf homeDir) with
                    | inr (File _ old) => old
                    | _ => N.ldiff mode_0600 (umask freshWorld)
                    end)
    ∧ owner_only (N.ldiff mode_0600 (umask freshWorld)).
Proof.
  exact (kubeconfig_written_modes demo_Unmarshal demo_Marshal demoHandlers demoArgs
           freshWorld demoText (snd demoRun) demoRun_eq).
Defined.

Lemma loadKubeconfig_fills_defaults_witness :
  ∃ d, loadKubeconfig demo_Unmarshal demoPath (snd demoRun) = (inr d, snd demoRun)
       ∧ Kubeconfig.APIVersion d = "v1"
       ∧ Kubeconfig.Kind d = "Config"
       ∧ Kubeconfig.Clusters d = Kubeconfig.Clusters demoDoc.
Proof.
  destruct (loadKubeconfig_fills_defaults demo_Unmarshal demoPath (snd demoRun)
              demoBytes demoDoc)
    as (d & Hload & Hv & Hk & _ & _ & Hcl & _).
  - vm_compute. reflexivity.
  - vm_compute. reflexivity.
  - exists d. split_and!; assumption.
Defined.



Lemma unreadable_file_rejected_witness :
  os_ReadFile blockedWorld demoPath = inl EISDIR
  ∧ getKubeconfig demo_Unmarshal demo_Marshal demoHandlers demoArgs blockedWorld
    = (inl (ErrReadFile demoPath EISDIR), blockedWorld).
Proof.
  assert (Hread : os_ReadFile blockedWorld demoPath = inl EISDIR)
    by (vm_compute; reflexivity).
  split; [exact Hread |].
  refine (unreadable_file_rejected demo_Unmarshal demo_Marshal demoHandlers demoArgs
            blockedWorld (containerpb.mkCluster "BASE64CERT" "10.0.0.1") ["home"; "u"]
            EISDIR _ _ _ _ _ Hread _);
    solve [reflexivity | discriminate].
Defined.


Lemma getKubeconfig_writes_merged_witness :
  ∃ resp homeDir existingKubeconfig b,
    ClusterManagerClient.GetCluster (cmClient demoHandlers)
      (requestName (withDefaults demoHandlers demoArgs)) = inr resp
    ∧ HOME freshWorld = Some homeDir
    ∧ loadKubeconfig demo_Unmarshal (kubeconfigPathOf homeDir) freshWorld
      = (inr existingKubeconfig, freshWorld)
    ∧ demo_Marshal
        (mergeKubeconfig (newClusterNameOf (withDefaults demoHandlers demoArgs))
           (containerpb.GetClusterCaCertificate resp)
           (ensureHTTPS (containerpb.GetEndpoint resp))
           existingKubeconfig)
      = inr b
    ∧ os_ReadFile (snd demoRun) (kubeconfigPathOf homeDir) = inr b
    ∧ demoText
      = successText (withDefaults demoHandlers demoArgs) (kubeconfigPathOf homeDir)
          (newClusterNameOf (withDefaults demoHandlers demoArgs)).
Proof.
  exact (getKubeconfig_writes_merged demo_Unmarshal demo_Marshal demoHandlers demoArgs
           freshWorld demoText (snd demoRun) demoRun_eq).
Defined.

Lemma getKubeconfig_idempotent_witness :
  getKubeconfig demo_Unmarshal demo_Marshal demoHandlers demoArgs (snd demoRun)
  = (inr demoText, snd demoRun).
Proof.
  exact (getKubeconfig_idempotent demo_Unmarshal demo_Marshal demoHandlers demoArgs
           freshWorld demoText (snd demoRun) demo_codec_roundtrip demoRun_eq).
Defined.

Lemma getKubeconfig_leaves_other_paths_witness :
  os_Stat (snd demoRun) ["home"; "u"; ".kube"; "cache"]
    = os_Stat freshWorld ["home"; "u"; ".kube"; "cache"]
  ∧ os_ReadFile (snd demoRun) ["home"; "u"; ".kube"; "cache"]
    = os_ReadFile freshWorld ["home"; "u"; ".kube"; "cache"]
  ∧ umask (snd demoRun) = umask freshWorld
  ∧ HOME (snd demoRun) = HOME freshWorld.
Proof.
  exact (getKubeconfig_leaves_other_paths demo_Unmarshal demo_Marshal demoHandlers
           demoArgs freshWorld (inr demoText) (snd demoRun) ["home"; "u"]
           ["home"; "u"; ".kube"; "cache"] demoRun_eq eq_refl eq_refl).
Defined.

Lemma gkeName_injective_witness :
  "p1" = "p1" ∧ "us-central1" = "us-central1" ∧ "de_mo" = "de_mo".
Proof.
  exact (gkeName_injective "p1" "us-central1" "de_mo" "p1" "us-central1" "de_mo"
           eq_refl eq_refl eq_refl eq_refl eq_refl).
Defined.

Lemma demo_json_roundtrip config data :
  demo_json_MarshalIndent config = inr data →
  demo_json_Unmarshal data {| CursorMCPConfig.MCPServers := Some ∅ |} = inr config.
Proof.
  unfold demo_json_MarshalIndent, demo_json_Unmarshal.
  destruct (decide (config = demoConfig)) as [-> |]; [| discriminate].
  intros [= <-]. rewrite decide_True by reflexivity. reflexivity.
Defined.

Lemma cursorRun_eq : cursorRun = (inr tt, snd cursorRun).
Proof. vm_compute. reflexivity. Defined.

Lemma failedRun_eq : failedRun = (inl (ErrReadGemini ENOENT), snd failedRun).
Proof. vm_compute. reflexivity. Defined.

(* The scenario: a first install for the user writes the configuration
   with mode 0644 and the rule file. *)
Example cursor_first_install :
  os_Stat (snd cursorRun) ["home"; "u"; ".cursor"; "mcp.json"]
    = inr (File demoJSON mode_0644)
  ∧ os_ReadFile (snd cursorRun) ["home"; "u"; ".cursor"; "rules"; "gke-mcp.mdc"]
    = inr (String.list_byte_of_string ruleHeading ++ demoGemini).
Proof. split; vm_compute; reflexivity. Qed.


Lemma CursorMCPExtension_installs_witness :
  ∃ servers data geminiContent,
    readConfiguration demo_json_Unmarshal
      (mcpPathOf (mcpDirOf ["home"; "u"] demoBase false)) projectWorld
    = inr (Some servers)
    ∧ demo_json_MarshalIndent
        {| CursorMCPConfig.MCPServers :=
             Some (<["gke-mcp" := {| CursorMCPServer.Command := demoExe;
                                     CursorMCPServer.Type_ := "stdio" |}]> servers) |}
      = inr data
    ∧ os_ReadFile projectWorld (geminiPathOf demoBase) = inr geminiContent
    ∧ os_ReadFile (snd cursorRun) (mcpPathOf (mcpDirOf ["home"; "u"] demoBase false))
      = inr data
    ∧ os_ReadFile (snd cursorRun) (rulePathOf (mcpDirOf ["home"; "u"] demoBase false))
      = inr (String.list_byte_of_string ruleHeading ++ geminiContent)
    ∧ isDir (snd cursorRun) (rulesDirOf (mcpDirOf ["home"; "u"] demoBase false)).
Proof.
  exact (CursorMCPExtension_installs demo_json_Unmarshal demo_json_MarshalIndent
           demoBase demoExe false projectWorld (snd cursorRun) ["home"; "u"]
           cursorRun_eq eq_refl).
Defined.

Lemma CursorMCPExtension_idempotent_witness :
  CursorMCPExtension demo_json_Unmarshal demo_json_MarshalIndent
    demoBase demoExe false (snd cursorRun)
  = (inr tt, snd cursorRun).
Proof.
  exact (CursorMCPExtension_idempotent demo_json_Unmarshal demo_json_MarshalIndent
           demoBase demoExe false projectWorld (snd cursorRun) ["home"; "u"]
           demo_json_roundtrip cursorRun_eq eq_refl).
Defined.

Lemma CursorMCPExtension_needs_home_witness :
  CursorMCPExtension demo_json_Unmarshal demo_json_MarshalIndent
    demoBase demoExe true homelessWorld
  = (inl ErrHomeDirectory, homelessWorld).
Proof.
  exact (CursorMCPExtension_needs_home demo_json_Unmarshal demo_json_MarshalIndent
           demoBase demoExe true homelessWorld eq_refl).
Defined.

Lemma CursorMCPExtension_fails_after_registering_witness :
  ∃ servers data,
    readConfiguration demo_json_Unmarshal
      (mcpPathOf (mcpDirOf ["home"; "u"] demoBase false)) freshWorld
    = inr (Some servers)
    ∧ demo_json_MarshalIndent (withGkeServer demoExe servers) = inr data
    ∧ os_ReadFile (snd failedRun) (mcpPathOf (mcpDirOf ["home"; "u"] demoBase false))
      = inr data
    ∧ isDir (snd failedRun) (rulesDirOf (mcpDirOf ["home"; "u"] demoBase false))
    ∧ os_ReadFile (snd failedRun) (geminiPathOf demoBase) = inl ENOENT
    ∧ ∀ content m,
        isFile (snd failedRun) (rulePathOf (mcpDirOf ["home"; "u"] demoBase false))
          content m
        ↔ isFile freshWorld (rulePathOf (mcpDirOf ["home"; "u"] demoBase false))
            content m.
Proof.
  exact (CursorMCPExtension_fails_after_registering demo_json_Unmarshal
           demo_json_MarshalIndent demoBase demoExe false freshWorld (snd failedRun)
           ["home"; "u"] ENOENT failedRun_eq eq_refl).
Defined.

Lemma CursorMCPExtension_unparsable_witness :
  CursorMCPExtension demo_json_Unmarshal demo_json_MarshalIndent
    demoBase demoExe false (configuredWorld (String.list_byte_of_string "{"))
  = (inl (ErrParseConfiguration "unexpected end of JSON input"),
     configuredWorld (String.list_byte_of_string "{")).
Proof.
  exact (CursorMCPExtension_unparsable demo_json_Unmarshal demo_json_MarshalIndent
           demoBase demoExe false (configuredWorld (String.list_byte_of_string "{"))
           ["home"; "u"] (String.list_byte_of_string "{")
           "unexpected end of JSON input" eq_refl eq_refl eq_refl).
Defined.

Lemma CursorMCPExtension_null_servers_panics_witness :
  CursorMCPExtension demo_json_Unmarshal demo_json_MarshalIndent
    demoBase demoExe false (configuredWorld nullJSON)
  = (inl PanicNilMap, configuredWorld nullJSON).
Proof.
  exact (CursorMCPExtension_null_servers_panics demo_json_Unmarshal
           demo_json_MarshalIndent demoBase demoExe false (configuredWorld nullJSON)
           ["home"; "u"] nullJSON eq_refl eq_refl eq_refl).
Defined.

Lemma filterForCluster_orders_witness :
  filterForCluster quoted demoRange "demo" "us-central1"
  = ("resource.labels.location = " +:+ quoted "us-central1")
      +:+ " AND " +:+ ("resource.labels.cluster_name = " +:+ quoted "demo")
  ∨ filterForCluster quoted demoRange "demo" "us-central1"
    = ("resource.labels.cluster_name = " +:+ quoted "demo")
        +:+ " AND " +:+ ("resource.labels.location = " +:+ quoted "us-central1").
Proof.
  exact (filterForCluster_orders quoted demoRange (λ params, Permutation_refl _)
           "demo" "us-central1").
Defined.

Lemma listLogs_all_or_nothing_witness :
  ∃ filter,
    (filter = "resource.labels.location = " +:+ quoted "us-central1"
                +:+ " AND resource.labels.cluster_name = " +:+ quoted "demo"
     ∨ filter = "resource.labels.cluster_name = " +:+ quoted "demo"
                  +:+ " AND resource.labels.location = " +:+ quoted "us-central1")
    ∧ listLogs (λ entry : string, entry) quoted demoRange (inr brokenEntries)
        (c demoHandlers) "2025-01-01T00:00:00Z" demoRequest
      = NewToolResultError "rpc error: code = Unavailable".
Proof.
  destruct (listLogs_all_or_nothing (λ entry : string, entry) quoted demoRange
              (λ params, Permutation_refl _) (c demoHandlers) "2025-01-01T00:00:00Z"
              demoRequest brokenEntries)
    as (filter & Hfilter & Hrun); [vm_compute; discriminate .. |].
  exists filter. split; [exact Hfilter | exact Hrun].
Defined.

(* The same request where the iterator ends with Done. *)
Example listLogs_two_entries :
  listLogs (λ entry : string, entry) quoted demoRange (inr demoEntries)
    (c demoHandlers) "2025-01-01T00:00:00Z" demoRequest
  = NewToolResultText "{1}{2}".
Proof. vm_compute. reflexivity. Qed.

(* A project given as the empty string is not replaced by the default. *)
Example listLogs_empty_project :
  listLogs (λ entry : string, entry) quoted demoRange (inr demoEntries)
    (c demoHandlers) "2025-01-01T00:00:00Z"
    (<["project_id" := StringArgument ""]> demoRequest)
  = NewToolResultError "project_id argument not set".
Proof. vm_compute. reflexivity. Qed.

Lemma merge_two_clusters_witness :
  (newCluster demoName "BASE64CERT" "https://10.0.0.1" ∈ Kubeconfig.Clusters twoClusters
   ∧ newCluster otherName "NEWCERT" "https://10.9.9.1" ∈ Kubeconfig.Clusters twoClusters)
  ∧ (newContext demoName ∈ Kubeconfig.Contexts twoClusters
     ∧ newContext otherName ∈ Kubeconfig.Contexts twoClusters)
  ∧ (newUser demoName ∈ Kubeconfig.Users twoClusters
     ∧ newUser otherName ∈ Kubeconfig.Users twoClusters)
  ∧ Kubeconfig.CurrentContext twoClusters = otherName.
Proof.
  apply (merge_two_clusters demoName "BASE64CERT" "https://10.0.0.1"
           otherName "NEWCERT" "https://10.9.9.1" duplicatedDoc).
  vm_compute. discriminate.
Defined.

Lemma merge_back_switches_context_witness :
  mergeKubeconfig demoName "BASE64CERT" "https://10.0.0.1" twoClusters
  = {| Kubeconfig.APIVersion := Kubeconfig.APIVersion twoClusters;
       Kubeconfig.Clusters := Kubeconfig.Clusters twoClusters;
       Kubeconfig.Contexts := Kubeconfig.Contexts twoClusters;
       Kubeconfig.CurrentContext := demoName;
       Kubeconfig.Kind := Kubeconfig.Kind twoClusters;
       Kubeconfig.Preferences := Kubeconfig.Preferences twoClusters;
       Kubeconfig.Users := Kubeconfig.Users twoClusters |}.
Proof.
  apply (merge_back_switches_context demoName "BASE64CERT" "https://10.0.0.1"
           otherName "NEWCERT" "https://10.9.9.1" duplicatedDoc).
  vm_compute. discriminate.
Defined.

Lemma CursorMCPExtension_modes_witness :
  (∃ data,
     isFile (snd cursorRun) (mcpPathOf (mcpDirOf ["home"; "u"] demoBase false)) data
       match os_Stat projectWorld (mcpPathOf (mcpDirOf ["home"; "u"] demoBase false)) with
       | inr (File _ old) => old
       | _ => N.ldiff mode_0644 (umask projectWorld)
       end)
  ∧ (∃ content,
       isFile (snd cursorRun) (rulePathOf (mcpDirOf ["home"; "u"] demoBase false)) content
         match os_Stat projectWorld (rulePathOf (mcpDirOf ["home"; "u"] demoBase false)) with
         | inr (File _ old) => old
         | _ => N.ldiff mode_0644 (umask projectWorld)
         end).
Proof.
  exact (CursorMCPExtension_modes demo_json_Unmarshal demo_json_MarshalIndent
           demoBase demoExe false projectWorld (snd cursorRun) ["home"; "u"]
           cursorRun_eq eq_refl).
Defined.
